(** * Security and operational-control plane of snowflake-devhub

    A shallow embedding of the server's permission engine, permission gate,
    rate limiter, maintenance gate, user repository, login / registration
    routes, token middleware and the admin routes on a user, with the
    properties the specification states about them.

    Conventions of the embedding.
    - JavaScript numbers that the code uses as integers (counters,
      millisecond timestamps, limits, the numeric settings) are [Z]; the
      range of [Date] is written out where the code depends on it.
    - Strings are strings of bytes.  [toUpperCase], [toLowerCase] and
      [trim] are the JavaScript functions on ASCII text ([Js.isAscii]);
      JavaScript also folds and strips characters outside ASCII, so a
      property that depends on the folding of an arbitrary input carries
      [Js.isAscii] as a hypothesis.
    - [undefined] / [null] are [None].
    - A datetime column holds text, UTC wall-clock time without a zone
      suffix; it is represented by the instant that text denotes in UTC, in
      milliseconds since the epoch ([None] for NULL).  What
      [new Date(text).getTime()] makes of the text depends on the time zone
      of the process and is the function [dateParse] of [Env].
    - The [users] table is the list of its rows; an [UPDATE ... WHERE] maps
      over the rows, a [SELECT ... WHERE] with [.get] returns the first
      match.  Database calls do not fail, except where a constraint of the
      schema makes them.
    - [Date.now()] is an explicit argument of the function that reads it.
    - Token signing, password hashing, the process environment and the
      values the settings accessors return are the class [Env]. *)

From Stdlib Require Import ZArith Bool List String Ascii Lia Sorted.
From stdpp Require Import base option list gmap strings.

Import ListNotations.
Set Warnings "-register-all".
Local Open Scope string_scope.
Local Open Scope list_scope.
Local Open Scope Z_scope.

(** ** JavaScript string primitives *)

Module Js.

(** [toUpperCase] and [toLowerCase] on ASCII text: the letters a-z and A-Z
    are folded, every other code unit is kept. *)
Definition upperAscii (c : ascii) : ascii :=
  let n := nat_of_ascii c in
  if (Nat.leb 97 n && Nat.leb n 122)%bool then ascii_of_nat (n - 32) else c.

Definition lowerAscii (c : ascii) : ascii :=
  let n := nat_of_ascii c in
  if (Nat.leb 65 n && Nat.leb n 90)%bool then ascii_of_nat (n + 32) else c.

Fixpoint mapString (f : ascii -> ascii) (s : string) : string :=
  match s with
  | EmptyString => EmptyString
  | String c rest => String (f c) (mapString f rest)
  end.

Definition toUpperCase : string -> string := mapString upperAscii.
Definition toLowerCase : string -> string := mapString lowerAscii.

(** Text within ASCII: every code unit is below 128. *)
Definition isAsciiChar (c : ascii) : bool := Nat.ltb (nat_of_ascii c) 128.

Fixpoint isAscii (s : string) : bool :=
  match s with
  | EmptyString => true
  | String c rest => isAsciiChar c && isAscii rest
  end.

(** [s.startsWith(p)] *)
Definition startsWith (s p : string) : bool := String.prefix p s.

(** [s.includes(p)] *)
Fixpoint includes (s p : string) : bool :=
  String.prefix p s ||
  match s with
  | EmptyString => false
  | String _ rest => includes rest p
  end.

(** [arr.includes(x)] on an array of strings *)
Definition arrayIncludes (arr : list string) (x : string) : bool :=
  existsb (String.eqb x) arr.

(** Truthiness of a string-or-undefined value: [undefined], [null] and the
    empty string are falsy. *)
Definition truthy (v : option string) : bool :=
  match v with
  | None => false
  | Some s => negb (String.eqb s "")
  end.

(** [v || d] on strings *)
Definition orString (v : option string) (d : string) : string :=
  match v with
  | Some s => if String.eqb s "" then d else s
  | None => d
  end.

(** [n || d] on numbers (0 is falsy) *)
Definition orNumber (n : option Z) (d : Z) : Z :=
  match n with
  | Some z => if z =? 0 then d else z
  | None => d
  end.

(** The first piece of [s.split(sep)] and the rest after the first
    separator, when there is one. *)
Fixpoint splitFirst (sep : ascii) (s : string) : string * option string :=
  match s with
  | EmptyString => (EmptyString, None)
  | String c rest =>
      if Ascii.eqb c sep then (EmptyString, Some rest)
      else let (hd, tl) := splitFirst sep rest in (String c hd, tl)
  end.

(** [s.split(sep)[0]] *)
Definition splitAt0 (sep : ascii) (s : string) : string :=
  fst (splitFirst sep s).

(** [s.split(sep)[1]]: [undefined] when [s] has no separator. *)
Definition splitAt1 (sep : ascii) (s : string) : option string :=
  match snd (splitFirst sep s) with
  | None => None
  | Some rest => Some (splitAt0 sep rest)
  end.

(** The white space of ASCII (space, tab, line feed, vertical tab, form
    feed, carriage return), which is what [trim] strips from ASCII text. *)
Definition isWhite (c : ascii) : bool :=
  let n := nat_of_ascii c in
  (Nat.eqb n 32 || (Nat.leb 9 n && Nat.leb n 13))%bool.

Fixpoint trimStart (s : string) : string :=
  match s with
  | EmptyString => EmptyString
  | String c rest => if isWhite c then trimStart rest else s
  end.

Fixpoint trimEnd (s : string) : string :=
  match s with
  | EmptyString => EmptyString
  | String c rest =>
      match trimEnd rest with
      | EmptyString => if isWhite c then EmptyString else String c EmptyString
      | t => String c t
      end
  end.

(** [s.trim()] *)
Definition trim (s : string) : string := trimEnd (trimStart s).

(** [Math.ceil(a / b)] for an integer [a] and a positive integer [b]. *)
Definition ceilDiv (a b : Z) : Z := - ((- a) / b).

End Js.

(** ** JSON values, for response bodies and audit metadata *)

Inductive json : Type :=
  | JNull
  | JBool (b : bool)
  | JNum (n : Z)
  | JStr (s : string)
  | JArr (items : list json)
  | JObj (fields : list (string * json)).

(** An HTTP middleware either hands the request on ([next()]) or answers
    it: [res.status(code).json(body)]. *)
Inductive outcome (A : Type) : Type :=
  | Next (passed : A)
  | Respond (status : Z) (body : json).
Arguments Next {A} passed.
Arguments Respond {A} status body.

(** ** security/permissions.js *)

Module Permissions.

Definition SUPER_ADMIN := "SUPER_ADMIN".
Definition ADMIN := "ADMIN".
Definition MODERATOR := "MODERATOR".
Definition USER := "USER".
Definition READ_ONLY := "READ_ONLY".

(** [Object.values(Roles)] *)
Definition Roles : list string :=
  [SUPER_ADMIN; ADMIN; MODERATOR; USER; READ_ONLY].

Definition SNIPPET_READ_SELF := "snippet.read.self".
Definition SNIPPET_WRITE_SELF := "snippet.write.self".
Definition SNIPPET_DELETE_SELF := "snippet.delete.self".
Definition SNIPPET_PUBLIC_PUBLISH := "snippet.public.publish".
Definition COMMUNITY_VIEW_PUBLIC := "community.view.public".
Definition ADMIN_PANEL_ACCESS := "admin.panel.access".
Definition ADMIN_USERS_READ := "admin.users.read".
Definition ADMIN_USERS_WRITE := "admin.users.write".
Definition ADMIN_SNIPPETS_MODERATE := "admin.snippets.moderate".
Definition ADMIN_SYSTEM_SETTINGS_WRITE := "admin.system.settings.write".
Definition ADMIN_AUDIT_READ := "admin.audit.read".
Definition MODERATION_QUEUE_READ := "moderation.queue.read".
Definition MODERATION_ACTIONS_WRITE := "moderation.actions.write".

(** [Object.values(Permissions)], in declaration order *)
Definition Permissions : list string :=
  [ SNIPPET_READ_SELF; SNIPPET_WRITE_SELF; SNIPPET_DELETE_SELF;
    SNIPPET_PUBLIC_PUBLISH; COMMUNITY_VIEW_PUBLIC; ADMIN_PANEL_ACCESS;
    ADMIN_USERS_READ; ADMIN_USERS_WRITE; ADMIN_SNIPPETS_MODERATE;
    ADMIN_SYSTEM_SETTINGS_WRITE; ADMIN_AUDIT_READ; MODERATION_QUEUE_READ;
    MODERATION_ACTIONS_WRITE ].

(** The object [rolePermissions]: a property lookup by key.  A [Set] is the
    list of its members in insertion order; [has] is membership. *)
Definition rolePermissions (key : string) : option (list string) :=
  if String.eqb key SUPER_ADMIN then Some Permissions
  else if String.eqb key ADMIN then
    Some [ SNIPPET_READ_SELF; SNIPPET_WRITE_SELF; SNIPPET_DELETE_SELF;
           SNIPPET_PUBLIC_PUBLISH; COMMUNITY_VIEW_PUBLIC; ADMIN_PANEL_ACCESS;
           ADMIN_USERS_READ; ADMIN_USERS_WRITE; ADMIN_SNIPPETS_MODERATE;
           ADMIN_SYSTEM_SETTINGS_WRITE; ADMIN_AUDIT_READ;
           MODERATION_QUEUE_READ; MODERATION_ACTIONS_WRITE ]
  else if String.eqb key MODERATOR then
    Some [ SNIPPET_READ_SELF; SNIPPET_WRITE_SELF; SNIPPET_DELETE_SELF;
           SNIPPET_PUBLIC_PUBLISH; COMMUNITY_VIEW_PUBLIC; ADMIN_PANEL_ACCESS;
           ADMIN_USERS_READ; ADMIN_SNIPPETS_MODERATE; MODERATION_QUEUE_READ;
           MODERATION_ACTIONS_WRITE; ADMIN_AUDIT_READ ]
  else if String.eqb key USER then
    Some [ SNIPPET_READ_SELF; SNIPPET_WRITE_SELF; SNIPPET_DELETE_SELF;
           SNIPPET_PUBLIC_PUBLISH; COMMUNITY_VIEW_PUBLIC ]
  else if String.eqb key READ_ONLY then
    Some [ SNIPPET_READ_SELF; COMMUNITY_VIEW_PUBLIC ]
  else None.

Definition setHas (s : list string) (x : string) : bool :=
  existsb (String.eqb x) s.

Definition normalizeRole (role : option string) : string :=
  match role with
  | None => USER
  | Some r =>
      if String.eqb r "" then USER
      else
        let normalized := Js.toUpperCase r in
        match rolePermissions normalized with
        | Some _ => normalized
        | None => USER
        end
  end.

Definition getPermissionsByRole (role : option string) : list string :=
  let normalizedRole := normalizeRole role in
  match rolePermissions normalizedRole with
  | Some perms => perms
  | None => default [] (rolePermissions USER)
  end.

Definition hasPermission (role permission : option string) : bool :=
  if negb (Js.truthy permission) then false
  else setHas (getPermissionsByRole role) (default "" permission).

(** [Array.prototype.sort] on strings: ascending by code unit. *)
Fixpoint insertSorted (x : string) (l : list string) : list string :=
  match l with
  | [] => [x]
  | y :: rest => if String.leb x y then x :: l else y :: insertSorted x rest
  end.

Definition sortStrings (l : list string) : list string :=
  fold_right insertSorted [] l.

Definition getRolePermissionList (role : option string) : list string :=
  sortStrings (getPermissionsByRole role).

End Permissions.

(** ** The request object and the external collaborators *)

(** [req.user], as the middlewares leave it for the route handlers. *)
Record auth_user : Type := mkAuthUser {
  ru_id : Z;
  ru_username : string;
  ru_role : option string;
  ru_status : string;
  ru_is_admin : Z;
  ru_session_version : Z;
  ru_force_password_reset : bool;
  ru_permissions : option (list string)
}.

(** The parts of an Express request the modelled code reads. *)
Record request : Type := mkRequest {
  req_path : string;
  req_bytestashauth : option string;       (* headers.bytestashauth *)
  req_cookies : option (option string);    (* cookies, then cookies.bytestash_token *)
  req_x_forwarded_for : option string;     (* headers["x-forwarded-for"] *)
  req_ip : option string;
  req_user_agent : option string;
  req_body_username : option string;
  req_body_password : option string;
  req_user : option auth_user;
  req_apiKey : bool
}.

Definition withUser (req : request) (u : auth_user) : request :=
  {| req_path := req_path req;
     req_bytestashauth := req_bytestashauth req;
     req_cookies := req_cookies req;
     req_x_forwarded_for := req_x_forwarded_for req;
     req_ip := req_ip req;
     req_user_agent := req_user_agent req;
     req_body_username := req_body_username req;
     req_body_password := req_body_password req;
     req_user := Some u;
     req_apiKey := req_apiKey req |}.

(** The payload [createSessionToken] signs. *)
Record payload : Type := mkPayload {
  p_id : Z;
  p_username : string;
  p_role : string;
  p_status : string;
  p_sessionVersion : option Z
}.

(** What the modelled code is given: the token library, the password hash,
    the process environment, the random source, and the settings accessors
    of [core/systemConfigRepository.js], which are taken by what they
    return during the request (a string for [getSetting], an integer for
    [getNumberSetting]); the cache and the table behind them play no part
    in the properties below. *)
Class Env : Type := mkEnv {
  jwt_sign : payload -> string;
  jwt_verify : string -> option payload;      (* [None]: verify throws *)
  bcrypt_hash : string -> string;
  bcrypt_compare : string -> string -> bool;
  getSetting : string -> string -> string;    (* key, fallback *)
  getNumberSetting : string -> Z -> Z;        (* key, fallback *)
  BASE_PATH : option string;
  DISABLE_ACCOUNTS : bool;
  DISABLE_INTERNAL_ACCOUNTS : bool;
  generateAnonymousUsername : string;
  (* [new Date(text).getTime()] for the column text that denotes the given
     instant in UTC; [None] is NaN.  The identity for a process in UTC. *)
  dateParse : Z -> option Z
}.

(** ** core/systemConfigRepository.js: [getFoundationSettings] *)

Module SystemConfig.

Record rateLimit : Type := mkRateLimit {
  windowMs : Z;
  authMax : Z;
  publicMax : Z;
  generalMax : Z
}.

Record lockout : Type := mkLockout {
  maxAttempts : Z;
  durationMinutes : Z
}.

Record foundation : Type := mkFoundation {
  registrationMode : string;
  communityMode : string;
  maintenanceMode : string;
  security_lockout : lockout;
  security_rateLimit : rateLimit
}.

Definition getFoundationSettings `{Env} : foundation :=
  {| registrationMode := getSetting "registration.mode" "OPEN";
     communityMode := getSetting "community.mode" "OFF";
     maintenanceMode := getSetting "maintenance.mode" "OFF";
     security_lockout :=
       {| maxAttempts := getNumberSetting "security.lockout.max_attempts" 5;
          durationMinutes :=
            getNumberSetting "security.lockout.duration_minutes" 15 |};
     security_rateLimit :=
       {| windowMs := getNumberSetting "security.rate_limit.window_ms" 60000;
          authMax := getNumberSetting "security.rate_limit.auth_max" 20;
          publicMax := getNumberSetting "security.rate_limit.public_max" 120;
          generalMax :=
            getNumberSetting "security.rate_limit.general_max" 300 |} |}.

End SystemConfig.

(** ** The rate limiter *)

Module RateLimiter.
Import SystemConfig.

Record bucket : Type := mkBucket {
  count : Z;
  windowStart : Z;
  bucketWindowMs : Z
}.

(** What the limiter does to the response: the headers it sets, in order
    (values before [String(...)]), and whether it calls [next()] or sends
    the 429. *)
Record reply : Type := mkReply {
  headers : list (string * Z);
  verdict : outcome unit
}.

Definition getClientIp (req : request) : string :=
  let forwarded :=
    match req_x_forwarded_for req with
    | Some h => Some (Js.trim (Js.splitAt0 "," h))
    | None => None
    end in
  if Js.truthy forwarded then default "" forwarded
  else if Js.truthy (req_ip req) then default "" (req_ip req)
  else "unknown".

Definition getScopeLimit (scope : string) (rateConfig : rateLimit) : Z :=
  if String.eqb scope "auth" then authMax rateConfig
  else if String.eqb scope "public" then publicMax rateConfig
  else generalMax rateConfig.

Definition bucketKey (scope : string) (req : request) : string :=
  scope +:+ ":" +:+ getClientIp req.

(** The middleware returned by [createRateLimiter(scope)], run at time
    [now] on the shared [buckets] map. *)
Definition rateLimiter `{Env} (scope : string) (now : Z) (req : request)
    (buckets : gmap string bucket) : gmap string bucket * reply :=
  let settings := getFoundationSettings in
  let windowMs := windowMs (security_rateLimit settings) in
  let limit := getScopeLimit scope (security_rateLimit settings) in
  let key := bucketKey scope req in
  match buckets !! key with
  | Some existing =>
      if now - windowStart existing >=? windowMs then
        (<[key := mkBucket 1 now windowMs]> buckets,
         mkReply [("X-RateLimit-Limit", limit);
                  ("X-RateLimit-Remaining", limit - 1)] (Next tt))
      else
        let existing' :=
          mkBucket (count existing + 1) (windowStart existing)
                   (bucketWindowMs existing) in
        let remaining := Z.max 0 (limit - count existing') in
        let hs := [("X-RateLimit-Limit", limit);
                   ("X-RateLimit-Remaining", remaining)] in
        if count existing' >? limit then
          let retryAfterSeconds :=
            Js.ceilDiv (windowStart existing' + windowMs - now) 1000 in
          (<[key := existing']> buckets,
           mkReply (hs ++ [("Retry-After", Z.max 1 retryAfterSeconds)])
             (Respond 429 (JObj [("error", JStr "Too many requests");
                                 ("scope", JStr scope)])))
        else (<[key := existing']> buckets, mkReply hs (Next tt))
  | None =>
      (<[key := mkBucket 1 now windowMs]> buckets,
       mkReply [("X-RateLimit-Limit", limit);
                ("X-RateLimit-Remaining", limit - 1)] (Next tt))
  end.

(** One run of the cleanup timer. *)
Definition cleanup (now : Z) (buckets : gmap string bucket)
    : gmap string bucket :=
  filter (fun kv => negb (now - windowStart kv.2 >? bucketWindowMs kv.2 * 2) = true)
         buckets.

End RateLimiter.

(** ** security/aclMiddleware.js *)

Module AclMiddleware.
Import Permissions.

Definition attachPermissionContext (req : request) : request :=
  match req_user req with
  | Some u =>
      let role := normalizeRole (ru_role u) in
      withUser req
        {| ru_id := ru_id u; ru_username := ru_username u;
           ru_role := Some role; ru_status := ru_status u;
           ru_is_admin := ru_is_admin u;
           ru_session_version := ru_session_version u;
           ru_force_password_reset := ru_force_password_reset u;
           ru_permissions := Some (getRolePermissionList (Some role)) |}
  | None => req
  end.

Definition requirePermission (permission : option string) (req : request)
    : outcome request :=
  match req_user req with
  | None => Respond 401 (JObj [("message", JStr "Authentication required")])
  | Some u =>
      let role := normalizeRole (ru_role u) in
      if negb (hasPermission (Some role) permission) then
        Respond 403 (JObj [("message", JStr "Insufficient permissions")])
      else Next req
  end.

Definition requireAnyPermission (permissions : list (option string))
    (req : request) : outcome request :=
  match req_user req with
  | None => Respond 401 (JObj [("message", JStr "Authentication required")])
  | Some u =>
      let role := normalizeRole (ru_role u) in
      let granted := existsb (hasPermission (Some role)) permissions in
      if negb granted then
        Respond 403 (JObj [("message", JStr "Insufficient permissions")])
      else Next req
  end.

End AclMiddleware.

(** A call that may throw. *)
Inductive result (A : Type) : Type :=
  | Ok (value : A)
  | Throw (message : string).
Arguments Ok {A} value.
Arguments Throw {A} message.

(** ** security/auditLogRepository.js *)

Module AuditLog.

Record entry : Type := mkEntry {
  actor_id : option Z;
  action : string;
  target_type : option string;
  target_id : option json;        (* before [String(...)] *)
  metadata : option json;         (* before [JSON.stringify] *)
  ip_address : option string;
  user_agent : option string
}.

Definition getRequestContext (req : option request)
    : option string * option string :=
  match req with
  | None => (None, None)
  | Some r =>
      let forwarded :=
        match req_x_forwarded_for r with
        | Some h => Some (Js.trim (Js.splitAt0 "," h))
        | None => None
        end in
      let ipAddress :=
        if Js.truthy forwarded then forwarded
        else if Js.truthy (req_ip r) then req_ip r
        else None in
      let userAgent :=
        if Js.truthy (req_user_agent r) then req_user_agent r else None in
      (ipAddress, userAgent)
  end.

(** [log({actorId, action, targetType, targetId, metadata, req})] appends
    one row; the insert is taken to succeed (a failing insert is swallowed
    by the code and leaves the table as it is). *)
Definition log (actorId : option Z) (action : string)
    (targetType : option string) (targetId : option json)
    (metadata : option json) (req : option request)
    (rows : list entry) : list entry :=
  if String.eqb action "" then rows
  else
    let context := getRequestContext req in
    rows ++ [ {| actor_id := actorId; action := action;
                 target_type := targetType; target_id := targetId;
                 metadata := metadata;
                 ip_address := fst context;
                 user_agent := snd context |} ].

End AuditLog.

(** ** repositories/userRepository.js *)

Module UserRepository.

(** A row of [users], with the columns the modelled code reads or writes
    (the primary key [id] is [uid] here).  Queries return the whole row. *)
Record user : Type := mkUser {
  uid : Z;
  username : string;
  username_normalized : option string;
  password_hash : string;
  role : string;
  status : string;
  is_admin : Z;
  is_active : Z;
  failed_login_attempts : Z;
  locked_until : option Z;
  force_password_reset : Z;
  session_version : Z;
  last_login_at : option Z
}.

(** The database: the [users] rows, the AUTOINCREMENT high-water mark of
    [users], the [audit_logs] rows, and a record of the password
    comparisons made so far (kept only to state which calls happened). *)
Record database : Type := mkDatabase {
  users : list user;
  users_seq : Z;
  audit_logs : list AuditLog.entry;
  comparisons : list (Z * string)
}.

Definition setUsers (rows : list user) (db : database) : database :=
  {| users := rows; users_seq := users_seq db;
     audit_logs := audit_logs db; comparisons := comparisons db |}.

Definition setAudit (rows : list AuditLog.entry) (db : database) : database :=
  {| users := users db; users_seq := users_seq db;
     audit_logs := rows; comparisons := comparisons db |}.

(** [UPDATE users SET ... WHERE p]: the new rows and [result.changes]. *)
Definition updateWhere (p : user -> bool) (f : user -> user)
    (rows : list user) : list user :=
  map (fun r => if p r then f r else r) rows.

Definition changes (p : user -> bool) (rows : list user) : Z :=
  Z.of_nat (length (filter (fun r => p r = true) rows)).

Definition runUpdate (p : user -> bool) (f : user -> user) (db : database)
    : database * Z :=
  (setUsers (updateWhere p f (users db)) db, changes p (users db)).

(** [WHERE username_normalized = ? COLLATE NOCASE] *)
Definition matchesUsername (name : string) (r : user) : bool :=
  match username_normalized r with
  | Some n => String.eqb (Js.toLowerCase n) (Js.toLowerCase name)
  | None => false
  end.

Definition findByUsername (name : string) (db : database) : option user :=
  find (matchesUsername (Js.toLowerCase name)) (users db).

Definition findById (i : Z) (db : database) : option user :=
  find (fun r => uid r =? i) (users db).

Definition nextRowid (db : database) : Z :=
  Z.max (users_seq db) (fold_right Z.max 0 (map uid (users db))) + 1.

(** The row [createUserStmt] inserts: the five bound values, and the
    schema defaults for the other columns. *)
Definition insertedRow (rowid : Z) (name normalized hash : string)
    (newRole newStatus : string) : user :=
  {| uid := rowid; username := name;
     username_normalized := Some normalized;
     password_hash := hash; role := newRole; status := newStatus;
     is_admin := 0; is_active := 1; failed_login_attempts := 0;
     locked_until := None; force_password_reset := 0;
     session_version := 1; last_login_at := None |}.

(** The two uniqueness constraints of [users]: the column [username] is
    UNIQUE, and [idx_users_username_normalized] is a unique index on
    [username_normalized COLLATE NOCASE] (a NULL there conflicts with
    nothing). *)
Definition usernameTaken (name : string) (db : database) : bool :=
  existsb (fun r => String.eqb (username r) name) (users db).

Definition normalizedTaken (normalized : string) (db : database) : bool :=
  existsb (matchesUsername normalized) (users db).

(** [create(username, password, options)].  A constraint failure of
    better-sqlite3 has the code [SQLITE_CONSTRAINT_UNIQUE], which the
    [catch] does not recognise, so the error of the insert is thrown on as
    it is; the index, created after the table, is the constraint reported
    when both fail. *)
Definition create `{Env} (name password : string)
    (options_role options_status : option string) (db : database)
    : database * result (option user) :=
  let passwordHash := bcrypt_hash password in
  let normalizedUsername := Js.toLowerCase name in
  let role := Js.orString options_role "USER" in
  let status := Js.orString options_status "ACTIVE" in
  if normalizedTaken normalizedUsername db then
    (db, Throw "UNIQUE constraint failed: users.username_normalized")
  else if usernameTaken name db then
    (db, Throw "UNIQUE constraint failed: users.username")
  else
    let lastInsertRowid := nextRowid db in
    let row :=
      insertedRow lastInsertRowid name normalizedUsername passwordHash
        role status in
    let db' :=
      {| users := users db ++ [row]; users_seq := lastInsertRowid;
         audit_logs := audit_logs db; comparisons := comparisons db |} in
    (db', Ok (findById lastInsertRowid db')).

Definition verifyPassword `{Env} (u : option user) (password : option string)
    (db : database) : database * result bool :=
  match u with
  | None => (db, Ok false)
  | Some usr =>
      if String.eqb (password_hash usr) "" then (db, Ok false)
      else
        match password with
        | None => (db, Throw "data and hash arguments required")
        | Some pw =>
            ({| users := users db; users_seq := users_seq db;
                audit_logs := audit_logs db;
                comparisons := comparisons db ++ [(uid usr, pw)] |},
             Ok (bcrypt_compare pw (password_hash usr)))
        end
  end.

Definition anonymousRow (name : string) : user :=
  {| uid := 0; username := name;
     username_normalized := Some (Js.toLowerCase name);
     password_hash := ""; role := "READ_ONLY"; status := "ACTIVE";
     is_admin := 0; is_active := 1; failed_login_attempts := 0;
     locked_until := None; force_password_reset := 0;
     session_version := 1; last_login_at := None |}.

(** [createAnonymousUser]: the insert does nothing when a row 0 exists
    ([ON CONFLICT(id) DO NOTHING]) and fails on the other two constraints;
    the object returned is built from the arguments, not read back. *)
Definition createAnonymousUser (name : string) (db : database)
    : database * result user :=
  if existsb (fun r => uid r =? 0) (users db) then (db, Ok (anonymousRow name))
  else if normalizedTaken (Js.toLowerCase name) db then
    (db, Throw "UNIQUE constraint failed: users.username_normalized")
  else if usernameTaken name db then
    (db, Throw "UNIQUE constraint failed: users.username")
  else
    (setUsers (users db ++ [anonymousRow name]) db, Ok (anonymousRow name)).

Definition updateLastLogin (userId now : Z) (db : database) : database :=
  fst (runUpdate (fun r => uid r =? userId)
         (fun r =>
            {| uid := uid r; username := username r;
               username_normalized := username_normalized r;
               password_hash := password_hash r; role := role r;
               status := status r; is_admin := is_admin r;
               is_active := is_active r;
               failed_login_attempts := 0; locked_until := None;
               force_password_reset := force_password_reset r;
               session_version := session_version r;
               last_login_at := Some now |}) db).

(** [updateFailedLoginStmt]: the two columns it writes. *)
Definition setFailedLogin (attempts : Z) (until : option Z) (r : user) : user :=
  {| uid := uid r; username := username r;
     username_normalized := username_normalized r;
     password_hash := password_hash r; role := role r;
     status := status r; is_admin := is_admin r; is_active := is_active r;
     failed_login_attempts := attempts; locked_until := until;
     force_password_reset := force_password_reset r;
     session_version := session_version r;
     last_login_at := last_login_at r |}.

(** The largest time value of a [Date]: [new Date(v)] is invalid beyond it
    and [toISOString()] of an invalid date throws a [RangeError]. *)
Definition MAX_TIME_VALUE : Z := 8640000000000000.

(** [recordFailedLogin(user, {maxAttempts, lockoutMinutes})].  The counter
    written is the one of the object passed in plus one; the lock text is
    computed before the statement runs, so when it cannot be computed
    nothing is written. *)
Definition recordFailedLogin (u : option user)
    (maxAttempts lockoutMinutes : option Z) (now : Z) (db : database)
    : database * result unit :=
  let maxAttempts := default 5 maxAttempts in
  let lockoutMinutes := default 15 lockoutMinutes in
  match u with
  | None => (db, Ok tt)
  | Some usr =>
      let currentAttempts := Js.orNumber (Some (failed_login_attempts usr)) 0 in
      let nextAttempts := currentAttempts + 1 in
      if nextAttempts >=? maxAttempts then
        let instant := now + Z.max 1 lockoutMinutes * 60 * 1000 in
        if Z.abs instant >? MAX_TIME_VALUE then
          (db, Throw "Invalid time value")
        else
          (fst (runUpdate (fun r => uid r =? uid usr)
                  (setFailedLogin nextAttempts (Some instant)) db), Ok tt)
      else
        (fst (runUpdate (fun r => uid r =? uid usr)
                (setFailedLogin nextAttempts None) db), Ok tt)
  end.

Definition resetFailedLoginAttempts (userId : Z) (db : database) : database :=
  fst (runUpdate (fun r => uid r =? userId) (setFailedLogin 0 None) db).

(** [unlockUserStmt]: the three columns it writes. *)
Definition setUnlocked (r : user) : user :=
  {| uid := uid r; username := username r;
     username_normalized := username_normalized r;
     password_hash := password_hash r; role := role r;
     status := "ACTIVE"; is_admin := is_admin r; is_active := is_active r;
     failed_login_attempts := 0; locked_until := None;
     force_password_reset := force_password_reset r;
     session_version := session_version r;
     last_login_at := last_login_at r |}.

Definition targets (userId : Z) (r : user) : bool :=
  (uid r =? userId) && negb (uid r =? 0).

Definition unlockUser (userId : Z) (db : database)
    : database * option user :=
  let (db', n) := runUpdate (targets userId) setUnlocked db in
  if n =? 0 then (db', None) else (db', findById userId db').

Definition setRole (newRole : string) (r : user) : user :=
  {| uid := uid r; username := username r;
     username_normalized := username_normalized r;
     password_hash := password_hash r; role := newRole;
     status := status r;
     is_admin :=
       if Js.arrayIncludes ["SUPER_ADMIN"; "ADMIN"] newRole then 1 else 0;
     is_active := is_active r;
     failed_login_attempts := failed_login_attempts r;
     locked_until := locked_until r;
     force_password_reset := force_password_reset r;
     session_version := session_version r;
     last_login_at := last_login_at r |}.

Definition updateRole (userId : Z) (newRole : string) (db : database)
    : database * option user :=
  let (db', n) := runUpdate (targets userId) (setRole newRole) db in
  if n =? 0 then (db', None) else (db', findById userId db').

Definition setStatus (newStatus : string) (r : user) : user :=
  {| uid := uid r; username := username r;
     username_normalized := username_normalized r;
     password_hash := password_hash r; role := role r;
     status := newStatus; is_admin := is_admin r;
     is_active := if String.eqb newStatus "SUSPENDED" then 0 else 1;
     failed_login_attempts := failed_login_attempts r;
     locked_until := locked_until r;
     force_password_reset := force_password_reset r;
     session_version := session_version r;
     last_login_at := last_login_at r |}.

Definition updateStatus (userId : Z) (newStatus : string) (db : database)
    : database * option user :=
  let (db', n) := runUpdate (targets userId) (setStatus newStatus) db in
  if n =? 0 then (db', None) else (db', findById userId db').

Definition bumpSession (flag : option Z) (r : user) : user :=
  {| uid := uid r; username := username r;
     username_normalized := username_normalized r;
     password_hash := password_hash r; role := role r;
     status := status r; is_admin := is_admin r; is_active := is_active r;
     failed_login_attempts := failed_login_attempts r;
     locked_until := locked_until r;
     force_password_reset := default (force_password_reset r) flag;
     session_version := session_version r + 1;
     last_login_at := last_login_at r |}.

Definition incrementSessionVersion (userId : Z) (db : database)
    : database * bool :=
  let (db', n) := runUpdate (targets userId) (bumpSession None) db in
  (db', n >? 0).

Definition setForcePasswordReset (userId : Z) (forcePasswordReset : bool)
    (db : database) : database * bool :=
  let (db', n) :=
    runUpdate (targets userId)
      (bumpSession (Some (if forcePasswordReset then 1 else 0))) db in
  (db', n >? 0).

End UserRepository.

(** ** middleware/auth.js *)

Module Auth.
Import UserRepository.

Definition getOrCreateAnonymousUser `{Env} (db : database)
    : database * result user :=
  match findById 0 db with
  | Some existingUser => (db, Ok existingUser)
  | None => createAnonymousUser generateAnonymousUsername db
  end.

Definition getTokenFromRequest (req : request) : option string :=
  let authHeader := req_bytestashauth req in
  let token :=
    if Js.truthy authHeader then Js.splitAt1 " " (default "" authHeader)
    else None in
  let token :=
    match req_cookies req with
    | Some cookies => if negb (Js.truthy token) then cookies else token
    | None => token
    end in
  if Js.truthy token then token else None.

(** [createSessionToken(user)]; the payload it signs is [sessionPayload]. *)
Definition sessionPayload (u : user) : payload :=
  {| p_id := uid u;
     p_username := username u;
     p_role := Js.orString (Some (role u)) "USER";
     p_status := Js.orString (Some (status u)) "ACTIVE";
     p_sessionVersion := Some (Js.orNumber (Some (session_version u)) 1) |}.

Definition createSessionToken `{Env} (u : user) : string :=
  jwt_sign (sessionPayload u).

(** [req.user = anonymousUser]: the row itself. *)
Definition rowAsUser (u : user) : auth_user :=
  {| ru_id := uid u; ru_username := username u; ru_role := Some (role u);
     ru_status := status u; ru_is_admin := is_admin u;
     ru_session_version := session_version u;
     ru_force_password_reset := negb (force_password_reset u =? 0);
     ru_permissions := None |}.

(** The suspension test of [authenticateToken], as a proposition. *)
Definition isSuspended (u : user) : Prop :=
  status u = "SUSPENDED" ∨ is_active u = 0.

Definition authenticateToken `{Env} (req : request) (db : database)
    : database * outcome request :=
  if match req_user req with Some _ => req_apiKey req | None => false end
  then (db, Next req)
  else if DISABLE_ACCOUNTS then
    match getOrCreateAnonymousUser db with
    | (db', Ok anonymousUser) => (db', Next (withUser req (rowAsUser anonymousUser)))
    | (db', Throw _) =>
        (db', Respond 500 (JObj [("error", JStr "Internal server error")]))
    end
  else
    match getTokenFromRequest req with
    | None => (db, Respond 401 (JObj [("error", JStr "Authentication required")]))
    | Some token =>
        match jwt_verify token with
        | None => (db, Respond 403 (JObj [("error", JStr "Invalid token")]))
        | Some decoded =>
            match findById (p_id decoded) db with
            | None => (db, Respond 401 (JObj [("error", JStr "User not found")]))
            | Some dbUser =>
                if String.eqb (status dbUser) "SUSPENDED" || (is_active dbUser =? 0)
                then (db, Respond 403 (JObj [("error", JStr "Account suspended")]))
                else if negb (Js.orNumber (p_sessionVersion decoded) 1 =?
                              Js.orNumber (Some (session_version dbUser)) 1)
                then (db, Respond 401 (JObj [("error", JStr "Session expired")]))
                else
                  (db, Next (withUser req
                     {| ru_id := uid dbUser;
                        ru_username := username dbUser;
                        ru_role := Some (Js.orString (Some (role dbUser)) "USER");
                        ru_status := Js.orString (Some (status dbUser)) "ACTIVE";
                        ru_is_admin := is_admin dbUser;
                        ru_session_version :=
                          Js.orNumber (Some (session_version dbUser)) 1;
                        ru_force_password_reset :=
                          negb (force_password_reset dbUser =? 0);
                        ru_permissions := None |}))
            end
        end
    end.

End Auth.

(** ** The maintenance gate *)

Module Maintenance.
Import UserRepository.

Definition BypassApiPrefixes : list string :=
  ["/api/auth/config"; "/api/auth/login"; "/api/auth/oidc"].

Definition isMaintenanceEnabled `{Env} : bool :=
  let mode := getSetting "maintenance.mode" "OFF" in
  Js.arrayIncludes ["ON"; "TRUE"; "1"; "ENABLED"] (Js.toUpperCase mode).

Definition getTokenFromRequest (req : request) : option string :=
  let authHeader := req_bytestashauth req in
  let token :=
    if Js.truthy authHeader then Js.splitAt1 " " (default "" authHeader)
    else None in
  let token :=
    match req_cookies req with
    | Some cookies => if negb (Js.truthy token) then cookies else token
    | None => token
    end in
  if Js.truthy token then token else None.

Definition hasBypassPath (basePath requestPath : string) : bool :=
  if Js.includes requestPath "/api-docs" then true
  else existsb (fun prefix => Js.startsWith requestPath (basePath +:+ prefix))
               BypassApiPrefixes.

Definition unavailable : outcome request :=
  Respond 503 (JObj [("error", JStr "Maintenance mode is enabled")]).

Definition maintenanceModeGuard `{Env} (req : request) (db : database)
    : outcome request :=
  if negb isMaintenanceEnabled then Next req
  else
    let basePath := Js.orString BASE_PATH "" in
    if negb (Js.startsWith (req_path req) (basePath +:+ "/api"))
       && negb (Js.includes (req_path req) "/api-docs")
    then Next req
    else if hasBypassPath basePath (req_path req) then Next req
    else
      match getTokenFromRequest req with
      | None => unavailable
      | Some token =>
          match jwt_verify token with
          | None => unavailable                       (* verify throws *)
          | Some decoded =>
              let user := findById (p_id decoded) db in
              let role :=
                Js.toUpperCase
                  (Js.orString (option_map UserRepository.role user) "") in
              if String.eqb role "SUPER_ADMIN" || String.eqb role "ADMIN"
              then Next req
              else unavailable
          end
      end.

End Maintenance.

(** What a route handler sends: [res.status(code).json(body)], after an
    optional [setAuthCookie(res, token, req)]. *)
Record response : Type := mkResponse {
  res_status : Z;
  res_body : json;
  res_cookie : option string
}.

Definition send (code : Z) (body : json) : response :=
  {| res_status := code; res_body := body; res_cookie := None |}.

(** ** services/userService.js *)

Module UserService.
Import UserRepository.

(** Modelled from the spec: [services/userService.js] is not among the
    sources.  [createUser] is taken to check its arguments (a missing
    username or password, or one that [validate] refuses, throws before
    anything is written) and then to create the account through
    [userRepository.create] with the role and status it is given, as the
    registration transition of the spec requires. *)
Definition createUser `{Env}
    (validate : string -> string -> option string)
    (name password : option string)
    (options_role options_status : option string) (db : database)
    : database * result (option user) :=
  match name, password with
  | Some n, Some pw =>
      match validate n pw with
      | Some message => (db, Throw message)
      | None => create n pw options_role options_status db
      end
  | _, _ => (db, Throw "Username and password are required")
  end.

End UserService.

(** ** routes/authRoutes.js *)

Module AuthRoutes.
Import UserRepository.

Definition RegistrationModes : list string := ["OPEN"; "APPROVAL"; "CLOSED"].

Definition normalizeRegistrationMode (mode : option string) : string :=
  let upper := Js.toUpperCase (Js.orString mode "") in
  if Js.arrayIncludes RegistrationModes upper then upper else "OPEN".

Definition getAuthConfig_registrationMode `{Env} : string :=
  normalizeRegistrationMode (Some (getSetting "registration.mode" "OPEN")).

Definition jsonOfInstant (t : option Z) : json :=
  match t with
  | Some ms => JNum ms
  | None => JNull
  end.

Definition buildUserResponse (u : user) : json :=
  let permissions :=
    Permissions.getRolePermissionList (Some (Js.orString (Some (role u)) "USER")) in
  JObj [ ("id", JNum (uid u));
         ("username", JStr (username u));
         ("role", JStr (Js.orString (Some (role u)) "USER"));
         ("status", JStr (Js.orString (Some (status u)) "ACTIVE"));
         ("permissions", JArr (map JStr permissions));
         ("is_admin", JBool (Js.arrayIncludes permissions "admin.panel.access"));
         ("is_active", JNum (is_active u));
         ("force_password_reset", JBool (negb (force_password_reset u =? 0)));
         ("last_login_at", jsonOfInstant (last_login_at u)) ].

Definition isLocked `{Env} (u : user) (now : Z) : bool :=
  match locked_until u with
  | None => false
  | Some text =>
      match dateParse text with
      | Some t => t >? now
      | None => false                         (* NaN > now *)
      end
  end.

(** [SELECT COUNT( * ) FROM users WHERE id != 0] *)
Definition userCount (db : database) : Z :=
  Z.of_nat (length (filter (fun r => negb (uid r =? 0) = true) (users db))).

Definition audit (actorId : option Z) (action : string)
    (targetId : option json) (metadata : option json) (req : request)
    (db : database) : database :=
  setAudit (AuditLog.log actorId action (Some "user") targetId metadata
              (Some req) (audit_logs db)) db.

(** The rest of [POST /register] once the role and status of the new
    account are decided: create the user, write the audit row, answer.
    [validate] stands for the argument checks of the user service; the
    snippet migration run for the first account does not touch the modelled
    tables and is taken not to throw. *)
Definition createAndRespond `{Env}
    (validate : string -> string -> option string)
    (registrationMode desiredRole desiredStatus : string)
    (req : request) (db : database) : database * response :=
  match UserService.createUser validate (req_body_username req)
          (req_body_password req) (Some desiredRole) (Some desiredStatus) db with
  | (db1, Throw message) => (db1, send 400 (JObj [("error", JStr message)]))
  | (db1, Ok None) =>
      (db1, send 400 (JObj [("error", JStr "Cannot read properties of undefined (reading 'id')")]))
  | (db1, Ok (Some user)) =>
      let db2 :=
        audit (Some (uid user)) "user.registration" (Some (JNum (uid user)))
          (Some (JObj [("role", JStr (role user));
                       ("status", JStr (status user));
                       ("registrationMode", JStr registrationMode)]))
          req db1 in
      if String.eqb desiredStatus "PENDING" then
        (db2, send 202
           (JObj [("pendingApproval", JBool true);
                  ("message", JStr "Registration submitted and awaiting admin approval");
                  ("user", buildUserResponse user)]))
      else
        let token := Auth.createSessionToken user in
        (db2, {| res_status := 200;
                 res_body := JObj [("token", JStr token);
                                   ("user", buildUserResponse user)];
                 res_cookie := Some token |})
  end.

(** [POST /register] *)
Definition register `{Env} (validate : string -> string -> option string)
    (req : request) (db : database) : database * response :=
  if DISABLE_INTERNAL_ACCOUNTS then
    (db, send 403 (JObj [("error", JStr "Internal account registration is disabled")]))
  else
    let hasUsers := userCount db >? 0 in
    let registrationMode := getAuthConfig_registrationMode in
    if negb hasUsers then
      createAndRespond validate registrationMode "SUPER_ADMIN" "ACTIVE" req db
    else if String.eqb registrationMode "CLOSED" then
      (db, send 403 (JObj [("error", JStr "New account registration is closed")]))
    else if String.eqb registrationMode "APPROVAL" then
      createAndRespond validate registrationMode "USER" "PENDING" req db
    else
      createAndRespond validate registrationMode "USER" "ACTIVE" req db.

(** [POST /login].  [now] is the clock read by [isLocked]; [later] is the
    clock read after the password check (by [recordFailedLogin], or by the
    [CURRENT_TIMESTAMP] of [updateLastLogin]). *)
Definition login `{Env} (now later : Z) (req : request) (db : database)
    : database * response :=
  let failure := send 500 (JObj [("error", JStr "An error occurred during login")]) in
  if DISABLE_INTERNAL_ACCOUNTS then
    (db, send 403 (JObj [("error", JStr "Internal accounts are disabled")]))
  else
    match req_body_username req with
    | None => (db, failure)                  (* [username.toLowerCase()] throws *)
    | Some name =>
        match findByUsername name db with
        | None =>
            (audit None "auth.login.failed" (Some (JStr name))
               (Some (JObj [("reason", JStr "user_not_found");
                            ("username", JStr name)])) req db,
             send 401 (JObj [("error", JStr "Invalid credentials")]))
        | Some user =>
            if isLocked user now then
              (audit (Some (uid user)) "auth.login.blocked" (Some (JNum (uid user)))
                 (Some (JObj [("reason", JStr "account_locked");
                              ("lockedUntil", jsonOfInstant (locked_until user))]))
                 req db,
               send 423
                 (JObj [("error", JStr "Account temporarily locked due to failed login attempts");
                        ("lockedUntil", jsonOfInstant (locked_until user))]))
            else
              match verifyPassword (Some user) (req_body_password req) db with
              | (db1, Throw _) => (db1, failure)
              | (db1, Ok false) =>
                  let securitySettings := SystemConfig.getFoundationSettings in
                  match
                    recordFailedLogin (Some user)
                      (Some (SystemConfig.maxAttempts
                               (SystemConfig.security_lockout securitySettings)))
                      (Some (SystemConfig.durationMinutes
                               (SystemConfig.security_lockout securitySettings)))
                      later db1
                  with
                  | (db2, Throw _) => (db2, failure)
                  | (db2, Ok _) =>
                      (audit (Some (uid user)) "auth.login.failed"
                         (Some (JNum (uid user)))
                         (Some (JObj [("reason", JStr "invalid_password")])) req db2,
                       send 401 (JObj [("error", JStr "Invalid credentials")]))
                  end
              | (db1, Ok true) =>
                  if String.eqb (status user) "PENDING" then
                    (audit (Some (uid user)) "auth.login.blocked" (Some (JNum (uid user)))
                       (Some (JObj [("reason", JStr "pending_approval")])) req db1,
                     send 403 (JObj [("error", JStr "Account pending approval")]))
                  else if String.eqb (status user) "SUSPENDED" || (is_active user =? 0) then
                    (audit (Some (uid user)) "auth.login.blocked" (Some (JNum (uid user)))
                       (Some (JObj [("reason", JStr "suspended")])) req db1,
                     send 403 (JObj [("error", JStr "Account suspended")]))
                  else
                    let db2 := updateLastLogin (uid user) later db1 in
                    match findById (uid user) db2 with
                    | None => (db2, failure)
                    | Some refreshedUser =>
                        let token := Auth.createSessionToken refreshedUser in
                        (audit (Some (uid user)) "auth.login.success"
                           (Some (JNum (uid user)))
                           (Some (JObj [("role", JStr (role refreshedUser))])) req db2,
                         {| res_status := 200;
                            res_body := JObj [("token", JStr token);
                                              ("user", buildUserResponse refreshedUser)];
                            res_cookie := Some token |})
                    end
              end
        end
    end.

End AuthRoutes.

(** ** repositories/adminRepository.js *)

Module AdminRepository.
Import UserRepository.

(** [repositories/adminRepository.js] is not among the sources.  The routes
    are modelled over every implementation of the four operations they
    call: an operation may write to the database, and it returns a value
    (the one the route sends with [res.json]) or throws. *)
Class Operations : Type := mkOperations {
  setUserStatus : Z -> string -> database -> database * result json;
  setUserRole : Z -> string -> database -> database * result json;
  resetUserSessions : Z -> database -> database * result json;
  setForcePasswordReset : Z -> bool -> database -> database * result json
}.

End AdminRepository.

(** ** The admin routes on a user *)

Module AdminRoutes.
Import UserRepository.

Definition editableRoles : list string := Permissions.Roles.
Definition editableStatuses : list string := ["PENDING"; "ACTIVE"; "SUSPENDED"].

Definition assertNotSelfMutation (actor : auth_user) (userId : Z)
    : option string :=
  if userId =? ru_id actor
  then Some "Cannot modify your own account in this action"
  else None.

(** A JSON body field that is a boolean or a string. *)
Inductive flagValue : Type :=
  | FlagBool (b : bool)
  | FlagString (s : string).

Definition normalizeBool (value : option flagValue) (fallback : bool) : bool :=
  match value with
  | None => fallback
  | Some (FlagBool b) => b
  | Some (FlagString s) =>
      Js.arrayIncludes ["true"; "1"; "yes"; "on"] (Js.toLowerCase s)
  end.

Definition writeAdminAudit (actor : auth_user) (action : string)
    (targetId : Z) (metadata : option json) (req : request) (db : database)
    : database :=
  setAudit (AuditLog.log (Some (ru_id actor)) action (Some "user")
              (Some (JNum targetId)) metadata (Some req) (audit_logs db)) db.

(** A handler behind [requirePermission(Permissions.ADMIN_USERS_WRITE)];
    [failed] is the message of the handler's [catch]. *)
Definition guarded (failed : string) (req : request) (db : database)
    (handler : auth_user -> database * response) : database * response :=
  match AclMiddleware.requirePermission (Some Permissions.ADMIN_USERS_WRITE) req with
  | Respond code body => (db, send code body)
  | Next req' =>
      match req_user req' with
      | Some actor => handler actor
      | None => (db, send 500 (JObj [("message", JStr failed)]))
      end
  end.

(** The end of a handler: the audit row and [res.json(user)] when the
    repository returned, the [catch] when it threw. *)
Definition answer (failed : string) (actor : auth_user) (action : string)
    (userId : Z) (metadata : option json) (req : request)
    (returned : database * result json) : database * response :=
  match returned with
  | (db1, Throw _) => (db1, send 500 (JObj [("message", JStr failed)]))
  | (db1, Ok user) =>
      (writeAdminAudit actor action userId metadata req db1, send 200 user)
  end.

(** [PATCH /users/:id/status] *)
Definition patchStatus `{AdminRepository.Operations}
    (userId : Z) (bodyStatus : option string)
    (req : request) (db : database) : database * response :=
  guarded "Failed to update user status" req db (fun actor =>
    let newStatus := Js.toUpperCase (Js.orString bodyStatus "") in
    match assertNotSelfMutation actor userId with
    | Some selfError => (db, send 400 (JObj [("message", JStr selfError)]))
    | None =>
        if negb (Js.arrayIncludes editableStatuses newStatus) then
          (db, send 400 (JObj [("message", JStr "Invalid status value")]))
        else
          answer "Failed to update user status" actor
            (if String.eqb newStatus "ACTIVE" then "admin.user.approve"
             else "admin.user.status_change")
            userId (Some (JObj [("status", JStr newStatus)])) req
            (AdminRepository.setUserStatus userId newStatus db)
    end).

(** [PATCH /users/:id/role] *)
Definition patchRole `{AdminRepository.Operations}
    (userId : Z) (bodyRole : option string)
    (req : request) (db : database) : database * response :=
  guarded "Failed to update user role" req db (fun actor =>
    let newRole := Js.toUpperCase (Js.orString bodyRole "") in
    match assertNotSelfMutation actor userId with
    | Some selfError => (db, send 400 (JObj [("message", JStr selfError)]))
    | None =>
        if negb (Js.arrayIncludes editableRoles newRole) then
          (db, send 400 (JObj [("message", JStr "Invalid role value")]))
        else
          answer "Failed to update user role" actor "admin.user.role_change"
            userId (Some (JObj [("role", JStr newRole)])) req
            (AdminRepository.setUserRole userId newRole db)
    end).

(** [PATCH /users/:id/reset-sessions] *)
Definition patchResetSessions `{AdminRepository.Operations}
    (userId : Z) (req : request) (db : database) : database * response :=
  guarded "Failed to reset user sessions" req db (fun actor =>
    match assertNotSelfMutation actor userId with
    | Some selfError => (db, send 400 (JObj [("message", JStr selfError)]))
    | None =>
        answer "Failed to reset user sessions" actor "admin.user.reset_sessions"
          userId None req (AdminRepository.resetUserSessions userId db)
    end).

(** [PATCH /users/:id/force-password-reset] *)
Definition patchForcePasswordReset `{AdminRepository.Operations}
    (userId : Z) (bodyFlag : option flagValue)
    (req : request) (db : database) : database * response :=
  guarded "Failed to update force password reset state" req db (fun actor =>
    let forcePasswordReset := normalizeBool bodyFlag true in
    answer "Failed to update force password reset state" actor
      "admin.user.force_password_reset" userId
      (Some (JObj [("forcePasswordReset", JBool forcePasswordReset)])) req
      (AdminRepository.setForcePasswordReset userId forcePasswordReset db)).

End AdminRoutes.

(** ** Sample data for the worked examples *)

Module Sample.
Import UserRepository.

Definition alice : user :=
  {| uid := 7; username := "alice"; username_normalized := Some "alice";
     password_hash := "hash:wonderland"; role := "USER"; status := "ACTIVE";
     is_admin := 0; is_active := 1; failed_login_attempts := 0;
     locked_until := None; force_password_reset := 0;
     session_version := 1; last_login_at := None |}.

Definition root : user :=
  {| uid := 1; username := "rootadmin"; username_normalized := Some "rootadmin";
     password_hash := "hash:supersecurepassword"; role := "SUPER_ADMIN";
     status := "ACTIVE"; is_admin := 1; is_active := 1;
     failed_login_attempts := 0; locked_until := None;
     force_password_reset := 0; session_version := 1;
     last_login_at := None |}.

Definition withLock (attempts : Z) (until : option Z) (u : user) : user :=
  setFailedLogin attempts until u.

Definition suspended (u : user) : user := setStatus "SUSPENDED" u.

Definition withVersion (v : Z) (u : user) : user :=
  {| uid := uid u; username := username u;
     username_normalized := username_normalized u;
     password_hash := password_hash u; role := role u; status := status u;
     is_admin := is_admin u; is_active := is_active u;
     failed_login_attempts := failed_login_attempts u;
     locked_until := locked_until u;
     force_password_reset := force_password_reset u;
     session_version := v; last_login_at := last_login_at u |}.

Definition dbOf (rows : list user) : database :=
  {| users := rows; users_seq := 7; audit_logs := []; comparisons := [] |}.

(** Tokens of the sample signer: the user id and the session version,
    [<id>.<version>], for the ids and versions the examples use. *)
Definition sampleSign (p : payload) : string :=
  (if p_id p =? 1 then "1" else "7") +:+ "." +:+
  (if Js.orNumber (p_sessionVersion p) 1 =? 1 then "1" else "2").

Definition sampleVerify (t : string) : option payload :=
  if String.eqb t "7.1" then Some (Auth.sessionPayload alice)
  else if String.eqb t "7.2" then Some (Auth.sessionPayload (withVersion 2 alice))
  else if String.eqb t "1.1" then Some (Auth.sessionPayload root)
  else None.

Definition sampleSetting (maintenance registration : string)
    (key fallback : string) : string :=
  if String.eqb key "maintenance.mode" then maintenance
  else if String.eqb key "registration.mode" then registration
  else fallback.

(** max_attempts = 2, window = 1000 ms, auth limit = 3, as in the
    testable properties of the specification. *)
Definition sampleNumber (lockoutMinutes : Z) (key : string) (fallback : Z) : Z :=
  if String.eqb key "security.lockout.max_attempts" then 2
  else if String.eqb key "security.lockout.duration_minutes" then lockoutMinutes
  else if String.eqb key "security.rate_limit.window_ms" then 1000
  else if String.eqb key "security.rate_limit.auth_max" then 3
  else fallback.

Definition env (maintenance registration : string) (lockoutMinutes : Z)
    (disableInternal : bool) : Env :=
  {| jwt_sign := sampleSign;
     jwt_verify := sampleVerify;
     bcrypt_hash := fun pw => "hash:" +:+ pw;
     bcrypt_compare := fun pw h => String.eqb ("hash:" +:+ pw) h;
     getSetting := sampleSetting maintenance registration;
     getNumberSetting := sampleNumber lockoutMinutes;
     BASE_PATH := None;
     DISABLE_ACCOUNTS := false;
     DISABLE_INTERNAL_ACCOUNTS := disableInternal;
     generateAnonymousUsername := "anon-00c0ffee00c0ffee";
     dateParse := Some |}.

Definition request0 : request :=
  {| req_path := "/api/admin/users"; req_bytestashauth := None;
     req_cookies := None; req_x_forwarded_for := None;
     req_ip := Some "10.0.0.7"; req_user_agent := None;
     req_body_username := None; req_body_password := None;
     req_user := None; req_apiKey := false |}.

Definition requestTo (path : string) (auth : option string) : request :=
  {| req_path := path; req_bytestashauth := auth;
     req_cookies := None; req_x_forwarded_for := None;
     req_ip := Some "10.0.0.7"; req_user_agent := None;
     req_body_username := None; req_body_password := None;
     req_user := None; req_apiKey := false |}.

Definition credentials (name password : string) : request :=
  {| req_path := "/api/auth/login"; req_bytestashauth := None;
     req_cookies := None; req_x_forwarded_for := None;
     req_ip := Some "10.0.0.7"; req_user_agent := None;
     req_body_username := Some name; req_body_password := Some password;
     req_user := None; req_apiKey := false |}.

Definition actingAs (u : user) (req : request) : request :=
  withUser req (Auth.rowAsUser u).

End Sample.

(** ** middleware/adminAuth.js *)

Module AdminAuth.

Definition requireAdmin (req : request) : outcome request :=
  AclMiddleware.requirePermission (Some Permissions.ADMIN_PANEL_ACCESS) req.

Definition isAdmin (role : option string) : bool :=
  let normalized := Js.toUpperCase (Js.orString role "") in
  String.eqb normalized Permissions.SUPER_ADMIN
  || String.eqb normalized Permissions.ADMIN.

End AdminAuth.

(** ** Vocabulary of the further properties *)

(** The order [Array.prototype.sort] puts strings in. *)
Definition leString (a b : string) : Prop := String.leb a b = true.

(** ** security/hostValidation.js *)

Module HostValidation.

(** [s.split(sep)], all the pieces. *)
Fixpoint split (sep : ascii) (s : string) : list string :=
  match s with
  | EmptyString => [EmptyString]
  | String c rest =>
      if Ascii.eqb c sep then EmptyString :: split sep rest
      else
        match split sep rest with
        | piece :: pieces => String c piece :: pieces
        | [] => [String c EmptyString]
        end
  end.

(** The module constant [allowedHosts], from [process.env.ALLOWED_HOSTS]. *)
Definition allowedHosts (ALLOWED_HOSTS : option string) : list string :=
  List.filter (fun value => Js.truthy (Some value))
    (map (fun value => Js.toLowerCase (Js.trim value))
       (split "," (Js.orString ALLOWED_HOSTS ""))).

(** [validateHostHeader]; [forwardedHost] is [req.get("X-Forwarded-Host")]
    and [host] is [req.get("host")]. *)
Definition validateHostHeader (allowed : list string)
    (forwardedHost host : option string) (req : request) : outcome request :=
  if (length allowed =? 0)%nat then Next req
  else
    let rawHost := if Js.truthy forwardedHost then forwardedHost else host in
    if negb (Js.truthy rawHost) then
      Respond 400 (JObj [("error", JStr "Missing host header")])
    else
      let name :=
        Js.toLowerCase
          (Js.splitAt0 ":" (Js.trim (Js.splitAt0 "," (default "" rawHost)))) in
      if negb (Js.arrayIncludes allowed name) then
        Respond 400 (JObj [("error", JStr "Invalid host")])
      else Next req.

End HostValidation.

(** Every character of [s] passes the test [p]. *)
Fixpoint allChars (p : ascii -> bool) (s : string) : bool :=
  match s with
  | EmptyString => true
  | String c rest => p c && allChars p rest
  end.


(** A comma or white space. *)
Definition blankChar (c : ascii) : bool := Ascii.eqb c "," || Js.isWhite c.

Definition notChar (sep c : ascii) : bool := negb (Ascii.eqb c sep).

(** ** core/systemConfigRepository.js, with its table and cache state *)

Module SettingsStore.

Definition CACHE_TTL_MS : Z := 5000.

(** Rows of [system_settings] and [feature_flags], keyed by [key]. *)
Record settingRow : Type := mkSettingRow {
  s_value : string;
  s_updated_at : Z;
  s_updated_by : option Z
}.

Record flagRow : Type := mkFlagRow {
  f_enabled : Z;
  f_description : option string;
  f_updated_at : Z;
  f_updated_by : option Z
}.

Record cacheEntry (A : Type) : Type := mkCacheEntry {
  value : A;
  cachedAt : Z
}.
Arguments mkCacheEntry {A} value cachedAt.
Arguments value {A} _.
Arguments cachedAt {A} _.

(** The repository object and the two tables behind it.  A cached setting
    is a string or [null]. *)
Record repository : Type := mkRepository {
  system_settings : gmap string settingRow;
  feature_flags : gmap string flagRow;
  settingCache : gmap string (cacheEntry (option string));
  flagCache : gmap string (cacheEntry bool)
}.

(** The readings of [Date.now()] one accessor call makes: in [#isFresh]
    and, on a miss, in [#cacheValue]. *)
Record tick : Type := mkTick {
  checked : Z;
  stored : Z
}.

Definition isFresh {A : Type} (cacheEntry : option (cacheEntry A)) (now : Z)
    : bool :=
  match cacheEntry with
  | None => false
  | Some entry => now - cachedAt entry <? CACHE_TTL_MS
  end.

(** [#readCached]: [None] is [undefined]. *)
Definition readCached {A : Type} (cache : gmap string (cacheEntry A))
    (key : string) (now : Z) : option A :=
  let entry := cache !! key in
  if negb (isFresh entry now) then None else value <$> entry.

Definition getSetting (key : string) (fallbackValue : option string)
    (t : tick) (repo : repository) : repository * option string :=
  match readCached (settingCache repo) key (checked t) with
  | Some cached => (repo, cached)
  | None =>
      let row := system_settings repo !! key in
      let value :=
        match row with
        | Some r => Some (s_value r)
        | None => fallbackValue
        end in
      ({| system_settings := system_settings repo;
          feature_flags := feature_flags repo;
          settingCache :=
            <[key := mkCacheEntry value (stored t)]> (settingCache repo);
          flagCache := flagCache repo |},
       value)
  end.

(** [String(value)] of a string or [null]. *)
Definition stringOf (value : option string) : string := default "null" value.

Definition getBooleanSetting (key : string) (fallbackValue : bool)
    (t : tick) (repo : repository) : repository * bool :=
  let (repo', value) :=
    getSetting key (Some (if fallbackValue then "true" else "false")) t repo in
  (repo',
   Js.arrayIncludes ["1"; "true"; "on"; "yes"; "enabled"; "open"]
     (Js.toLowerCase (stringOf value))).

(** [setSetting(key, value, updatedBy)]; [value] is the text [String(value)],
    [sqlNow] the [CURRENT_TIMESTAMP] of the upsert, [now] the clock read by
    [#cacheValue]. *)
Definition setSetting (key value : string) (updatedBy : option Z)
    (sqlNow now : Z) (repo : repository) : repository :=
  {| system_settings :=
       <[key := mkSettingRow value sqlNow updatedBy]> (system_settings repo);
     feature_flags := feature_flags repo;
     settingCache := <[key := mkCacheEntry (Some value) now]> (settingCache repo);
     flagCache := flagCache repo |}.

Definition getFeatureFlag (key : string) (fallbackValue : bool)
    (t : tick) (repo : repository) : repository * bool :=
  match readCached (flagCache repo) key (checked t) with
  | Some cached => (repo, cached)
  | None =>
      let row := feature_flags repo !! key in
      let value :=
        match row with
        | Some r => negb (f_enabled r =? 0)
        | None => fallbackValue
        end in
      ({| system_settings := system_settings repo;
          feature_flags := feature_flags repo;
          settingCache := settingCache repo;
          flagCache := <[key := mkCacheEntry value (stored t)]> (flagCache repo) |},
       value)
  end.

(** [upsertFeatureFlag]: on a conflict the description is
    [COALESCE(excluded.description, feature_flags.description)]. *)
Definition upsertedFlag (old : option flagRow) (enabled : bool)
    (description : option string) (updatedBy : option Z) (sqlNow : Z)
    : flagRow :=
  {| f_enabled := if enabled then 1 else 0;
     f_description :=
       match old, description with
       | Some r, None => f_description r
       | _, _ => description
       end;
     f_updated_at := sqlNow;
     f_updated_by := updatedBy |}.

Definition setFeatureFlag (key : string) (enabled : bool)
    (description : option string) (updatedBy : option Z)
    (sqlNow now : Z) (repo : repository) : repository :=
  {| system_settings := system_settings repo;
     feature_flags :=
       <[key := upsertedFlag (feature_flags repo !! key) enabled description
                  updatedBy sqlNow]> (feature_flags repo);
     settingCache := settingCache repo;
     flagCache := <[key := mkCacheEntry enabled now]> (flagCache repo) |}.

End SettingsStore.

(** ** community/communityModeMiddleware.js *)

Module CommunityMode.
Import SettingsStore.

Definition isEnabledValue (value : option string) : bool :=
  Js.arrayIncludes ["ON"; "TRUE"; "1"; "ENABLED"]
    (Js.toUpperCase (stringOf value)).

Definition isCommunityModeEnabled (t1 t2 : tick) (repo : repository)
    : repository * bool :=
  let (repo1, mode) := getSetting "community.mode" (Some "OFF") t1 repo in
  let (repo2, publicLibraryFlag) :=
    getFeatureFlag "community.public_library" true t2 repo1 in
  (repo2, isEnabledValue mode && publicLibraryFlag).

Definition requireCommunityMode (t1 t2 : tick) (req : request)
    (repo : repository) : repository * outcome request :=
  let (repo', enabled) := isCommunityModeEnabled t1 t2 repo in
  if negb enabled then
    (repo', Respond 404 (JObj [("error", JStr "Community mode is disabled")]))
  else (repo', Next req).

End CommunityMode.

(** The limiter of [scope] run on the same client once per time of
    [times], in order: the bucket map left behind and the replies. *)
Fixpoint serve `{Env} (scope : string) (req : request) (times : list Z)
    (buckets : gmap string RateLimiter.bucket)
    : gmap string RateLimiter.bucket * list RateLimiter.reply :=
  match times with
  | [] => (buckets, [])
  | now :: rest =>
      let (buckets1, reply) := RateLimiter.rateLimiter scope now req buckets in
      let (buckets2, replies) := serve scope req rest buckets1 in
      (buckets2, reply :: replies)
  end.

(** The primary key of [users]: no two rows share an [id]. *)
Definition wellKeyed (db : UserRepository.database) : Prop :=
  NoDup (map UserRepository.uid (UserRepository.users db)).

(** The columns of a row that [POST /login] has no statement for. *)
Definition accountColumns (u : UserRepository.user)
    : Z * string * option string * string * string * string * Z * Z * Z * Z :=
  (UserRepository.uid u, UserRepository.username u,
   UserRepository.username_normalized u, UserRepository.password_hash u,
   UserRepository.role u, UserRepository.status u,
   UserRepository.is_admin u, UserRepository.is_active u,
   UserRepository.force_password_reset u, UserRepository.session_version u).

(** [db'] differs from [db] at most as one login may make it differ: the
    account columns of every row and the AUTOINCREMENT mark are as before,
    at most [n] audit rows and [m] recorded comparisons were appended. *)
Definition loginWrites (n m : nat) (db db' : UserRepository.database) : Prop :=
  map accountColumns (UserRepository.users db')
  = map accountColumns (UserRepository.users db)
  ∧ UserRepository.users_seq db' = UserRepository.users_seq db
  ∧ (exists rows,
        UserRepository.audit_logs db' = UserRepository.audit_logs db ++ rows
        ∧ (length rows <= n)%nat)
  ∧ (exists calls,
        UserRepository.comparisons db' = UserRepository.comparisons db ++ calls
        ∧ (length calls <= m)%nat).

(** The sample environment with [DISABLE_ACCOUNTS=true]. *)
Definition anonymousEnv : Env :=
  {| jwt_sign := Sample.sampleSign;
     jwt_verify := Sample.sampleVerify;
     bcrypt_hash := fun pw => "hash:" +:+ pw;
     bcrypt_compare := fun pw h => String.eqb ("hash:" +:+ pw) h;
     getSetting := Sample.sampleSetting "OFF" "OPEN";
     getNumberSetting := Sample.sampleNumber 5;
     BASE_PATH := None;
     DISABLE_ACCOUNTS := true;
     DISABLE_INTERNAL_ACCOUNTS := false;
     generateAnonymousUsername := "anon-00c0ffee00c0ffee";
     dateParse := Some |}.

(** An admin repository for the worked examples: each operation runs the
    statement of the user repository, reads the row back and returns it as
    [buildUserResponse] renders it ([null] when there is none). *)
Definition sampleRow (userId : Z) (db : UserRepository.database) : json :=
  match UserRepository.findById userId db with
  | Some r => AuthRoutes.buildUserResponse r
  | None => JNull
  end.

Definition sampleAdminRepository : AdminRepository.Operations :=
  {| AdminRepository.setUserStatus := fun userId newStatus db =>
       let db1 := (UserRepository.updateStatus userId newStatus db).1 in
       (db1, Ok (sampleRow userId db1));
     AdminRepository.setUserRole := fun userId newRole db =>
       let db1 := (UserRepository.updateRole userId newRole db).1 in
       (db1, Ok (sampleRow userId db1));
     AdminRepository.resetUserSessions := fun userId db =>
       let db1 := (UserRepository.incrementSessionVersion userId db).1 in
       (db1, Ok (sampleRow userId db1));
     AdminRepository.setForcePasswordReset := fun userId flag db =>
       let db1 := (UserRepository.setForcePasswordReset userId flag db).1 in
       (db1, Ok (sampleRow userId db1)) |}.

(** [req.cookies.bytestash_token], when it is a non-empty string. *)
Definition cookieToken (req : request) : option string :=
  match req_cookies req with
  | Some (Some c) => if String.eqb c "" then None else Some c
  | _ => None
  end.

(** * Properties *)

(** ** General lemmas *)

Lemma existsb_eqb_elem_of (x : string) (l : list string) :
  existsb (String.eqb x) l = true <-> x ∈ l.
Proof.
  rewrite existsb_exists. split.
  - intros (y & Hin & Heq). apply String.eqb_eq in Heq. subst y.
    by apply list_elem_of_In.
  - intros Hin. exists x. split; [by apply list_elem_of_In | apply String.eqb_refl].
Qed.

Lemma forallb_existsb_subseteq (l m : list string) :
  forallb (fun x => existsb (String.eqb x) m) l = true -> l ⊆ m.
Proof.
  rewrite forallb_forall. intros Hall x Hx.
  apply existsb_eqb_elem_of, Hall. by apply list_elem_of_In.
Qed.

Lemma orNumber_pos (z d : Z) : 0 < z -> Js.orNumber (Some z) d = z.
Proof.
  intros Hz. unfold Js.orNumber.
  destruct (Z.eqb_spec z 0); [lia | reflexivity].
Qed.

Lemma orNumber_zero_default (z : Z) : Js.orNumber (Some z) 0 = z.
Proof.
  unfold Js.orNumber. destruct (Z.eqb_spec z 0); congruence.
Qed.

(** ** Case folding *)

Section CaseFolding.

Lemma upperAscii_idemp (c : ascii) :
  Js.upperAscii (Js.upperAscii c) = Js.upperAscii c.
Proof. destruct c as [[] [] [] [] [] [] [] []]; vm_compute; reflexivity. Qed.

Lemma lowerAscii_idemp (c : ascii) :
  Js.lowerAscii (Js.lowerAscii c) = Js.lowerAscii c.
Proof. destruct c as [[] [] [] [] [] [] [] []]; vm_compute; reflexivity. Qed.

Lemma upperAscii_lowerAscii (c : ascii) :
  Js.upperAscii (Js.lowerAscii c) = Js.upperAscii c.
Proof. destruct c as [[] [] [] [] [] [] [] []]; vm_compute; reflexivity. Qed.

Lemma lowerAscii_upperAscii (c : ascii) :
  Js.lowerAscii (Js.upperAscii c) = Js.lowerAscii c.
Proof. destruct c as [[] [] [] [] [] [] [] []]; vm_compute; reflexivity. Qed.

Lemma toUpperCase_idemp (s : string) :
  Js.toUpperCase (Js.toUpperCase s) = Js.toUpperCase s.
Proof.
  unfold Js.toUpperCase. induction s as [|c s IH]; [reflexivity|].
  cbn. rewrite upperAscii_idemp. f_equal. exact IH.
Qed.

Lemma toLowerCase_idemp (s : string) :
  Js.toLowerCase (Js.toLowerCase s) = Js.toLowerCase s.
Proof.
  unfold Js.toLowerCase. induction s as [|c s IH]; [reflexivity|].
  cbn. rewrite lowerAscii_idemp. f_equal. exact IH.
Qed.

Lemma toUpperCase_toLowerCase (s : string) :
  Js.toUpperCase (Js.toLowerCase s) = Js.toUpperCase s.
Proof.
  unfold Js.toUpperCase, Js.toLowerCase.
  induction s as [|c s IH]; [reflexivity|].
  cbn. rewrite upperAscii_lowerAscii. f_equal. exact IH.
Qed.

Lemma toLowerCase_toUpperCase (s : string) :
  Js.toLowerCase (Js.toUpperCase s) = Js.toLowerCase s.
Proof.
  unfold Js.toUpperCase, Js.toLowerCase.
  induction s as [|c s IH]; [reflexivity|].
  cbn. rewrite lowerAscii_upperAscii. f_equal. exact IH.
Qed.

Lemma toUpperCase_empty (s : string) : Js.toUpperCase s = "" <-> s = "".
Proof. destruct s; split; intros H; try reflexivity; discriminate. Qed.

Lemma toLowerCase_empty (s : string) : Js.toLowerCase s = "" <-> s = "".
Proof. destruct s; split; intros H; try reflexivity; discriminate. Qed.

End CaseFolding.

(** ** The permission engine *)

Section PermissionEngine.
Import Permissions.

Lemma rolePermissions_subseteq (key : string) (perms : list string) :
  rolePermissions key = Some perms -> perms ⊆ Permissions.
Proof.
  unfold rolePermissions. intros Hlookup.
  repeat match type of Hlookup with
         | (if ?b then _ else _) = _ => destruct b
         end;
    try discriminate; inversion Hlookup; subst perms;
    apply forallb_existsb_subseteq; vm_compute; reflexivity.
Qed.

Lemma rolePermissions_USER : is_Some (rolePermissions USER).
Proof. vm_compute. eauto. Qed.

Lemma rolePermissions_normalizeRole (r : option string) :
  is_Some (rolePermissions (normalizeRole r)).
Proof.
  unfold normalizeRole. destruct r as [s|]; [|apply rolePermissions_USER].
  destruct (String.eqb s ""); [apply rolePermissions_USER|].
  destruct (rolePermissions (Js.toUpperCase s)) eqn:Hup;
    [rewrite Hup; eauto | apply rolePermissions_USER].
Qed.

Lemma getPermissionsByRole_lookup (r : option string) :
  rolePermissions (normalizeRole r) = Some (getPermissionsByRole r).
Proof.
  unfold getPermissionsByRole.
  destruct (rolePermissions_normalizeRole r) as [perms Hperms].
  by rewrite Hperms.
Qed.

Lemma hasPermission_elem_of (r : option string) (p : string) :
  hasPermission r (Some p) = true <-> p ≠ "" ∧ p ∈ getPermissionsByRole r.
Proof.
  unfold hasPermission, setHas, Js.truthy. simpl.
  destruct (String.eqb_spec p "") as [->|Hne]; simpl.
  - split; [discriminate | intros [? _]; congruence].
  - rewrite existsb_eqb_elem_of. tauto.
Qed.

(** C8.  [getPermissionsByRole] is a lookup in the fixed table at the
    normalised role, so it gives the same set on every call and for any two
    inputs that normalise to the same role; the set of SUPER_ADMIN is the
    list of all declared permissions, and it contains the set of every role
    (and of every unrecognised input). *)
Theorem getPermissionsByRole_deterministic_super_admin_top :
  forall r : option string,
    rolePermissions (normalizeRole r) = Some (getPermissionsByRole r)
    ∧ (forall r', normalizeRole r' = normalizeRole r ->
                  getPermissionsByRole r' = getPermissionsByRole r)
    ∧ getPermissionsByRole (Some SUPER_ADMIN) = Permissions
    ∧ getPermissionsByRole r ⊆ getPermissionsByRole (Some SUPER_ADMIN)
    ∧ (forall p, hasPermission r p = true ->
                 hasPermission (Some SUPER_ADMIN) p = true).
Proof.
  intros r.
  assert (Htop : getPermissionsByRole (Some SUPER_ADMIN) = Permissions)
    by (vm_compute; reflexivity).
  assert (Hsub : getPermissionsByRole r ⊆ getPermissionsByRole (Some SUPER_ADMIN)).
  { rewrite Htop. eapply rolePermissions_subseteq, getPermissionsByRole_lookup. }
  split; [apply getPermissionsByRole_lookup|].
  split; [intros r' Hsame; unfold getPermissionsByRole; by rewrite Hsame|].
  split; [exact Htop|]. split; [exact Hsub|].
  intros [p|] Hp; [|discriminate].
  apply hasPermission_elem_of in Hp as [Hne Hin].
  apply hasPermission_elem_of. split; [done | by apply Hsub].
Qed.

End PermissionEngine.

(** ** The permission gate *)

Section PermissionGate.
Import Permissions AclMiddleware.

(** C9.  Without [req.user] the gate answers 401 with the body
    [{message: "Authentication required"}]; with a user whose normalised
    role lacks the permission it answers 403 with
    [{message: "Insufficient permissions"}]; otherwise it calls [next()]
    on the request unchanged. *)
Theorem requirePermission_gate :
  forall (permission : option string) (req : request),
    match req_user req with
    | None =>
        requirePermission permission req
        = Respond 401 (JObj [("message", JStr "Authentication required")])
    | Some u =>
        (hasPermission (Some (normalizeRole (ru_role u))) permission = false ->
         requirePermission permission req
         = Respond 403 (JObj [("message", JStr "Insufficient permissions")]))
        ∧ (hasPermission (Some (normalizeRole (ru_role u))) permission = true ->
           requirePermission permission req = Next req)
    end.
Proof.
  intros permission req. unfold requirePermission.
  destruct (req_user req) as [u|]; [|reflexivity].
  split; intros ->; reflexivity.
Qed.

(** C9, as stated, fails: the 401 body of the gate has the key [message],
    not [error]. *)
Lemma requirePermission_unauthenticated_body_not_error :
  req_user Sample.request0 = None
  ∧ requirePermission (Some ADMIN_USERS_WRITE) Sample.request0
    = Respond 401 (JObj [("message", JStr "Authentication required")])
  ∧ requirePermission (Some ADMIN_USERS_WRITE) Sample.request0
    ≠ Respond 401 (JObj [("error", JStr "Authentication required")]).
Proof. repeat split. discriminate. Qed.

End PermissionGate.

(** ** The rate limiter *)

Section RateLimit.
Import SystemConfig RateLimiter.
Context `{E : Env}.




End RateLimit.

(** ** The maintenance gate *)

Section MaintenanceGate.
Import UserRepository Maintenance.
Context `{E : Env}.

Lemma hasBypassPath_spec (basePath path : string) :
  hasBypassPath basePath path = true
  <-> Js.includes path "/api-docs" = true
      ∨ Js.startsWith path (basePath +:+ "/api/auth/config") = true
      ∨ Js.startsWith path (basePath +:+ "/api/auth/login") = true
      ∨ Js.startsWith path (basePath +:+ "/api/auth/oidc") = true.
Proof.
  unfold hasBypassPath, BypassApiPrefixes. simpl.
  destruct (Js.includes path "/api-docs"); [tauto|].
  rewrite !orb_true_iff. intuition discriminate.
Qed.

(** The role the gate resolves from the credential of a request. *)
Lemma resolved_role_privileged (req : request) (db : database) :
  (exists token decoded user,
      getTokenFromRequest req = Some token
      ∧ jwt_verify token = Some decoded
      ∧ findById (p_id decoded) db = Some user
      ∧ (Js.toUpperCase (Js.orString (Some (role user)) "") = "SUPER_ADMIN"
         ∨ Js.toUpperCase (Js.orString (Some (role user)) "") = "ADMIN"))
  <-> match getTokenFromRequest req with
      | None => False
      | Some token =>
          match jwt_verify token with
          | None => False
          | Some decoded =>
              let r := Js.toUpperCase
                         (Js.orString (option_map role (findById (p_id decoded) db)) "") in
              (String.eqb r "SUPER_ADMIN" || String.eqb r "ADMIN") = true
          end
      end.
Proof.
  split.
  - intros (token & decoded & user & -> & -> & -> & Hrole). simpl.
    apply orb_true_iff. rewrite !String.eqb_eq. exact Hrole.
  - destruct (getTokenFromRequest req) as [token|]; [|tauto].
    destruct (jwt_verify token) as [decoded|] eqn:Hv; [|tauto].
    destruct (findById (p_id decoded) db) as [user|] eqn:Hu; simpl.
    + intros Hrole. apply orb_true_iff in Hrole. rewrite !String.eqb_eq in Hrole.
      exists token, decoded, user. auto.
    + discriminate.
Qed.

(** C6, as the code has it.  With maintenance mode enabled (the setting
    [maintenance.mode] is, up to letter case, ON, TRUE, 1 or ENABLED), a
    request whose path is API-prefixed (it starts with [BASE_PATH/api] or
    contains [/api-docs]) is either passed on or answered with the one
    response [503 {error: "Maintenance mode is enabled"}], and it is passed
    on exactly when its path is a bypass path (it contains [/api-docs] or
    starts with the auth-config, login or OIDC prefix) or it bears a token
    whose signature verifies and whose user is stored with role SUPER_ADMIN
    or ADMIN (up to letter case).  The gate looks at nothing else of the
    user: not the status, not [is_active], not the session version.  A
    missing token, a token that does not verify, an unknown user and an
    insufficient role all get that same 503. *)
Theorem maintenanceModeGuard_gate :
  forall (req : request) (db : database),
    Js.toUpperCase (getSetting "maintenance.mode" "OFF")
      ∈ ["ON"; "TRUE"; "1"; "ENABLED"] ->
    (forall r, r ∈ users db -> Js.isAscii (role r) = true) ->
    Js.startsWith (req_path req) (Js.orString BASE_PATH "" +:+ "/api") = true
    ∨ Js.includes (req_path req) "/api-docs" = true ->
    let basePath := Js.orString BASE_PATH "" in
    let privileged :=
      exists token decoded user,
        getTokenFromRequest req = Some token
        ∧ jwt_verify token = Some decoded
        ∧ findById (p_id decoded) db = Some user
        ∧ (Js.toUpperCase (Js.orString (Some (role user)) "") = "SUPER_ADMIN"
           ∨ Js.toUpperCase (Js.orString (Some (role user)) "") = "ADMIN") in
    let bypass :=
      Js.includes (req_path req) "/api-docs" = true
      ∨ Js.startsWith (req_path req) (basePath +:+ "/api/auth/config") = true
      ∨ Js.startsWith (req_path req) (basePath +:+ "/api/auth/login") = true
      ∨ Js.startsWith (req_path req) (basePath +:+ "/api/auth/oidc") = true in
    (maintenanceModeGuard req db = Next req
     ∨ maintenanceModeGuard req db
       = Respond 503 (JObj [("error", JStr "Maintenance mode is enabled")]))
    ∧ (maintenanceModeGuard req db = Next req <-> bypass ∨ privileged)
    ∧ (¬ (bypass ∨ privileged) ->
       maintenanceModeGuard req db
       = Respond 503 (JObj [("error", JStr "Maintenance mode is enabled")])).
Proof.
  intros req db Hmode _ Hapi basePath privileged bypass.
  assert (Henabled : isMaintenanceEnabled = true).
  { unfold isMaintenanceEnabled, Js.arrayIncludes. by apply existsb_eqb_elem_of. }
  assert (Hprefixed :
    negb (Js.startsWith (req_path req) (basePath +:+ "/api"))
    && negb (Js.includes (req_path req) "/api-docs") = false).
  { subst basePath. destruct Hapi as [-> | ->]; simpl; [done | apply andb_false_r]. }
  pose proof (hasBypassPath_spec basePath (req_path req)) as Hbypass.
  pose proof (resolved_role_privileged req db) as Hpriv.
  fold privileged in Hpriv. fold bypass in Hbypass.
  unfold maintenanceModeGuard. rewrite Henabled. simpl negb. cbv iota.
  fold basePath. rewrite Hprefixed.
  destruct (hasBypassPath basePath (req_path req)) eqn:Hb.
  { assert bypass by (by apply Hbypass).
    split; [by left|]. split; [tauto | tauto]. }
  assert (Hnb : ¬ bypass) by (rewrite <- Hbypass; discriminate).
  unfold unavailable.
  destruct (getTokenFromRequest req) as [token|].
  2:{ split; [by right|]. split; [|done]. split; [discriminate | tauto]. }
  destruct (jwt_verify token) as [decoded|].
  2:{ split; [by right|]. split; [|done]. split; [discriminate | tauto]. }
  cbv zeta in Hpriv |- *.
  destruct (String.eqb _ "SUPER_ADMIN" || String.eqb _ "ADMIN").
  - split; [by left|]. split; [|tauto]. split; [intros _; right; by apply Hpriv | done].
  - split; [by right|]. split; [|done].
    split; [discriminate|]. intros [? | Hp]; [done|].
    apply Hpriv in Hp. discriminate.
Qed.

End MaintenanceGate.

(** C6 at a sample: maintenance is ON, a USER token on an API path gets
    the 503, a SUPER_ADMIN token and the login path pass. *)
Lemma maintenanceModeGuard_gate_sample :
  let E := Sample.env "ON" "OPEN" 5 false in
  let req := Sample.requestTo "/api/snippets" (Some "Bearer 7.1") in
  let db := Sample.dbOf [Sample.root; Sample.alice] in
  Maintenance.maintenanceModeGuard req db
  = Respond 503 (JObj [("error", JStr "Maintenance mode is enabled")])
  ∧ Maintenance.maintenanceModeGuard
      (Sample.requestTo "/api/snippets" (Some "Bearer 1.1")) db
    = Next (Sample.requestTo "/api/snippets" (Some "Bearer 1.1"))
  ∧ Maintenance.maintenanceModeGuard
      (Sample.requestTo "/api/auth/login" None) db
    = Next (Sample.requestTo "/api/auth/login" None).
Proof.
  cbv zeta.
  assert (Hroles : forall r,
             r ∈ UserRepository.users (Sample.dbOf [Sample.root; Sample.alice]) ->
             Js.isAscii (UserRepository.role r) = true).
  { intros r Hr. simpl in Hr.
    repeat (apply elem_of_cons in Hr as [-> | Hr]; [reflexivity|]).
    by apply elem_of_nil in Hr. }
  assert (Hon : Js.toUpperCase (@getSetting (Sample.env "ON" "OPEN" 5 false)
                                  "maintenance.mode" "OFF")
                ∈ ["ON"; "TRUE"; "1"; "ENABLED"]) by left.
  pose proof (@maintenanceModeGuard_gate (Sample.env "ON" "OPEN" 5 false)
                (Sample.requestTo "/api/snippets" (Some "Bearer 7.1"))
                (Sample.dbOf [Sample.root; Sample.alice])
                Hon Hroles (or_introl eq_refl)) as (_ & _ & Hdenied).
  split; [|split; vm_compute; reflexivity].
  apply Hdenied. cbv zeta.
  intros [Hbypass | (token & decoded & user & Htoken & Hverify & Huser & Hrole)].
  - vm_compute in Hbypass. intuition discriminate.
  - vm_compute in Htoken. inversion Htoken; subst token.
    vm_compute in Hverify. inversion Hverify; subst decoded.
    vm_compute in Huser. inversion Huser; subst user.
    vm_compute in Hrole. intuition discriminate.
Defined.

(** C6, as stated, fails for a credential that is no longer valid.  The
    SUPER_ADMIN account is suspended and its session version has moved on
    to 2; its old token, minted at version 1, still verifies.  The gate
    passes the request, where the specification has the 503; [authenticateToken]
    refuses the same request. *)
Lemma maintenanceModeGuard_passes_void_credential :
  let E := Sample.env "ON" "OPEN" 5 false in
  let admin := Sample.withVersion 2 (Sample.suspended Sample.root) in
  let db := Sample.dbOf [admin; Sample.alice] in
  let req := Sample.requestTo "/api/snippets" (Some "Bearer 1.1") in
  Maintenance.isMaintenanceEnabled = true
  ∧ Js.startsWith (req_path req) "/api" = true
  ∧ Maintenance.hasBypassPath "" (req_path req) = false
  ∧ UserRepository.status admin = "SUSPENDED"
  ∧ UserRepository.is_active admin = 0
  ∧ UserRepository.session_version admin = 2
  ∧ (p_sessionVersion <$> jwt_verify "1.1") = Some (Some 1)
  ∧ Maintenance.maintenanceModeGuard req db = Next req
  ∧ Maintenance.maintenanceModeGuard req db
    ≠ Respond 503 (JObj [("error", JStr "Maintenance mode is enabled")])
  ∧ (Auth.authenticateToken req db).2
    = Respond 403 (JObj [("error", JStr "Account suspended")]).
Proof.
  cbv zeta. split_and!; try (vm_compute; reflexivity). vm_compute. discriminate.
Qed.

(** ** The user repository *)

Section Repository.
Import UserRepository.

Lemma find_updateWhere (i : Z) (p : user -> bool) (f : user -> user)
    (rows : list user) :
  (forall r, uid (f r) = uid r) ->
  find (fun r => uid r =? i) (updateWhere p f rows)
  = (fun r => if p r then f r else r) <$> find (fun r => uid r =? i) rows.
Proof.
  intros Hid. induction rows as [|r rows IH]; [reflexivity|].
  simpl. assert (Hsame : uid (if p r then f r else r) = uid r)
    by (destruct (p r); auto).
  rewrite Hsame. destruct (uid r =? i); [reflexivity | exact IH].
Qed.

Lemma findById_runUpdate (i : Z) (p : user -> bool) (f : user -> user)
    (db : database) :
  (forall r, uid (f r) = uid r) ->
  findById i (runUpdate p f db).1
  = (fun r => if p r then f r else r) <$> findById i db.
Proof. intros Hid. unfold findById. simpl. by apply find_updateWhere. Qed.

Lemma find_some_matches (q : user -> bool) (rows : list user) (u : user) :
  find q rows = Some u -> q u = true ∧ u ∈ rows.
Proof.
  intros Hfind. apply find_some in Hfind as [Hin Hq].
  split; [done | by apply list_elem_of_In].
Qed.

Lemma changes_pos (p : user -> bool) (rows : list user) (u : user) :
  u ∈ rows -> p u = true -> 0 < changes p rows.
Proof.
  intros Hin Hp. unfold changes.
  induction Hin as [u rows | u r rows Hin IH].
  - rewrite filter_cons_True by done. simpl. lia.
  - destruct (decide (p r = true)) as [Hr|Hr].
    + rewrite filter_cons_True by done. simpl. lia.
    + rewrite filter_cons_False by done. auto.
Qed.

Lemma findById_uid (i : Z) (db : database) (u : user) :
  findById i db = Some u -> uid u = i.
Proof.
  intros Hfind. apply find_some_matches in Hfind as [Hq _]. lia.
Qed.

Lemma targets_true (userId : Z) (u : user) :
  userId ≠ 0 -> uid u = userId -> targets userId u = true.
Proof.
  intros Hne Hid. unfold targets. rewrite Hid, Z.eqb_refl.
  destruct (Z.eqb_spec userId 0); [contradiction | reflexivity].
Qed.

Lemma targets_zero (r : user) : targets 0 r = false.
Proof. unfold targets. destruct (uid r =? 0); reflexivity. Qed.

Lemma targets_other (userId j : Z) (r : user) :
  uid r = j -> j ≠ userId -> targets userId r = false.
Proof.
  intros Hid Hne. unfold targets.
  destruct (Z.eqb_spec (uid r) userId); [congruence | reflexivity].
Qed.

Lemma updateWhere_none (p : user -> bool) (f : user -> user)
    (rows : list user) :
  (forall r, p r = false) -> updateWhere p f rows = rows.
Proof.
  intros Hp. unfold updateWhere.
  rewrite <- (map_id rows) at 2. apply map_ext. intros r. by rewrite Hp.
Qed.

(** An update that targets [userId] leaves the row of any other id as it
    was. *)
Lemma findById_runUpdate_other (userId j : Z) (f : user -> user)
    (db : database) :
  (forall r, uid (f r) = uid r) -> j ≠ userId ->
  findById j (runUpdate (targets userId) f db).1 = findById j db.
Proof.
  intros Hid Hne. rewrite findById_runUpdate by done.
  destruct (findById j db) as [r|] eqn:Hr; [|reflexivity]. simpl.
  by rewrite (targets_other userId j r (findById_uid _ _ _ Hr) Hne).
Qed.

Lemma findById_runUpdate_target (userId : Z) (f : user -> user)
    (db : database) (u : user) :
  (forall r, uid (f r) = uid r) -> userId ≠ 0 ->
  findById userId db = Some u ->
  findById userId (runUpdate (targets userId) f db).1 = Some (f u)
  ∧ 0 < (runUpdate (targets userId) f db).2.
Proof.
  intros Hid Hne Hu. rewrite findById_runUpdate, Hu by done. simpl.
  pose proof (findById_uid _ _ _ Hu) as Huid.
  rewrite (targets_true userId u Hne Huid). split; [reflexivity|].
  apply find_some_matches in Hu as [_ Hin].
  eapply changes_pos; [exact Hin | by apply targets_true].
Qed.

(** C10.  For a user id other than 0 that has a row, [unlockUser] returns
    the row read back; in it [status] is ACTIVE (whatever it was),
    [failed_login_attempts] is 0 and [locked_until] is NULL, every other
    column is as before, and the rows of other ids, the sequence and the
    audit log are untouched. *)
Theorem unlockUser_sets_active_and_clears_lock :
  forall (userId : Z) (db : database) (u : user),
    userId ≠ 0 ->
    findById userId db = Some u ->
    let out := unlockUser userId db in
    exists u',
      out.2 = Some u'
      ∧ findById userId out.1 = Some u'
      ∧ status u' = "ACTIVE"
      ∧ failed_login_attempts u' = 0
      ∧ locked_until u' = None
      ∧ uid u' = uid u
      ∧ username u' = username u
      ∧ username_normalized u' = username_normalized u
      ∧ password_hash u' = password_hash u
      ∧ role u' = role u
      ∧ is_admin u' = is_admin u
      ∧ is_active u' = is_active u
      ∧ force_password_reset u' = force_password_reset u
      ∧ session_version u' = session_version u
      ∧ last_login_at u' = last_login_at u
      ∧ (forall j, j ≠ userId -> findById j out.1 = findById j db)
      ∧ length (users out.1) = length (users db)
      ∧ users_seq out.1 = users_seq db
      ∧ audit_logs out.1 = audit_logs db.
Proof.
  intros userId db u Hne Hu out. subst out. unfold unlockUser.
  destruct (findById_runUpdate_target userId setUnlocked db u
              ltac:(reflexivity) Hne Hu) as [Hrow Hchanged].
  destruct (runUpdate (targets userId) setUnlocked db) as [db' n] eqn:Hrun.
  simpl in Hrow, Hchanged.
  destruct (Z.eqb_spec n 0) as [Hz|_]; [lia|]. simpl.
  exists (setUnlocked u). rewrite Hrow.
  repeat split; try reflexivity.
  - intros j Hj.
    pose proof (findById_runUpdate_other userId j setUnlocked db
                  ltac:(reflexivity) Hj) as Hother.
    by rewrite Hrun in Hother.
  - inversion Hrun. simpl. unfold updateWhere. by rewrite length_map.
  - by inversion Hrun.
  - by inversion Hrun.
Qed.

(** C10 at a sample: a suspended, locked user becomes ACTIVE. *)
Lemma unlockUser_sample :
  let u := Sample.suspended (Sample.withLock 2 (Some 900000) Sample.alice) in
  let db := Sample.dbOf [Sample.root; u] in
  status u = "SUSPENDED"
  ∧ exists u', (unlockUser 7 db).2 = Some u' ∧ status u' = "ACTIVE"
               ∧ failed_login_attempts u' = 0 ∧ locked_until u' = None
               ∧ is_active u' = 0.
Proof.
  cbv zeta. split; [reflexivity|].
  destruct (unlockUser_sets_active_and_clears_lock 7
              (Sample.dbOf [Sample.root;
                 Sample.suspended (Sample.withLock 2 (Some 900000) Sample.alice)])
              (Sample.suspended (Sample.withLock 2 (Some 900000) Sample.alice))
              ltac:(lia) eq_refl)
    as (u' & Hret & _ & Hstatus & Hattempts & Hlock & _ & _ & _ & _ & _ & _
        & Hactive & _).
  exists u'. repeat split; assumption.
Defined.

(** The anonymous row is out of reach of [unlockUser]. *)
Lemma unlockUser_anonymous_noop (db : database) :
  unlockUser 0 db = (setUsers (users db) db, None).
Proof.
  unfold unlockUser, runUpdate.
  rewrite (updateWhere_none (targets 0) setUnlocked (users db) targets_zero).
  assert (Hnone : changes (targets 0) (users db) = 0).
  { unfold changes. induction (users db) as [|r rows IH]; [reflexivity|].
    rewrite filter_cons_False by (rewrite targets_zero; discriminate). exact IH. }
  rewrite Hnone. reflexivity.
Qed.

End Repository.

(** ** Failed logins and the lockout *)

Section Lockout.
Import UserRepository AuthRoutes.

Lemma findById_runUpdate_same (u : user) (f : user -> user) (db : database) :
  (forall r, uid (f r) = uid r) ->
  findById (uid u) db = Some u ->
  findById (uid u) (runUpdate (fun r => uid r =? uid u) f db).1 = Some (f u).
Proof.
  intros Hid Hu. rewrite findById_runUpdate, Hu by done. simpl.
  by rewrite Z.eqb_refl.
Qed.

Lemma findById_runUpdate_else (i j : Z) (f : user -> user) (db : database) :
  (forall r, uid (f r) = uid r) -> j ≠ i ->
  findById j (runUpdate (fun r => uid r =? i) f db).1 = findById j db.
Proof.
  intros Hid Hne. rewrite findById_runUpdate by done.
  destruct (findById j db) as [r|] eqn:Hr; [|reflexivity]. simpl.
  apply findById_uid in Hr.
  destruct (Z.eqb_spec (uid r) i); [congruence | reflexivity].
Qed.

Context `{E : Env}.

Lemma setFailedLogin_columns (n : Z) (t : option Z) (r : user) :
  failed_login_attempts (setFailedLogin n t r) = n
  ∧ locked_until (setFailedLogin n t r) = t
  ∧ uid (setFailedLogin n t r) = uid r
  ∧ username (setFailedLogin n t r) = username r
  ∧ username_normalized (setFailedLogin n t r) = username_normalized r
  ∧ password_hash (setFailedLogin n t r) = password_hash r
  ∧ role (setFailedLogin n t r) = role r
  ∧ status (setFailedLogin n t r) = status r
  ∧ is_admin (setFailedLogin n t r) = is_admin r
  ∧ is_active (setFailedLogin n t r) = is_active r
  ∧ force_password_reset (setFailedLogin n t r) = force_password_reset r
  ∧ session_version (setFailedLogin n t r) = session_version r
  ∧ last_login_at (setFailedLogin n t r) = last_login_at r.
Proof. by split_and!. Qed.

Lemma findById_runUpdate_id (i : Z) (f : user -> user) (db : database)
    (r : user) :
  (forall x, uid (f x) = uid x) ->
  findById i db = Some r ->
  findById i (runUpdate (fun x => uid x =? i) f db).1 = Some (f r).
Proof.
  intros Hid Hr. rewrite findById_runUpdate, Hr by done. simpl.
  apply findById_uid in Hr. by rewrite Hr, Z.eqb_refl.
Qed.

(** C1, as the code has it.  [recordFailedLogin] is given a user object
    [u] and a policy.  With [n = u.failed_login_attempts + 1] and
    [instant = now + max(1, lockoutMinutes)] minutes:
    - when [n] reaches [maxAttempts] and [instant] is outside the range of
      [Date], computing the lock text throws, and nothing is written;
    - otherwise the row with the id of [u] gets [failed_login_attempts = n]
      (one more than the stored counter when [u] is that row as read), and
      [locked_until] becomes the UTC text of [instant] when [n] reaches
      [maxAttempts] (which is [now + lockoutMinutes] minutes when
      [lockoutMinutes >= 1]) and NULL otherwise; no other column of the row
      and no other row changes.
    The login handler reads the text back with [new Date(text)], so the
    account counts as locked until the instant [dateParse] gives for it,
    which is [instant] for a process in UTC. *)
Theorem recordFailedLogin_counts_and_locks :
  forall (db : database) (u : user) (maxAttempts lockoutMinutes now : Z),
    let out :=
      recordFailedLogin (Some u) (Some maxAttempts) (Some lockoutMinutes) now db in
    let n := failed_login_attempts u + 1 in
    let instant := now + Z.max 1 lockoutMinutes * 60 * 1000 in
    (n >= maxAttempts ∧ Z.abs instant > MAX_TIME_VALUE ->
       out = (db, Throw "Invalid time value"))
    ∧ (¬ (n >= maxAttempts ∧ Z.abs instant > MAX_TIME_VALUE) ->
       out.2 = Ok tt
       ∧ (forall r,
            findById (uid u) db = Some r ->
            exists r',
              findById (uid u) out.1 = Some r'
              ∧ failed_login_attempts r' = n
              ∧ (r = u -> failed_login_attempts r' = failed_login_attempts r + 1)
              ∧ (n >= maxAttempts -> locked_until r' = Some instant)
              ∧ (n >= maxAttempts -> 1 <= lockoutMinutes ->
                   locked_until r' = Some (now + lockoutMinutes * 60 * 1000))
              ∧ (n >= maxAttempts ->
                   forall now',
                     isLocked r' now' = true
                     <-> exists t, dateParse instant = Some t ∧ t > now')
              ∧ (n < maxAttempts -> locked_until r' = None)
              ∧ uid r' = uid r
              ∧ username r' = username r
              ∧ username_normalized r' = username_normalized r
              ∧ password_hash r' = password_hash r
              ∧ role r' = role r
              ∧ status r' = status r
              ∧ is_admin r' = is_admin r
              ∧ is_active r' = is_active r
              ∧ force_password_reset r' = force_password_reset r
              ∧ session_version r' = session_version r
              ∧ last_login_at r' = last_login_at r)
       ∧ (forall j, j ≠ uid u -> findById j out.1 = findById j db)
       ∧ length (users out.1) = length (users db)
       ∧ users_seq out.1 = users_seq db
       ∧ audit_logs out.1 = audit_logs db
       ∧ comparisons out.1 = comparisons db).
Proof.
  intros db u maxAttempts lockoutMinutes now out n instant.
  subst out. unfold recordFailedLogin. simpl default.
  rewrite orNumber_zero_default. fold n. cbv zeta. fold instant.
  destruct (Z.geb_spec n maxAttempts) as [Hreached|Hbelow].
  - destruct (Z.gtb_spec (Z.abs instant) MAX_TIME_VALUE) as [Hrange|Hrange].
    + split; [reflexivity|]. intros Hnot. exfalso. apply Hnot. lia.
    + split; [intros [_ ?]; lia|]. intros _. cbn [fst snd].
      split; [reflexivity|]. split; [|split; [|split; [|by split_and!]]].
      * intros r Hr. exists (setFailedLogin n (Some instant) r).
        split; [by apply findById_runUpdate_id|].
        pose proof (setFailedLogin_columns n (Some instant) r) as Hcols.
        split; [reflexivity|]. split; [intros ->; reflexivity|].
        split; [reflexivity|].
        split; [intros _ Hmin; cbn [locked_until setFailedLogin]; subst instant;
                by rewrite Z.max_r by lia|].
        split.
        { intros _ now'. unfold isLocked. cbn [locked_until setFailedLogin].
          destruct (dateParse instant) as [t|].
          - rewrite Z.gtb_ltb, Z.ltb_lt. split.
            + intros Hlater. exists t. split; [reflexivity | lia].
            + intros (t' & Ht' & Hlater). inversion Ht'; subst t'. lia.
          - split; [discriminate | intros (t & Ht & _); discriminate]. }
        split; [intros Hlt; lia|]. by split_and!.
      * intros j Hj. by apply findById_runUpdate_else.
      * cbn [runUpdate fst setUsers users]. unfold updateWhere. apply length_map.
  - split; [intros [? _]; lia|]. intros _. cbn [fst snd].
    split; [reflexivity|]. split; [|split; [|split; [|by split_and!]]].
    + intros r Hr. exists (setFailedLogin n None r).
      split; [by apply findById_runUpdate_id|].
      split; [reflexivity|]. split; [intros ->; reflexivity|].
      split; [intros ?; lia|]. split; [intros ?; lia|]. split; [intros ?; lia|].
      split; [reflexivity|]. by split_and!.
    + intros j Hj. by apply findById_runUpdate_else.
    + cbn [runUpdate fst setUsers users]. unfold updateWhere. apply length_map.
Qed.


End Lockout.

(** C1 at a sample: max_attempts = 2, duration = 5 min; the second wrong
    attempt locks the account for 300000 ms. *)
Lemma recordFailedLogin_sample :
  exists u',
    UserRepository.findById 7
      (UserRepository.recordFailedLogin
         (Some (Sample.withLock 1 None Sample.alice)) (Some 2) (Some 5) 1000
         (Sample.dbOf [Sample.root; Sample.withLock 1 None Sample.alice])).1
    = Some u'
    ∧ UserRepository.failed_login_attempts u' = 2
    ∧ UserRepository.locked_until u' = Some 301000.
Proof.
  destruct (@recordFailedLogin_counts_and_locks (Sample.env "OFF" "OPEN" 5 false)
              (Sample.dbOf [Sample.root; Sample.withLock 1 None Sample.alice])
              (Sample.withLock 1 None Sample.alice) 2 5 1000)
    as (_ & Hwritten).
  destruct Hwritten as (_ & Hrow & _);
    [vm_compute; intros [_ Hrange]; discriminate Hrange|].
  destruct (Hrow (Sample.withLock 1 None Sample.alice) eq_refl)
    as (u' & Hfind & Hcount & _ & _ & Hlock & _).
  exists u'. split; [exact Hfind|]. split; [exact Hcount|].
  apply Hlock; simpl; lia.
Defined.

(** C1, as stated, fails at [lockoutMinutes = 0]: the lock lasts one minute
    ([now + 60000]), not [now + 0]; and a failed attempt below the maximum
    on a row that still carries an expired [locked_until] clears that
    column, so the counter is not the only column that changes. *)
Lemma recordFailedLogin_zero_minutes_and_expired_lock :
  (let db := Sample.dbOf [Sample.alice] in
   let db' :=
     (UserRepository.recordFailedLogin (Some Sample.alice) (Some 1) (Some 0)
        1000 db).1 in
   UserRepository.failed_login_attempts Sample.alice + 1 >= 1
   ∧ option_map UserRepository.locked_until (UserRepository.findById 7 db')
     = Some (Some 61000)
   ∧ option_map UserRepository.locked_until (UserRepository.findById 7 db')
     ≠ Some (Some (1000 + 0 * 60 * 1000)))
  ∧ (let u := Sample.withLock 1 (Some 500) Sample.alice in
     let db := Sample.dbOf [u] in
     let db' :=
       (UserRepository.recordFailedLogin (Some u) (Some 5) (Some 15) 1000 db).1 in
     UserRepository.failed_login_attempts u + 1 < 5
     ∧ UserRepository.locked_until u = Some 500
     ∧ option_map UserRepository.locked_until (UserRepository.findById 7 db')
       = Some None).
Proof.
  cbv zeta. split.
  - split; [vm_compute; discriminate|]. split; [reflexivity | discriminate].
  - split; [reflexivity|]. split; reflexivity.
Qed.


(** ** Session versions and token verification *)

Section Sessions.
Import UserRepository Auth.
Context `{E : Env}.

Lemma isSuspended_test (u : user) :
  (String.eqb (status u) "SUSPENDED" || (is_active u =? 0)) = true
  <-> isSuspended u.
Proof.
  unfold isSuspended. rewrite orb_true_iff, String.eqb_eq, Z.eqb_eq. tauto.
Qed.

(** The token path of [authenticateToken]: the request was not already
    authenticated by an API key, accounts are enabled, and the token
    verifies to [decoded], whose user row is [dbUser]. *)
Lemma authenticateToken_token_path (req : request) (db : database)
    (token : string) (decoded : payload) (dbUser : user) :
  req_user req = None ∨ req_apiKey req = false ->
  DISABLE_ACCOUNTS = false ->
  getTokenFromRequest req = Some token ->
  jwt_verify token = Some decoded ->
  findById (p_id decoded) db = Some dbUser ->
  (isSuspended dbUser ->
     authenticateToken req db
     = (db, Respond 403 (JObj [("error", JStr "Account suspended")])))
  ∧ (¬ isSuspended dbUser ->
     Js.orNumber (p_sessionVersion decoded) 1
       ≠ Js.orNumber (Some (session_version dbUser)) 1 ->
     authenticateToken req db
     = (db, Respond 401 (JObj [("error", JStr "Session expired")])))
  ∧ (¬ isSuspended dbUser ->
     Js.orNumber (p_sessionVersion decoded) 1
       = Js.orNumber (Some (session_version dbUser)) 1 ->
     exists req', authenticateToken req db = (db, Next req')
                  ∧ option_map ru_id (req_user req') = Some (uid dbUser)).
Proof.
  intros Hkey Haccounts Htoken Hverify Hrow.
  unfold authenticateToken.
  assert (Hpass : match req_user req with
                  | Some _ => req_apiKey req
                  | None => false
                  end = false).
  { destruct Hkey as [-> | ->]; [done | by destruct (req_user req)]. }
  rewrite Hpass, Haccounts, Htoken, Hverify, Hrow.
  pose proof (isSuspended_test dbUser) as Hsusp.
  destruct (String.eqb (status dbUser) "SUSPENDED" || (is_active dbUser =? 0)).
  - assert (isSuspended dbUser) by (by apply Hsusp).
    split; [done|]. split; intros; contradiction.
  - assert (¬ isSuspended dbUser) by (rewrite <- Hsusp; discriminate).
    split; [intros; contradiction|].
    destruct (Z.eqb_spec (Js.orNumber (p_sessionVersion decoded) 1)
                (Js.orNumber (Some (session_version dbUser)) 1)) as [Heq|Hne];
      simpl.
    + split; [intros; contradiction|]. intros _ _. eauto.
    + split; [done|]. intros; contradiction.
Qed.

Lemma sessionPayload_version (u : user) :
  1 <= session_version u ->
  Js.orNumber (p_sessionVersion (sessionPayload u)) 1 = session_version u.
Proof.
  intros Hv. unfold sessionPayload. cbn [p_sessionVersion].
  rewrite (orNumber_pos (session_version u)) by lia. apply orNumber_pos. lia.
Qed.

(** C3, as the code has it.  With accounts enabled and no API-key
    identity on the request:
    (a) a token that verifies for an existing user is checked against the
        stored [session_version] ([|| 1] on both sides): on a mismatch the
        request is rejected, with 401 "Session expired" when the user is
        not suspended and with 403 "Account suspended" when it is; on a
        match, and the user not suspended, the request passes;
    (b) for a user other than the anonymous id 0 whose version is at least
        1, [incrementSessionVersion] adds one to the stored version; the
        token minted before it is rejected afterwards (401 unless the user
        is suspended), and the token minted from the refreshed row passes
        when the user is not suspended. *)
Theorem authenticateToken_checks_session_version :
  DISABLE_ACCOUNTS = false ->
  (forall (req : request) (db : database) (token : string)
          (decoded : payload) (dbUser : user),
      req_user req = None ∨ req_apiKey req = false ->
      getTokenFromRequest req = Some token ->
      jwt_verify token = Some decoded ->
      findById (p_id decoded) db = Some dbUser ->
      Js.orNumber (p_sessionVersion decoded) 1
        ≠ Js.orNumber (Some (session_version dbUser)) 1 ->
      (exists code body,
          authenticateToken req db = (db, Respond code body)
          ∧ (code = 401 ∨ code = 403))
      ∧ (¬ isSuspended dbUser ->
         authenticateToken req db
         = (db, Respond 401 (JObj [("error", JStr "Session expired")])))
      ∧ (isSuspended dbUser ->
         authenticateToken req db
         = (db, Respond 403 (JObj [("error", JStr "Account suspended")]))))
  ∧ (forall (reqOld reqNew : request) (db : database) (u : user),
      req_user reqOld = None ∨ req_apiKey reqOld = false ->
      req_user reqNew = None ∨ req_apiKey reqNew = false ->
      findById (uid u) db = Some u ->
      uid u ≠ 0 ->
      1 <= session_version u ->
      let db' := (incrementSessionVersion (uid u) db).1 in
      exists u',
        findById (uid u) db' = Some u'
        ∧ session_version u' = session_version u + 1
        ∧ (getTokenFromRequest reqOld = Some (createSessionToken u) ->
           jwt_verify (createSessionToken u) = Some (sessionPayload u) ->
           (exists code body,
               authenticateToken reqOld db' = (db', Respond code body))
           ∧ (¬ isSuspended u ->
              authenticateToken reqOld db'
              = (db', Respond 401 (JObj [("error", JStr "Session expired")]))))
        ∧ (getTokenFromRequest reqNew = Some (createSessionToken u') ->
           jwt_verify (createSessionToken u') = Some (sessionPayload u') ->
           ¬ isSuspended u ->
           exists req', authenticateToken reqNew db' = (db', Next req'))).
Proof.
  intros Haccounts. split.
  - intros req db token decoded dbUser Hkey Htoken Hverify Hrow Hmis.
    destruct (authenticateToken_token_path req db token decoded dbUser
                Hkey Haccounts Htoken Hverify Hrow) as (Hsusp & Hexpired & _).
    split; [|split; [intros; by apply Hexpired | exact Hsusp]].
    destruct (String.eqb (status dbUser) "SUSPENDED" || (is_active dbUser =? 0))
      eqn:Htest.
    + apply isSuspended_test in Htest. rewrite (Hsusp Htest). eauto 6.
    + assert (Hns : ¬ isSuspended dbUser)
        by (rewrite <- isSuspended_test, Htest; discriminate).
      rewrite (Hexpired Hns Hmis). eauto 6.
  - intros reqOld reqNew db u HkeyOld HkeyNew Hu Hne Hv db'.
    destruct (findById_runUpdate_target (uid u) (bumpSession None) db u
                ltac:(reflexivity) Hne Hu) as [Hrow _].
    assert (Hdb' : db' = (runUpdate (targets (uid u)) (bumpSession None) db).1).
    { subst db'. unfold incrementSessionVersion.
      by destruct (runUpdate (targets (uid u)) (bumpSession None) db). }
    rewrite <- Hdb' in Hrow.
    exists (bumpSession None u). split; [exact Hrow|]. split; [reflexivity|].
    split.
    + intros Htoken Hverify.
      destruct (authenticateToken_token_path reqOld db' _ (sessionPayload u)
                  (bumpSession None u) HkeyOld Haccounts Htoken Hverify Hrow)
        as (Hsusp & Hexpired & _).
      assert (Hmis : Js.orNumber (p_sessionVersion (sessionPayload u)) 1
                     ≠ Js.orNumber (Some (session_version (bumpSession None u))) 1).
      { rewrite sessionPayload_version by done. simpl session_version.
        rewrite orNumber_pos by lia. lia. }
      split.
      * destruct (String.eqb (status u) "SUSPENDED" || (is_active u =? 0))
          eqn:Htest.
        -- apply isSuspended_test in Htest. rewrite (Hsusp Htest). eauto.
        -- assert (Hns : ¬ isSuspended (bumpSession None u))
             by (rewrite <- isSuspended_test; simpl; rewrite Htest; discriminate).
           rewrite (Hexpired Hns Hmis). eauto.
      * intros Hns. by apply Hexpired.
    + intros Htoken Hverify Hns.
      destruct (authenticateToken_token_path reqNew db' _
                  (sessionPayload (bumpSession None u)) (bumpSession None u)
                  HkeyNew Haccounts Htoken Hverify Hrow) as (_ & _ & Hpass).
      destruct Hpass as (req' & Hreq' & _); [exact Hns | | eauto].
      rewrite sessionPayload_version by (simpl; lia).
      rewrite orNumber_pos by (simpl; lia). reflexivity.
Qed.

End Sessions.

(** C3 at a sample: alice's token of version 1 is rejected with 401 once
    her session version has been incremented, and the token of the
    refreshed row passes. *)
Lemma authenticateToken_sample :
  let E := Sample.env "OFF" "OPEN" 5 false in
  let db := Sample.dbOf [Sample.root; Sample.alice] in
  let db' := (UserRepository.incrementSessionVersion 7 db).1 in
  Auth.createSessionToken Sample.alice = "7.1"
  ∧ Auth.authenticateToken
      (Sample.requestTo "/api/snippets" (Some "Bearer 7.1")) db'
    = (db', Respond 401 (JObj [("error", JStr "Session expired")]))
  ∧ exists req',
      Auth.authenticateToken
        (Sample.requestTo "/api/snippets" (Some "Bearer 7.2")) db'
      = (db', Next req').
Proof.
  cbv zeta. split; [reflexivity|].
  destruct (@authenticateToken_checks_session_version
              (Sample.env "OFF" "OPEN" 5 false) eq_refl) as [_ Hmint].
  destruct (Hmint (Sample.requestTo "/api/snippets" (Some "Bearer 7.1"))
                  (Sample.requestTo "/api/snippets" (Some "Bearer 7.2"))
                  (Sample.dbOf [Sample.root; Sample.alice]) Sample.alice
                  (or_introl eq_refl) (or_introl eq_refl) eq_refl
                  ltac:(discriminate) ltac:(simpl; lia))
    as (u' & Hrow & _ & Hold & Hnew).
  vm_compute in Hrow. inversion Hrow; subst u'.
  assert (Hactive : ¬ Auth.isSuspended Sample.alice).
  { intros [Hs | Ha]; vm_compute in Hs || vm_compute in Ha; discriminate. }
  split.
  - apply Hold; [reflexivity | reflexivity | exact Hactive].
  - apply Hnew; [reflexivity | reflexivity | exact Hactive].
Defined.

(** C3, as stated, fails for a suspended user: a token whose version (1)
    differs from the stored one (2) is answered 403 "Account suspended",
    not 401. *)
Lemma authenticateToken_suspended_stale_token :
  let E := Sample.env "OFF" "OPEN" 5 false in
  let u := Sample.suspended (Sample.withVersion 2 Sample.alice) in
  let db := Sample.dbOf [Sample.root; u] in
  let req := Sample.requestTo "/api/snippets" (Some "Bearer 7.1") in
  jwt_verify "7.1" = Some (Auth.sessionPayload Sample.alice)
  ∧ UserRepository.findById 7 db = Some u
  ∧ p_sessionVersion (Auth.sessionPayload Sample.alice) = Some 1
  ∧ UserRepository.session_version u = 2
  ∧ Auth.authenticateToken req db
    = (db, Respond 403 (JObj [("error", JStr "Account suspended")]))
  ∧ Auth.authenticateToken req db
    ≠ (db, Respond 401 (JObj [("error", JStr "Session expired")])).
Proof. cbv zeta. repeat split; try reflexivity. vm_compute. discriminate. Qed.

(** ** The statements that write the session version *)

Section AdminSessions.
Import UserRepository.

Lemma updateStatus_fst (userId : Z) (s : string) (db : database) :
  (updateStatus userId s db).1 = (runUpdate (targets userId) (setStatus s) db).1.
Proof.
  unfold updateStatus.
  destruct (runUpdate (targets userId) (setStatus s) db) as [db' n].
  by destruct (n =? 0).
Qed.

Lemma updateRole_fst (userId : Z) (r : string) (db : database) :
  (updateRole userId r db).1 = (runUpdate (targets userId) (setRole r) db).1.
Proof.
  unfold updateRole.
  destruct (runUpdate (targets userId) (setRole r) db) as [db' n].
  by destruct (n =? 0).
Qed.

Lemma incrementSessionVersion_fst (userId : Z) (db : database) :
  (incrementSessionVersion userId db).1
  = (runUpdate (targets userId) (bumpSession None) db).1.
Proof.
  unfold incrementSessionVersion.
  by destruct (runUpdate (targets userId) (bumpSession None) db).
Qed.

Lemma setForcePasswordReset_fst (userId : Z) (flag : bool) (db : database) :
  (UserRepository.setForcePasswordReset userId flag db).1
  = (runUpdate (targets userId)
       (bumpSession (Some (if flag then 1 else 0))) db).1.
Proof.
  unfold UserRepository.setForcePasswordReset.
  by destruct (runUpdate (targets userId) _ db).
Qed.

(** The two statements of the repository that write [session_version] add
    exactly one, for an id other than 0. *)
Lemma incrementSessionVersion_adds_one (userId : Z) (db : database) (u : user) :
  userId ≠ 0 -> findById userId db = Some u ->
  session_version <$> findById userId (incrementSessionVersion userId db).1
  = Some (session_version u + 1).
Proof.
  intros Hne Hu. rewrite incrementSessionVersion_fst.
  destruct (findById_runUpdate_target userId (bumpSession None) db u
              ltac:(reflexivity) Hne Hu) as [-> _]. reflexivity.
Qed.

Lemma setForcePasswordReset_adds_one (userId : Z) (flag : bool)
    (db : database) (u : user) :
  userId ≠ 0 -> findById userId db = Some u ->
  session_version
    <$> findById userId (UserRepository.setForcePasswordReset userId flag db).1
  = Some (session_version u + 1).
Proof.
  intros Hne Hu. rewrite setForcePasswordReset_fst.
  destruct (findById_runUpdate_target userId
              (bumpSession (Some (if flag then 1 else 0))) db u
              ltac:(reflexivity) Hne Hu) as [-> _]. reflexivity.
Qed.

(** [updateStatus] and [updateRole] by themselves do not write
    [session_version]. *)
Lemma updateStatus_keeps_session_version (userId : Z) (s : string)
    (db : database) :
  session_version <$> findById userId (updateStatus userId s db).1
  = session_version <$> findById userId db.
Proof.
  rewrite updateStatus_fst, findById_runUpdate by reflexivity.
  destruct (findById userId db) as [u|]; [|reflexivity]. simpl.
  by destruct (targets userId u).
Qed.

Lemma updateRole_keeps_session_version (userId : Z) (r : string)
    (db : database) :
  session_version <$> findById userId (updateRole userId r db).1
  = session_version <$> findById userId db.
Proof.
  rewrite updateRole_fst, findById_runUpdate by reflexivity.
  destruct (findById userId db) as [u|]; [|reflexivity]. simpl.
  by destruct (targets userId u).
Qed.

End AdminSessions.

(** ** Registration *)

Section Registration.
Import UserRepository AuthRoutes.
Context `{E : Env}.

Lemma uid_le_max (rows : list user) (r : user) :
  r ∈ rows -> uid r <= fold_right Z.max 0 (map uid rows).
Proof.
  induction 1 as [r rows | r r' rows _ IH]; simpl; lia.
Qed.

Lemma find_app_last (p : user -> bool) (rows : list user) (x : user) :
  (forall r, r ∈ rows -> p r = false) -> p x = true ->
  find p (rows ++ [x]) = Some x.
Proof.
  intros Hnone Hx. induction rows as [|r rows IH]; simpl.
  - by rewrite Hx.
  - rewrite (Hnone r) by constructor. apply IH.
    intros r' Hr'. apply Hnone. by constructor.
Qed.

Lemma existsb_false_forall {A : Type} (p : A -> bool) (l : list A) :
  existsb p l = false <-> forall x, x ∈ l -> p x = false.
Proof.
  split.
  - intros Hnone x Hx. apply not_true_is_false. intros Hp.
    assert (existsb p l = true); [|congruence].
    apply existsb_exists. exists x. split; [by apply list_elem_of_In | done].
  - intros Hnone. apply not_true_is_false. intros Hsome.
    apply existsb_exists in Hsome as (x & Hx & Hp).
    apply list_elem_of_In in Hx. rewrite (Hnone x Hx) in Hp. discriminate.
Qed.

(** A name that conflicts with no row is inserted with the role and
    status asked for, the column defaults of the schema, and the next row
    id; the new row is what [create] returns. *)
Lemma create_fresh (name pw : string) (r s : option string) (db : database) :
  normalizedTaken (Js.toLowerCase name) db = false ->
  usernameTaken name db = false ->
  exists row,
    create name pw r s db
    = ({| users := users db ++ [row]; users_seq := nextRowid db;
          audit_logs := audit_logs db; comparisons := comparisons db |},
       Ok (Some row))
    ∧ username row = name
    ∧ role row = Js.orString r "USER"
    ∧ status row = Js.orString s "ACTIVE"
    ∧ uid row = nextRowid db
    ∧ session_version row = 1
    ∧ failed_login_attempts row = 0
    ∧ locked_until row = None.
Proof.
  intros Hindex Hcolumn. unfold create. rewrite Hindex, Hcolumn. cbv zeta.
  exists (insertedRow (nextRowid db) name (Js.toLowerCase name)
            (bcrypt_hash pw) (Js.orString r "USER") (Js.orString s "ACTIVE")).
  split; [|repeat split; reflexivity].
  f_equal. f_equal. unfold findById. cbn [users].
  apply find_app_last; [|cbn [uid]; apply Z.eqb_refl].
  intros x Hx. apply uid_le_max in Hx.
  apply Z.eqb_neq. unfold nextRowid. lia.
Qed.

Lemma create_taken (name pw : string) (r s : option string) (db : database) :
  normalizedTaken (Js.toLowerCase name) db = true ∨ usernameTaken name db = true ->
  exists message, create name pw r s db = (db, Throw message).
Proof.
  intros Htaken. unfold create.
  destruct (normalizedTaken (Js.toLowerCase name) db); [by eexists|].
  destruct Htaken as [?|Hcolumn]; [discriminate|]. rewrite Hcolumn. by eexists.
Qed.

(** [COUNT( * ) ... WHERE id != 0] is positive exactly when some row has an
    id other than 0. *)
Lemma userCount_positive (db : database) :
  (userCount db >? 0) = true <-> exists r, r ∈ users db ∧ uid r ≠ 0.
Proof.
  unfold userCount. rewrite Z.gtb_ltb, Z.ltb_lt. split.
  - intros Hpos.
    destruct (filter (fun r => negb (uid r =? 0) = true) (users db))
      as [|r rest] eqn:Hrows; [simpl in Hpos; lia|].
    assert (Hr : r ∈ filter (fun r => negb (uid r =? 0) = true) (users db))
      by (rewrite Hrows; left).
    apply list_elem_of_filter in Hr as [Hid Hr].
    exists r. split; [exact Hr|]. apply negb_true_iff, Z.eqb_neq in Hid. exact Hid.
  - intros (r & Hr & Hid).
    assert (Hin : r ∈ filter (fun r => negb (uid r =? 0) = true) (users db)).
    { apply list_elem_of_filter. split; [|exact Hr].
      by apply negb_true_iff, Z.eqb_neq. }
    destruct (filter _ (users db)); [by apply elem_of_nil in Hin | simpl; lia].
Qed.

(** The mode the handler acts on, from the text of the setting. *)
Lemma registrationMode_of_setting :
  let setting := Js.toUpperCase (getSetting "registration.mode" "OPEN") in
  (setting = "CLOSED" -> getAuthConfig_registrationMode = "CLOSED")
  ∧ (setting = "APPROVAL" -> getAuthConfig_registrationMode = "APPROVAL")
  ∧ (setting ≠ "CLOSED" -> setting ≠ "APPROVAL" ->
     getAuthConfig_registrationMode = "OPEN").
Proof.
  cbv zeta. unfold getAuthConfig_registrationMode, normalizeRegistrationMode.
  assert (Hnonempty : Js.orString (Some (getSetting "registration.mode" "OPEN")) ""
                      = getSetting "registration.mode" "OPEN").
  { unfold Js.orString.
    by destruct (String.eqb_spec (getSetting "registration.mode" "OPEN") "") as [->|]. }
  rewrite Hnonempty. split_and!.
  - intros ->. reflexivity.
  - intros ->. reflexivity.
  - intros Hclosed Happroval. unfold Js.arrayIncludes, RegistrationModes.
    destruct (existsb _ _) eqn:Hin; [|reflexivity].
    apply existsb_eqb_elem_of in Hin.
    repeat (apply elem_of_cons in Hin as [Hin | Hin]; [congruence|]).
    by apply elem_of_nil in Hin.
Qed.

(** The user service on a request: it either throws, writing nothing, or
    appends one row with the role and status asked for and returns it. *)
Lemma createUser_outcome (validate : string -> string -> option string)
    (req : request) (db : database) (r s : string) :
  r ≠ "" -> s ≠ "" ->
  match UserService.createUser validate (req_body_username req)
          (req_body_password req) (Some r) (Some s) db with
  | (db1, Throw _) => db1 = db
  | (db1, Ok None) => False
  | (db1, Ok (Some user)) =>
      users db1 = users db ++ [user] ∧ role user = r ∧ status user = s
  end.
Proof.
  intros Hr Hs. unfold UserService.createUser.
  destruct (req_body_username req) as [name|]; [|reflexivity].
  destruct (req_body_password req) as [pw|]; [|reflexivity].
  destruct (validate name pw); [reflexivity|].
  destruct (normalizedTaken (Js.toLowerCase name) db) eqn:Hindex.
  { destruct (create_taken name pw (Some r) (Some s) db (or_introl Hindex))
      as [message ->]. reflexivity. }
  destruct (usernameTaken name db) eqn:Hcolumn.
  { destruct (create_taken name pw (Some r) (Some s) db (or_intror Hcolumn))
      as [message ->]. reflexivity. }
  destruct (create_fresh name pw (Some r) (Some s) db Hindex Hcolumn)
    as (row & -> & _ & Hrole & Hstatus & _).
  simpl. rewrite Hrole, Hstatus. unfold Js.orString.
  destruct (String.eqb_spec r ""); [contradiction|].
  destruct (String.eqb_spec s ""); [contradiction|]. done.
Qed.

(** What [createAndRespond] leaves behind: no account and a 400, or one
    more account with the role and status it was given, answered with 202
    and [pendingApproval: true] for PENDING and with 200 otherwise. *)
Lemma createAndRespond_outcome (validate : string -> string -> option string)
    (mode r s : string) (req : request) (db : database) :
  r ≠ "" -> s ≠ "" ->
  let out := createAndRespond validate mode r s req db in
  (users out.1 = users db ∧ res_status out.2 = 400)
  ∨ (exists row,
        users out.1 = users db ++ [row] ∧ role row = r ∧ status row = s
        ∧ (if String.eqb s "PENDING"
           then res_status out.2 = 202
                ∧ exists rest,
                    res_body out.2 = JObj (("pendingApproval", JBool true) :: rest)
           else res_status out.2 = 200)).
Proof.
  intros Hr Hs out. subst out. unfold createAndRespond.
  pose proof (createUser_outcome validate req db r s Hr Hs) as Hcreate.
  destruct (UserService.createUser validate _ _ (Some r) (Some s) db)
    as [db1 [[user|]|message]].
  - destruct Hcreate as (Husers & Hrole & Hstatus).
    right. exists user. destruct (String.eqb s "PENDING"); simpl; eauto 7.
  - contradiction.
  - subst db1. by left.
Qed.

(** Accepted arguments and a name that conflicts with no row: the account
    is created. *)
Lemma createAndRespond_fresh (validate : string -> string -> option string)
    (mode r s name pw : string) (req : request) (db : database) :
  req_body_username req = Some name ->
  req_body_password req = Some pw ->
  validate name pw = None ->
  normalizedTaken (Js.toLowerCase name) db = false ->
  usernameTaken name db = false ->
  let out := createAndRespond validate mode r s req db in
  exists row, users out.1 = users db ++ [row] ∧ username row = name
              ∧ (res_status out.2 = 200 ∨ res_status out.2 = 202).
Proof.
  intros Hname Hpw Hvalid Hindex Hcolumn out. subst out. unfold createAndRespond.
  destruct (create_fresh name pw (Some r) (Some s) db Hindex Hcolumn)
    as (row & Hcreate & Hrow & _).
  unfold UserService.createUser. rewrite Hname, Hpw, Hvalid, Hcreate.
  exists row. destruct (String.eqb s "PENDING"); simpl; auto.
Qed.

(** C5.  Let [hasUsers] say that some row has an id other than 0, and let
    [setting] be the text of [registration.mode] (default OPEN) in upper
    case.  A registration request either creates no account and is
    answered with an error (403 or 400), or appends exactly one account,
    and then:
    - with no users yet (the anonymous id 0 not counted) the account has
      role SUPER_ADMIN and status ACTIVE and the answer is 200, whatever
      the setting;
    - with users and the setting APPROVAL it has role USER and status
      PENDING and the answer is 202 with [pendingApproval: true];
    - with users and the setting OPEN, or any text other than CLOSED and
      APPROVAL, it has role USER and status ACTIVE and the answer is 200.
    With users and the setting CLOSED no account is created and the answer
    is 403.  When internal accounts are enabled, the user service accepts
    the arguments, and no row has the name (as it is, or in its
    [username_normalized] without regard to case), an account is created
    in every case but CLOSED-with-users. *)
Theorem register_initial_role_and_status :
  forall (validate : string -> string -> option string)
         (req : request) (db : database),
    Js.isAscii (getSetting "registration.mode" "OPEN") = true ->
    let out := register validate req db in
    let hasUsers := exists r, r ∈ users db ∧ uid r ≠ 0 in
    let setting := Js.toUpperCase (getSetting "registration.mode" "OPEN") in
    let created (r s : string) (code : Z) :=
      exists row, users out.1 = users db ++ [row]
                  ∧ role row = r ∧ status row = s ∧ res_status out.2 = code in
    let refused :=
      users out.1 = users db ∧ (res_status out.2 = 403 ∨ res_status out.2 = 400) in
    (¬ hasUsers -> created "SUPER_ADMIN" "ACTIVE" 200 ∨ refused)
    ∧ (hasUsers -> setting = "OPEN" -> created "USER" "ACTIVE" 200 ∨ refused)
    ∧ (hasUsers -> setting ≠ "CLOSED" -> setting ≠ "APPROVAL" ->
         created "USER" "ACTIVE" 200 ∨ refused)
    ∧ (hasUsers -> setting = "APPROVAL" ->
         (created "USER" "PENDING" 202
          ∧ exists rest, res_body out.2 = JObj (("pendingApproval", JBool true) :: rest))
         ∨ refused)
    ∧ (hasUsers -> setting = "CLOSED" ->
         out.1 = db ∧ res_status out.2 = 403)
    ∧ (DISABLE_INTERNAL_ACCOUNTS = false ->
       (¬ hasUsers ∨ setting ≠ "CLOSED") ->
       forall name pw,
         req_body_username req = Some name ->
         req_body_password req = Some pw ->
         validate name pw = None ->
         Js.isAscii name = true ->
         (forall r, r ∈ users db ->
            username r ≠ name
            ∧ forall n, username_normalized r = Some n ->
                        Js.toLowerCase n ≠ Js.toLowerCase name) ->
         exists row, users out.1 = users db ++ [row] ∧ username row = name
                     ∧ (res_status out.2 = 200 ∨ res_status out.2 = 202)).
Proof.
  intros validate req db _ out hasUsers setting created refused.
  pose proof registrationMode_of_setting as Hmode. cbv zeta in Hmode.
  fold setting in Hmode. destruct Hmode as (Hclosed & Happroval & Hopen).
  pose proof (userCount_positive db) as Hcount. fold hasUsers in Hcount.
  assert (Hfresh : forall name,
             (forall r, r ∈ users db ->
                username r ≠ name
                ∧ forall n, username_normalized r = Some n ->
                            Js.toLowerCase n ≠ Js.toLowerCase name) ->
             normalizedTaken (Js.toLowerCase name) db = false
             ∧ usernameTaken name db = false).
  { intros name Hnone. split; apply existsb_false_forall; intros r Hr;
      destruct (Hnone r Hr) as [Hcolumn Hindex].
    - unfold matchesUsername. destruct (username_normalized r) as [n|]; [|done].
      apply String.eqb_neq. rewrite toLowerCase_idemp. by apply Hindex.
    - by apply String.eqb_neq. }
  subst created refused out. unfold register.
  destruct DISABLE_INTERNAL_ACCOUNTS.
  { (* every registration is refused with 403 *)
    cbn [fst snd send res_status].
    split_and!; intros; try discriminate;
      try (right; split; [reflexivity | by left]); by split. }
  cbv zeta.
  destruct (userCount db >? 0) eqn:Husers; cbn [negb].
  - (* some users exist *)
    assert (Hsome : hasUsers) by (by apply Hcount).
    destruct (String.eqb_spec setting "CLOSED") as [Hc|Hnc].
    { rewrite (Hclosed Hc).
      change (String.eqb "CLOSED" "CLOSED") with true. cbv iota.
      cbn [fst snd send res_status].
      split; [intros Hno; contradiction|].
      split; [intros _ Hs; rewrite Hc in Hs; discriminate|].
      split; [intros _ Hs; contradiction|].
      split; [intros _ Hs; rewrite Hc in Hs; discriminate|].
      split; [done|].
      intros _ [? | ?]; contradiction. }
    destruct (String.eqb_spec setting "APPROVAL") as [Ha|Hna].
    + rewrite (Happroval Ha).
      change (String.eqb "APPROVAL" "CLOSED") with false.
      change (String.eqb "APPROVAL" "APPROVAL") with true. cbv iota.
      split; [intros Hno; contradiction|].
      split; [intros _ Hs; rewrite Ha in Hs; discriminate|].
      split; [intros _ _ Hs; contradiction|].
      split.
      * intros _ _.
        destruct (createAndRespond_outcome validate "APPROVAL" "USER" "PENDING"
                    req db ltac:(discriminate) ltac:(discriminate))
          as [[Hsame H400] | (row & Hrows & Hrole & Hstatus & H202 & Hbody)].
        -- right. split; [exact Hsame | by right].
        -- left. split; [exists row; done | exact Hbody].
      * split; [intros _ Hs; contradiction|].
        intros _ _ name pw Hname Hpw Hvalid _ Hnone.
        destruct (Hfresh name Hnone) as [Hindex Hcolumn].
        exact (createAndRespond_fresh validate "APPROVAL" "USER" "PENDING"
                 name pw req db Hname Hpw Hvalid Hindex Hcolumn).
    + rewrite (Hopen Hnc Hna).
      change (String.eqb "OPEN" "CLOSED") with false.
      change (String.eqb "OPEN" "APPROVAL") with false. cbv iota.
      assert (Hactive :
        (exists row,
            users (createAndRespond validate "OPEN" "USER" "ACTIVE" req db).1
            = users db ++ [row]
            ∧ role row = "USER" ∧ status row = "ACTIVE"
            ∧ res_status (createAndRespond validate "OPEN" "USER" "ACTIVE" req db).2
              = 200)
        ∨ users (createAndRespond validate "OPEN" "USER" "ACTIVE" req db).1
          = users db
          ∧ (res_status (createAndRespond validate "OPEN" "USER" "ACTIVE" req db).2
             = 403
             ∨ res_status (createAndRespond validate "OPEN" "USER" "ACTIVE" req db).2
               = 400)).
      { destruct (createAndRespond_outcome validate "OPEN" "USER" "ACTIVE" req db
                    ltac:(discriminate) ltac:(discriminate))
          as [[Hsame H400] | (row & Hrows & Hrole & Hstatus & H200)].
        - right. split; [exact Hsame | by right].
        - left. exists row. done. }
      split; [intros Hno; contradiction|].
      split; [intros _ _; exact Hactive|].
      split; [intros _ _ _; exact Hactive|].
      split; [intros _ Hs; contradiction|].
      split; [intros _ Hs; contradiction|].
      intros _ _ name pw Hname Hpw Hvalid _ Hnone.
      destruct (Hfresh name Hnone) as [Hindex Hcolumn].
      exact (createAndRespond_fresh validate "OPEN" "USER" "ACTIVE" name pw
               req db Hname Hpw Hvalid Hindex Hcolumn).
  - (* the first account *)
    assert (Hnone : ¬ hasUsers).
    { intros Hsome. apply Hcount in Hsome. discriminate. }
    split.
    + intros _.
      destruct (createAndRespond_outcome validate getAuthConfig_registrationMode
                  "SUPER_ADMIN" "ACTIVE" req db
                  ltac:(discriminate) ltac:(discriminate))
        as [[Hsame H400] | (row & Hrows & Hrole & Hstatus & H200)].
      * right. split; [exact Hsame | by right].
      * left. exists row. done.
    + split; [intros ?; contradiction|]. split; [intros ?; contradiction|].
      split; [intros ?; contradiction|]. split; [intros ?; contradiction|].
      intros _ _ name pw Hname Hpw Hvalid _ Hfree.
      destruct (Hfresh name Hfree) as [Hindex Hcolumn].
      exact (createAndRespond_fresh validate getAuthConfig_registrationMode
               "SUPER_ADMIN" "ACTIVE" name pw req db
               Hname Hpw Hvalid Hindex Hcolumn).
Qed.

End Registration.

(** C5 at a sample: the setting reads [approval], the table holds the
    first administrator, and [bob] registers with arguments the user
    service accepts.  The account is appended with role USER and status
    PENDING and the answer is 202. *)
Lemma register_initial_role_and_status_sample :
  let E := Sample.env "OFF" "approval" 5 false in
  let db := Sample.dbOf [Sample.root] in
  let out := @AuthRoutes.register E (fun _ _ => None)
               (Sample.credentials "bob" "builder-12") db in
  Js.isAscii (@getSetting E "registration.mode" "OPEN") = true
  ∧ exists row,
      UserRepository.users out.1 = UserRepository.users db ++ [row]
      ∧ UserRepository.role row = "USER"
      ∧ UserRepository.status row = "PENDING"
      ∧ res_status out.2 = 202.
Proof.
  cbv zeta. split; [reflexivity|].
  destruct (@register_initial_role_and_status
              (Sample.env "OFF" "approval" 5 false) (fun _ _ => None)
              (Sample.credentials "bob" "builder-12")
              (Sample.dbOf [Sample.root]) ltac:(reflexivity))
    as (_ & _ & _ & Happroval & _).
  cbv zeta in Happroval.
  destruct Happroval as [[Hcreated _] | [Hsame _]].
  - exists Sample.root. split; [|discriminate].
    apply list_elem_of_In. left. reflexivity.
  - reflexivity.
  - exact Hcreated.
  - vm_compute in Hsame. discriminate.
Defined.

(** ** Worked scenarios of the specification *)

Section Scenarios.
Import UserRepository.

(** Bootstrap: with only the anonymous row in the table, a registration
    creates a SUPER_ADMIN that is ACTIVE, even in CLOSED mode. *)
Example register_first_user_closed_mode :
  let E := Sample.env "OFF" "CLOSED" 5 false in
  let db := Sample.dbOf [anonymousRow "anon-00c0ffee00c0ffee"] in
  let out := AuthRoutes.register (fun _ _ => None)
               (Sample.credentials "rootadmin" "supersecurepassword") db in
  res_status out.2 = 200
  ∧ (fun r => (uid r, role r, status r)) <$> findByUsername "rootadmin" out.1
    = Some (8, "SUPER_ADMIN", "ACTIVE").
Proof. cbv zeta. split; vm_compute; reflexivity. Qed.

(** APPROVAL mode: a second user is created PENDING with a 202, and the
    login with the right password is refused with 403 while PENDING. *)
Example register_approval_then_login_pending :
  let E := Sample.env "OFF" "APPROVAL" 5 false in
  let db := Sample.dbOf [Sample.root] in
  let out := AuthRoutes.register (fun _ _ => None)
               (Sample.credentials "pendinguser" "supersecurepassword") db in
  let again := AuthRoutes.login 1000 1001
                 (Sample.credentials "pendinguser" "supersecurepassword") out.1 in
  res_status out.2 = 202
  ∧ status <$> findByUsername "pendinguser" out.1 = Some "PENDING"
  ∧ res_status again.2 = 403
  ∧ res_body again.2 = JObj [("error", JStr "Account pending approval")].
Proof. cbv zeta. repeat split; vm_compute; reflexivity. Qed.

(** Lockout: max_attempts = 2, duration = 5 min.  Two wrong passwords lock
    the account; the third attempt, with the right password, gets 423 and
    a [lockedUntil] in the future; after the unlock the right password
    gets 200 and the counter is 0. *)
Example lockout_then_unlock :
  let E := Sample.env "OFF" "OPEN" 5 false in
  let db0 := Sample.dbOf [Sample.root; Sample.alice] in
  let wrong := Sample.credentials "alice" "wrongpassword" in
  let right := Sample.credentials "alice" "wonderland" in
  let first := AuthRoutes.login 1000 1001 wrong db0 in
  let second := AuthRoutes.login 2000 2001 wrong first.1 in
  let third := AuthRoutes.login 3000 3001 right second.1 in
  let unlocked := unlockUser 7 third.1 in
  let fourth := AuthRoutes.login 4000 4001 right unlocked.1 in
  res_status first.2 = 401
  ∧ res_status second.2 = 401
  ∧ locked_until <$> findById 7 second.1 = Some (Some 302001)
  ∧ res_status third.2 = 423
  ∧ res_body third.2
    = JObj [("error", JStr "Account temporarily locked due to failed login attempts");
            ("lockedUntil", JNum 302001)]
  ∧ failed_login_attempts <$> findById 7 third.1 = Some 2
  ∧ res_status fourth.2 = 200
  ∧ failed_login_attempts <$> findById 7 fourth.1 = Some 0
  ∧ locked_until <$> findById 7 fourth.1 = Some None.
Proof. cbv zeta. repeat split; vm_compute; reflexivity. Qed.

(** Rate limiter: window = 1000 ms, limit = 3 on the [auth] scope.  Three
    requests pass with remaining quota 2, 1, 0; the fourth gets 429 with
    [Retry-After] of 1 second; once the window has elapsed the next request
    passes with a fresh count of 1. *)
Example rateLimiter_four_requests :
  let E := Sample.env "OFF" "OPEN" 5 false in
  let req := Sample.credentials "alice" "wonderland" in
  let r1 := RateLimiter.rateLimiter "auth" 5000 req ∅ in
  let r2 := RateLimiter.rateLimiter "auth" 5100 req r1.1 in
  let r3 := RateLimiter.rateLimiter "auth" 5200 req r2.1 in
  let r4 := RateLimiter.rateLimiter "auth" 5300 req r3.1 in
  let r5 := RateLimiter.rateLimiter "auth" 6000 req r4.1 in
  RateLimiter.headers r1.2 = [("X-RateLimit-Limit", 3); ("X-RateLimit-Remaining", 2)]
  ∧ RateLimiter.headers r2.2 = [("X-RateLimit-Limit", 3); ("X-RateLimit-Remaining", 1)]
  ∧ RateLimiter.headers r3.2 = [("X-RateLimit-Limit", 3); ("X-RateLimit-Remaining", 0)]
  ∧ RateLimiter.verdict r3.2 = Next tt
  ∧ RateLimiter.headers r4.2
    = [("X-RateLimit-Limit", 3); ("X-RateLimit-Remaining", 0); ("Retry-After", 1)]
  ∧ RateLimiter.verdict r4.2
    = Respond 429 (JObj [("error", JStr "Too many requests"); ("scope", JStr "auth")])
  ∧ RateLimiter.verdict r5.2 = Next tt
  ∧ RateLimiter.count <$> r5.1 !! "auth:10.0.0.7" = Some 1.
Proof. cbv zeta. repeat split; vm_compute; reflexivity. Qed.

End Scenarios.

(** * Further properties of the code *)

(** ** Roles and permission lists *)

Section RoleNormalisation.
Import Permissions.

Lemma rolePermissions_is_Some (key : string) :
  is_Some (rolePermissions key) <-> key ∈ Roles.
Proof.
  unfold rolePermissions, Roles. split.
  - intros Hsome.
    repeat match goal with
           | H : is_Some (if String.eqb ?k ?c then _ else _) |- _ =>
               destruct (String.eqb_spec k c) as [Heq|?];
               [rewrite Heq, !elem_of_cons; auto 10|]
           end.
    by destruct Hsome.
  - intros Hin.
    repeat (apply elem_of_cons in Hin as [-> | Hin]; [vm_compute; eauto|]).
    by apply elem_of_nil in Hin.
Qed.

Lemma rolePermissions_None (key : string) :
  rolePermissions key = None <-> key ∉ Roles.
Proof.
  rewrite <- rolePermissions_is_Some, <- eq_None_not_Some. tauto.
Qed.

Lemma Roles_upper_nonempty (key : string) :
  key ∈ Roles -> Js.toUpperCase key = key ∧ key ≠ "".
Proof.
  unfold Roles. intros Hin.
  repeat (apply elem_of_cons in Hin as [-> | Hin];
          [split; [vm_compute; reflexivity | discriminate]|]).
  by apply elem_of_nil in Hin.
Qed.

Lemma normalizeRole_elem (r : option string) : normalizeRole r ∈ Roles.
Proof. apply rolePermissions_is_Some, rolePermissions_normalizeRole. Qed.

Lemma normalizeRole_known (s : string) :
  Js.toUpperCase s ∈ Roles -> normalizeRole (Some s) = Js.toUpperCase s.
Proof.
  intros Hin. unfold normalizeRole.
  destruct (String.eqb_spec s "") as [->|_].
  - apply Roles_upper_nonempty in Hin as [_ Hne]. by destruct Hne.
  - apply rolePermissions_is_Some in Hin as [perms ->]. reflexivity.
Qed.

Lemma normalizeRole_unknown (r : option string) :
  Js.toUpperCase (Js.orString r "") ∉ Roles -> normalizeRole r = USER.
Proof.
  intros Hout. unfold normalizeRole. destruct r as [s|]; [|reflexivity].
  unfold Js.orString in Hout.
  destruct (String.eqb s ""); [reflexivity|].
  apply rolePermissions_None in Hout. by rewrite Hout.
Qed.

(** X1.  [normalizeRole] always lands on one of the five role names; a role
    name is a fixed point, so normalising twice is normalising once; and
    the result depends on the input only up to letter case. *)
Theorem normalizeRole_normal_form :
  forall r : option string,
    normalizeRole r ∈ Roles
    ∧ normalizeRole (Some (normalizeRole r)) = normalizeRole r
    ∧ (forall s s' : string,
          Js.toUpperCase s = Js.toUpperCase s' ->
          normalizeRole (Some s) = normalizeRole (Some s')).
Proof.
  intros r. split; [apply normalizeRole_elem|]. split.
  - pose proof (normalizeRole_elem r) as Hin.
    destruct (Roles_upper_nonempty _ Hin) as [Hup _].
    rewrite normalizeRole_known; rewrite Hup; done.
  - intros s s' Hsame. unfold normalizeRole.
    assert (Hempty : String.eqb s "" = String.eqb s' "").
    { destruct (String.eqb_spec s "") as [->|Hs], (String.eqb_spec s' "") as [->|Hs'];
        try reflexivity.
      - symmetry in Hsame. apply (proj1 (toUpperCase_empty s')) in Hsame.
        contradiction.
      - apply (proj1 (toUpperCase_empty s)) in Hsame. contradiction. }
    rewrite Hempty, Hsame. reflexivity.
Qed.

(** X2.  Least privilege on anything unrecognised, for a role written in
    ASCII: an input whose upper case is one of the five names normalises
    to that name; every other ASCII input (missing and empty included)
    normalises to USER, gets exactly the five permissions of USER, and so
    has no permission outside the [snippet.*] and [community.*] ones.
    (Outside ASCII, JavaScript folds further letters onto S and I, so
    there are other spellings of the role names.) *)
Theorem unrecognised_role_gets_user_permissions :
  forall r : option string,
    Js.isAscii (default "" r) = true ->
    let upper := Js.toUpperCase (Js.orString r "") in
    (upper ∈ Roles -> normalizeRole r = upper)
    ∧ (upper ∉ Roles ->
         normalizeRole r = USER
         ∧ getPermissionsByRole r
           = [SNIPPET_READ_SELF; SNIPPET_WRITE_SELF; SNIPPET_DELETE_SELF;
              SNIPPET_PUBLIC_PUBLISH; COMMUNITY_VIEW_PUBLIC]
         ∧ (forall p, hasPermission r (Some p) = true ->
              p ∈ [SNIPPET_READ_SELF; SNIPPET_WRITE_SELF; SNIPPET_DELETE_SELF;
                   SNIPPET_PUBLIC_PUBLISH; COMMUNITY_VIEW_PUBLIC])).
Proof.
  intros r _ upper. subst upper. split.
  - intros Hin. destruct r as [s|].
    + unfold Js.orString in *. destruct (String.eqb s "") eqn:Hs.
      * apply Roles_upper_nonempty in Hin as [_ Hne]. by destruct Hne.
      * by apply normalizeRole_known.
    + apply Roles_upper_nonempty in Hin as [_ Hne]. by destruct Hne.
  - intros Hout. pose proof (normalizeRole_unknown r Hout) as Huser.
    assert (Hperms : getPermissionsByRole r
                     = [SNIPPET_READ_SELF; SNIPPET_WRITE_SELF; SNIPPET_DELETE_SELF;
                        SNIPPET_PUBLIC_PUBLISH; COMMUNITY_VIEW_PUBLIC]).
    { unfold getPermissionsByRole. rewrite Huser. reflexivity. }
    split; [exact Huser|]. split; [exact Hperms|].
    intros p Hp. apply hasPermission_elem_of in Hp as [_ Hin].
    by rewrite Hperms in Hin.
Qed.

(** X2 at a sample: [guest] is no role name and gets the permissions of
    USER. *)
Lemma unrecognised_role_sample :
  Permissions.normalizeRole (Some "guest") = "USER"
  ∧ Permissions.hasPermission (Some "guest") (Some "admin.panel.access") = false.
Proof.
  destruct (unrecognised_role_gets_user_permissions (Some "guest") eq_refl)
    as [_ Hother].
  destruct Hother as (Hrole & _ & Hnone).
  - vm_compute. intros Hin.
    repeat (apply elem_of_cons in Hin as [Hin | Hin]; [discriminate|]).
    by apply elem_of_nil in Hin.
  - split; [exact Hrole|]. reflexivity.
Defined.

Lemma insertSorted_perm (x : string) (l : list string) :
  insertSorted x l ≡ₚ x :: l.
Proof.
  induction l as [|y l IH]; [reflexivity|]. simpl.
  destruct (String.leb x y); [reflexivity|].
  rewrite IH. apply Permutation_swap.
Qed.

Lemma insertSorted_sorted (x : string) (l : list string) :
  Sorted leString l -> Sorted leString (insertSorted x l).
Proof.
  induction 1 as [|y l Hsorted IH Hhd]; simpl.
  - repeat constructor.
  - destruct (String.leb x y) eqn:Hxy.
    + constructor; [by constructor | by constructor].
    + assert (Hyx : leString y x).
      { destruct (String.leb_total x y) as [H|H]; [congruence | exact H]. }
      constructor; [exact IH|].
      destruct l as [|z l]; simpl.
      * by constructor.
      * destruct (String.leb x z); constructor; [exact Hyx|].
        by inversion Hhd.
Qed.

Lemma sortStrings_perm (l : list string) : sortStrings l ≡ₚ l.
Proof.
  induction l as [|x l IH]; [reflexivity|].
  simpl. by rewrite insertSorted_perm, IH.
Qed.

Lemma sortStrings_sorted (l : list string) : Sorted leString (sortStrings l).
Proof.
  induction l as [|x l IH]; [constructor|].
  simpl. by apply insertSorted_sorted.
Qed.

(** X3.  [getRolePermissionList] is the role's permission set in ascending
    order: it is sorted, it is a rearrangement of the set (nothing added,
    dropped or repeated), and so a permission is in the list exactly when
    [hasPermission] grants it. *)
Theorem getRolePermissionList_sorted_permutation :
  forall r : option string,
    Sorted leString (getRolePermissionList r)
    ∧ getRolePermissionList r ≡ₚ getPermissionsByRole r
    ∧ (forall p, p ≠ "" ->
         (p ∈ getRolePermissionList r <-> hasPermission r (Some p) = true)).
Proof.
  intros r. unfold getRolePermissionList.
  split; [apply sortStrings_sorted|]. split; [apply sortStrings_perm|].
  intros p Hne. rewrite hasPermission_elem_of, sortStrings_perm. tauto.
Qed.

End RoleNormalisation.

(** ** The permission filters *)

Section PermissionFilters.
Import Permissions AclMiddleware.

Lemma normalizeRole_known_opt (r : option string) :
  Js.toUpperCase (Js.orString r "") ∈ Roles ->
  normalizeRole r = Js.toUpperCase (Js.orString r "").
Proof.
  intros Hin. destruct r as [s|].
  - unfold Js.orString in *. destruct (String.eqb s "") eqn:Hs.
    + apply Roles_upper_nonempty in Hin as [_ Hne]. by destruct Hne.
    + by apply normalizeRole_known.
  - apply Roles_upper_nonempty in Hin as [_ Hne]. by destruct Hne.
Qed.

Lemma normalizeRole_idemp (r : option string) :
  normalizeRole (Some (normalizeRole r)) = normalizeRole r.
Proof.
  pose proof (normalizeRole_elem r) as Hin.
  destruct (Roles_upper_nonempty _ Hin) as [Hup _].
  rewrite normalizeRole_known; rewrite Hup; done.
Qed.

Lemma getPermissionsByRole_normalized (r : option string) :
  getPermissionsByRole (Some (normalizeRole r)) = getPermissionsByRole r.
Proof. unfold getPermissionsByRole. by rewrite normalizeRole_idemp. Qed.

Lemma hasPermission_normalized (r p : option string) :
  hasPermission (Some (normalizeRole r)) p = hasPermission r p.
Proof. unfold hasPermission. by rewrite getPermissionsByRole_normalized. Qed.

Lemma requirePermission_passes (p : option string) (req : request) :
  requirePermission p req = Next req
  <-> exists u, req_user req = Some u
                ∧ hasPermission (Some (normalizeRole (ru_role u))) p = true.
Proof.
  unfold requirePermission. destruct (req_user req) as [u|].
  - destruct (hasPermission (Some (normalizeRole (ru_role u))) p) eqn:Hp; simpl.
    + split; [eauto | done].
    + split; [discriminate|]. intros (u' & Hu' & Hp'). congruence.
  - split; [discriminate | intros (u & Hu & _); discriminate].
Qed.

(** X4.  [requireAnyPermission] answers 401 without a user; with a user it
    passes the request on exactly when some listed permission is granted to
    the normalised role, which is exactly when [requirePermission] would
    pass for one of them, and answers 403 otherwise.  With an empty list it
    never passes, and a missing or empty permission in the list never
    grants anything. *)
Theorem requireAnyPermission_some_granted :
  forall (permissions : list (option string)) (req : request),
    match req_user req with
    | None =>
        requireAnyPermission permissions req
        = Respond 401 (JObj [("message", JStr "Authentication required")])
    | Some u =>
        let role := Some (normalizeRole (ru_role u)) in
        (requireAnyPermission permissions req = Next req
         <-> exists p, p ∈ permissions ∧ hasPermission role p = true)
        ∧ (requireAnyPermission permissions req = Next req
           <-> exists p, p ∈ permissions ∧ requirePermission p req = Next req)
        ∧ (requireAnyPermission permissions req ≠ Next req ->
           requireAnyPermission permissions req
           = Respond 403 (JObj [("message", JStr "Insufficient permissions")]))
        ∧ (forall p, p ∈ permissions -> hasPermission role p = true ->
                     exists name, p = Some name ∧ name ≠ "")
    end
    ∧ requireAnyPermission [] req ≠ Next req.
Proof.
  intros permissions req. split.
  - unfold requireAnyPermission. destruct (req_user req) as [u|] eqn:Hu; [|reflexivity].
    cbv zeta.
    assert (Hex : existsb (hasPermission (Some (normalizeRole (ru_role u)))) permissions = true
                  <-> exists p, p ∈ permissions
                                ∧ hasPermission (Some (normalizeRole (ru_role u))) p = true).
    { rewrite existsb_exists. split; intros (p & Hin & Hp); exists p;
        (split; [by apply list_elem_of_In | done]). }
    split; [|split; [|split]].
    + destruct (existsb _ permissions); simpl.
      * split; [intros _; by apply Hex | done].
      * split; [discriminate|]. intros Hsome. apply Hex in Hsome. discriminate.
    + destruct (existsb _ permissions); simpl.
      * split; [|done]. intros _.
        destruct (proj1 Hex eq_refl) as (p & Hin & Hp). exists p. split; [done|].
        apply requirePermission_passes. eauto.
      * split; [discriminate|]. intros (p & Hin & Hpass).
        apply requirePermission_passes in Hpass as (u' & Hu' & Hp).
        assert (u' = u) by congruence. subst u'.
        assert (false = true) by (apply Hex; eauto). discriminate.
    + destruct (existsb _ permissions); simpl; [intros Hne; by destruct Hne | done].
    + intros [name|] _ Hp; [|discriminate].
      apply hasPermission_elem_of in Hp as [Hne _]. eauto.
  - unfold requireAnyPermission. destruct (req_user req); simpl; discriminate.
Qed.

Lemma withUser_withUser (req : request) (u u' : auth_user) :
  withUser (withUser req u) u' = withUser req u'.
Proof. reflexivity. Qed.

(** X5.  [attachPermissionContext] leaves a request without a user alone;
    on a user it replaces the role by its normal form and sets
    [permissions] to the sorted permission list of that role, keeping every
    other field of the user ([id], [username], [status], [is_admin],
    [session_version], [force_password_reset]) and every other part of the
    request.  Running it twice is running it once, and it changes no
    decision of [requirePermission]. *)
Theorem attachPermissionContext_normalises :
  forall req : request,
    attachPermissionContext (attachPermissionContext req)
    = attachPermissionContext req
    ∧ (forall p,
          requirePermission p (attachPermissionContext req)
          = Next (attachPermissionContext req)
          <-> requirePermission p req = Next req)
    ∧ match req_user req with
      | None => attachPermissionContext req = req
      | Some u =>
          exists u',
            req_user (attachPermissionContext req) = Some u'
            ∧ ru_role u' = Some (normalizeRole (ru_role u))
            ∧ ru_permissions u' = Some (getRolePermissionList (ru_role u))
            ∧ ru_id u' = ru_id u
            ∧ ru_username u' = ru_username u
            ∧ ru_status u' = ru_status u
            ∧ ru_is_admin u' = ru_is_admin u
            ∧ ru_session_version u' = ru_session_version u
            ∧ ru_force_password_reset u' = ru_force_password_reset u
            ∧ req_path (attachPermissionContext req) = req_path req
            ∧ req_bytestashauth (attachPermissionContext req)
              = req_bytestashauth req
            ∧ req_cookies (attachPermissionContext req) = req_cookies req
            ∧ req_x_forwarded_for (attachPermissionContext req)
              = req_x_forwarded_for req
            ∧ req_ip (attachPermissionContext req) = req_ip req
            ∧ req_user_agent (attachPermissionContext req) = req_user_agent req
            ∧ req_body_username (attachPermissionContext req)
              = req_body_username req
            ∧ req_body_password (attachPermissionContext req)
              = req_body_password req
            ∧ req_apiKey (attachPermissionContext req) = req_apiKey req
      end.
Proof.
  intros req. unfold attachPermissionContext.
  destruct (req_user req) as [u|] eqn:Hu.
  - split; [|split].
    + cbn [req_user withUser ru_role ru_id ru_username ru_status ru_is_admin
           ru_session_version ru_force_password_reset].
      rewrite withUser_withUser, normalizeRole_idemp. reflexivity.
    + intros p. rewrite !requirePermission_passes.
      cbn [req_user withUser]. split.
      * intros (u' & Hu' & Hp). inversion Hu'; subst u'. clear Hu'.
        cbn [ru_role] in Hp. rewrite normalizeRole_idemp in Hp. eauto.
      * intros (u' & Hu' & Hp). assert (u' = u) by congruence. subst u'.
        eexists. split; [reflexivity|].
        cbn [ru_role]. by rewrite normalizeRole_idemp.
    + eexists. split; [reflexivity|].
      cbn [ru_role ru_permissions ru_id ru_username ru_status ru_is_admin
           ru_session_version ru_force_password_reset].
      split; [reflexivity|]. split; [|by split_and!].
      unfold getRolePermissionList.
      by rewrite getPermissionsByRole_normalized.
  - rewrite Hu. split; [reflexivity|]. split; [done | reflexivity].
Qed.

Lemma panel_access_roles (k : string) :
  k ∈ Roles ->
  hasPermission (Some k) (Some ADMIN_PANEL_ACCESS)
  = existsb (String.eqb k) [SUPER_ADMIN; ADMIN; MODERATOR].
Proof.
  unfold Roles. intros Hin.
  repeat (apply elem_of_cons in Hin as [-> | Hin]; [vm_compute; reflexivity|]).
  by apply elem_of_nil in Hin.
Qed.

(** X6.  [requireAdmin] is the permission gate on [admin.panel.access]: it
    passes a user on exactly when the normalised role is SUPER_ADMIN, ADMIN
    or MODERATOR.  [isAdmin] holds exactly when the normalised role is
    SUPER_ADMIN or ADMIN, so whoever [isAdmin] accepts passes
    [requireAdmin], while a MODERATOR passes [requireAdmin] without being
    [isAdmin]. *)
Theorem requireAdmin_and_isAdmin :
  forall req : request,
    match req_user req with
    | None =>
        AdminAuth.requireAdmin req
        = Respond 401 (JObj [("message", JStr "Authentication required")])
    | Some u =>
        (AdminAuth.requireAdmin req = Next req
         <-> normalizeRole (ru_role u) ∈ [SUPER_ADMIN; ADMIN; MODERATOR])
        ∧ (AdminAuth.isAdmin (ru_role u) = true
           <-> normalizeRole (ru_role u) ∈ [SUPER_ADMIN; ADMIN])
        ∧ (AdminAuth.isAdmin (ru_role u) = true ->
           AdminAuth.requireAdmin req = Next req)
        ∧ (normalizeRole (ru_role u) = MODERATOR ->
           AdminAuth.requireAdmin req = Next req
           ∧ AdminAuth.isAdmin (ru_role u) = false)
    end.
Proof.
  intros req. unfold AdminAuth.requireAdmin.
  destruct (req_user req) as [u|] eqn:Hu;
    [|unfold requirePermission; by rewrite Hu].
  assert (Hgate : requirePermission (Some ADMIN_PANEL_ACCESS) req = Next req
                  <-> normalizeRole (ru_role u) ∈ [SUPER_ADMIN; ADMIN; MODERATOR]).
  { rewrite requirePermission_passes, <- existsb_eqb_elem_of,
      <- (panel_access_roles _ (normalizeRole_elem (ru_role u))).
    split; [intros (u' & Hu' & Hp); congruence | eauto]. }
  assert (Hadmin : AdminAuth.isAdmin (ru_role u) = true
                   <-> normalizeRole (ru_role u) ∈ [SUPER_ADMIN; ADMIN]).
  { unfold AdminAuth.isAdmin. cbv zeta.
    rewrite orb_true_iff, !String.eqb_eq, !elem_of_cons, elem_of_nil.
    destruct (decide (Js.toUpperCase (Js.orString (ru_role u) "") ∈ Roles))
      as [Hin|Hout].
    - rewrite (normalizeRole_known_opt _ Hin). tauto.
    - rewrite (normalizeRole_unknown _ Hout). split.
      + intros [Heq | Heq]; destruct Hout; rewrite Heq; unfold Roles;
          rewrite !elem_of_cons; auto.
      + intros [Heq | [Heq | []]]; discriminate. }
  split; [exact Hgate|]. split; [exact Hadmin|]. split.
  - intros Hyes. apply Hgate. apply Hadmin in Hyes.
    rewrite !elem_of_cons in *. tauto.
  - intros Hmod. split.
    + apply Hgate. rewrite Hmod, !elem_of_cons. auto.
    + apply not_true_is_false. intros Hyes.
      apply Hadmin in Hyes. rewrite Hmod, !elem_of_cons, elem_of_nil in Hyes.
      destruct Hyes as [Heq | [Heq | []]]; discriminate.
Qed.

End PermissionFilters.

(** ** Host validation *)

Section HostHeader.
Import HostValidation.


Lemma allChars_app (p : ascii -> bool) (a b : string) :
  allChars p (a +:+ b) = (allChars p a && allChars p b).
Proof.
  induction a as [|c a IH]; [reflexivity|]. simpl.
  by rewrite IH, andb_assoc.
Qed.

Lemma allChars_mapString (p q : ascii -> bool) (f : ascii -> ascii)
    (s : string) :
  (forall c, p c = true -> q (f c) = true) ->
  allChars p s = true -> allChars q (Js.mapString f s) = true.
Proof.
  intros Hpq. induction s as [|c s IH]; [done|]. simpl.
  rewrite !andb_true_iff. intros [Hc Hs]. auto.
Qed.

Lemma allChars_trimStart (p : ascii -> bool) (s : string) :
  allChars p s = true -> allChars p (Js.trimStart s) = true.
Proof.
  induction s as [|c s IH]; [done|]. simpl.
  destruct (Js.isWhite c); [|done].
  rewrite andb_true_iff. intros [_ Hs]. auto.
Qed.

Lemma allChars_trimEnd (p : ascii -> bool) (s : string) :
  allChars p s = true -> allChars p (Js.trimEnd s) = true.
Proof.
  induction s as [|c s IH]; [done|]. simpl.
  rewrite andb_true_iff. intros [Hc Hs]. specialize (IH Hs).
  destruct (Js.trimEnd s) as [|d t].
  - destruct (Js.isWhite c); simpl; [done | by rewrite Hc].
  - simpl in *. by rewrite Hc, IH.
Qed.

Lemma trimStart_white (s : string) :
  allChars Js.isWhite s = true -> Js.trimStart s = "".
Proof.
  induction s as [|c s IH]; [done|]. simpl.
  rewrite andb_true_iff. intros [-> Hs]. auto.
Qed.







Lemma splitAt0_result (sep : ascii) (s : string) :
  allChars (notChar sep) (Js.splitAt0 sep s) = true.
Proof.
  unfold Js.splitAt0. induction s as [|c s IH]; [done|]. simpl.
  destruct (Ascii.eqb c sep) eqn:Hc; [done|].
  destruct (Js.splitFirst sep s). simpl in *.
  unfold notChar at 1. by rewrite Hc, IH.
Qed.

Lemma splitAt0_prefix_sep (sep : ascii) (a b : string) :
  Js.splitAt0 sep (a +:+ String sep b) = Js.splitAt0 sep a.
Proof.
  unfold Js.splitAt0. induction a as [|c a IH]; simpl.
  - by rewrite Ascii.eqb_refl.
  - destruct (Ascii.eqb c sep); [done|].
    destruct (Js.splitFirst sep (a +:+ String sep b)),
             (Js.splitFirst sep a). simpl in *. by rewrite IH.
Qed.

Lemma lowerAscii_is (c : ascii) (d : ascii) :
  d = ","%char ∨ d = ":"%char ->
  Ascii.eqb (Js.lowerAscii c) d = Ascii.eqb c d.
Proof.
  intros [-> | ->]; destruct c as [[] [] [] [] [] [] [] []]; vm_compute; reflexivity.
Qed.

Lemma lowerAscii_white (c : ascii) : Js.isWhite (Js.lowerAscii c) = Js.isWhite c.
Proof. destruct c as [[] [] [] [] [] [] [] []]; vm_compute; reflexivity. Qed.

Lemma includes_char_absent (c : ascii) (s : string) :
  allChars (notChar c) s = true -> Js.includes s (String c "") = false.
Proof.
  induction s as [|d s IH]; [done|]. simpl.
  rewrite andb_true_iff. unfold notChar at 1. rewrite negb_true_iff.
  intros [Hd Hs]. rewrite (IH Hs), orb_false_r.
  destruct (ascii_dec c d) as [->|_]; [|reflexivity].
  by rewrite Ascii.eqb_refl in Hd.
Qed.


(** The host name [validateHostHeader] compares with the list. *)
Lemma hostName_no_colon (raw : string) :
  allChars (notChar ":")
    (Js.toLowerCase (Js.splitAt0 ":" (Js.trim (Js.splitAt0 "," raw)))) = true.
Proof.
  apply (allChars_mapString (notChar ":")); [|apply splitAt0_result].
  intros c. unfold notChar. by rewrite lowerAscii_is by auto.
Qed.





(** X8.  The name compared with the list never contains a colon, so an
    allow-list entry that carries a port can never match: if every entry
    of a non-empty list contains a colon, every request is answered 400,
    whatever its headers. *)
Theorem validateHostHeader_port_entries_never_match :
  forall (allowed : list string) (forwardedHost host : option string)
         (req : request),
    allowed ≠ [] ->
    (forall entry, entry ∈ allowed -> Js.includes entry ":" = true) ->
    validateHostHeader allowed forwardedHost host req
    = Respond 400 (JObj [("error", JStr "Missing host header")])
    ∨ validateHostHeader allowed forwardedHost host req
      = Respond 400 (JObj [("error", JStr "Invalid host")]).
Proof.
  intros allowed forwardedHost host req Hne Hports.
  unfold validateHostHeader.
  destruct allowed as [|entry rest]; [contradiction|]. cbn [length Nat.eqb].
  destruct (negb (Js.truthy _)); [by left|]. right.
  destruct (Js.arrayIncludes _ _) eqn:Hin; [|reflexivity].
  apply existsb_eqb_elem_of in Hin.
  pose proof (Hports _ Hin) as Hcolon.
  rewrite includes_char_absent in Hcolon by apply hostName_no_colon.
  discriminate.
Qed.

(** X8 at a sample: the list [example.com:8443] rejects that very host. *)
Lemma validateHostHeader_port_entry_sample :
  validateHostHeader ["example.com:8443"] None (Some "example.com:8443")
    Sample.request0
  = Respond 400 (JObj [("error", JStr "Invalid host")]).
Proof.
  destruct (validateHostHeader_port_entries_never_match
              ["example.com:8443"] None (Some "example.com:8443")
              Sample.request0 ltac:(discriminate)) as [Hmissing | Hinvalid].
  - intros entry Hin. apply list_elem_of_singleton in Hin. subst entry.
    vm_compute. reflexivity.
  - vm_compute in Hmissing. discriminate.
  - exact Hinvalid.
Defined.

Lemma split_pieces (sep : ascii) (s : string) (piece : string) :
  piece ∈ split sep s -> allChars (notChar sep) piece = true.
Proof.
  revert piece. induction s as [|c s IH]; intros piece; simpl.
  - intros Hin. apply list_elem_of_singleton in Hin. by subst piece.
  - destruct (Ascii.eqb c sep) eqn:Hc.
    + intros Hin. apply elem_of_cons in Hin as [-> | Hin]; [done | auto].
    + destruct (split sep s) as [|first pieces].
      * intros Hin. apply list_elem_of_singleton in Hin. subst piece.
        simpl. unfold notChar. by rewrite Hc.
      * intros Hin. apply elem_of_cons in Hin as [-> | Hin].
        -- simpl. unfold notChar at 1. rewrite Hc. simpl.
           apply IH. constructor.
        -- apply IH. by constructor.
Qed.

Lemma split_pieces_all (p : ascii -> bool) (sep : ascii) (s : string)
    (piece : string) :
  allChars p s = true -> piece ∈ split sep s -> allChars p piece = true.
Proof.
  revert piece. induction s as [|c s IH]; intros piece; simpl.
  - intros _ Hin. apply list_elem_of_singleton in Hin. by subst piece.
  - rewrite andb_true_iff. intros [Hc Hs].
    destruct (Ascii.eqb c sep).
    + intros Hin. apply elem_of_cons in Hin as [-> | Hin]; [done | auto].
    + destruct (split sep s) as [|first pieces].
      * intros Hin. apply list_elem_of_singleton in Hin. subst piece.
        simpl. by rewrite Hc.
      * intros Hin. apply elem_of_cons in Hin as [-> | Hin].
        -- simpl. rewrite Hc. simpl. apply IH; [done | constructor].
        -- apply IH; [done | by constructor].
Qed.

(** X9.  The allow-list read from [ALLOWED_HOSTS] has no empty entry, no
    entry with a comma, and only lower-case entries.  When the variable is
    unset, empty, or made of commas and white space only, the list is
    empty; and under an empty list every request passes, with or without
    host headers. *)
Theorem allowedHosts_entries_and_permissive_default :
  forall ALLOWED_HOSTS : option string,
    (forall entry, entry ∈ allowedHosts ALLOWED_HOSTS ->
       entry ≠ ""
       ∧ Js.toLowerCase entry = entry
       ∧ allChars (notChar ",") entry = true)
    ∧ allowedHosts None = []
    ∧ (allChars blankChar (Js.orString ALLOWED_HOSTS "") = true ->
       allowedHosts ALLOWED_HOSTS = [])
    ∧ (forall forwardedHost host req,
          validateHostHeader [] forwardedHost host req = Next req).
Proof.
  intros env. split; [|split; [reflexivity | split; [|reflexivity]]].
  - intros entry Hin. unfold allowedHosts in Hin.
    apply list_elem_of_In, filter_In in Hin as [Hin Hkeep].
    apply in_map_iff in Hin as (piece & <- & Hpiece).
    apply list_elem_of_In, split_pieces in Hpiece.
    split; [|split].
    + simpl in Hkeep. intros Hempty. rewrite Hempty in Hkeep. discriminate.
    + apply toLowerCase_idemp.
    + apply (allChars_mapString (notChar ","));
        [intros c; unfold notChar; by rewrite lowerAscii_is by auto|].
      unfold Js.trim. by apply allChars_trimEnd, allChars_trimStart.
  - intros Hblank. unfold allowedHosts.
    set (pieces := split "," (Js.orString env "")).
    assert (Hpieces : forall piece, In piece pieces ->
              Js.toLowerCase (Js.trim piece) = "").
    { intros piece Hin. apply list_elem_of_In in Hin.
      assert (Hwhite : allChars Js.isWhite piece = true).
      { pose proof (split_pieces "," _ _ Hin) as Hnocomma.
        pose proof (split_pieces_all blankChar "," _ _ Hblank Hin) as Hb.
        clear -Hnocomma Hb. induction piece as [|c piece IH]; [done|].
        simpl in *. apply andb_true_iff in Hnocomma as [Hc Hrest].
        apply andb_true_iff in Hb as [Hbc Hbrest].
        unfold notChar in Hc. unfold blankChar in Hbc.
        apply negb_true_iff in Hc. rewrite Hc in Hbc. simpl in Hbc.
        rewrite Hbc. auto. }
      unfold Js.trim. by rewrite trimStart_white. }
    clearbody pieces. induction pieces as [|piece pieces IH]; [reflexivity|].
    simpl. rewrite (Hpieces piece) by (by left). simpl.
    apply IH. intros p Hp. apply Hpieces. by right.
Qed.

End HostHeader.

(** ** The settings cache *)

Section SettingsCache.
Import SettingsStore.

Lemma readCached_fresh {A : Type} (cache : gmap string (cacheEntry A))
    (key : string) (now : Z) (entry : cacheEntry A) :
  cache !! key = Some entry ->
  now - cachedAt entry < CACHE_TTL_MS ->
  readCached cache key now = Some (value entry).
Proof.
  intros Hentry Hfresh. unfold readCached, isFresh. rewrite Hentry.
  destruct (Z.ltb_spec (now - cachedAt entry) CACHE_TTL_MS); [reflexivity | lia].
Qed.

Lemma readCached_stale {A : Type} (cache : gmap string (cacheEntry A))
    (key : string) (now : Z) :
  match cache !! key with
  | None => True
  | Some entry => CACHE_TTL_MS <= now - cachedAt entry
  end ->
  readCached cache key now = None.
Proof.
  unfold readCached, isFresh. destruct (cache !! key) as [entry|]; [|done].
  intros Hstale.
  destruct (Z.ltb_spec (now - cachedAt entry) CACHE_TTL_MS); [lia | reflexivity].
Qed.

Lemma readCached_cases {A : Type} (cache : gmap string (cacheEntry A))
    (key : string) (now : Z) :
  (exists entry, cache !! key = Some entry
                 ∧ now - cachedAt entry < CACHE_TTL_MS
                 ∧ readCached cache key now = Some (value entry))
  ∨ (match cache !! key with
     | None => True
     | Some entry => CACHE_TTL_MS <= now - cachedAt entry
     end
     ∧ readCached cache key now = None).
Proof.
  destruct (cache !! key) as [entry|] eqn:Hentry.
  - destruct (Z.lt_ge_cases (now - cachedAt entry) CACHE_TTL_MS) as [Hlt|Hge].
    + left. exists entry. eauto using readCached_fresh.
    + right. split; [done|]. apply readCached_stale. by rewrite Hentry.
  - right. split; [done|]. apply readCached_stale. by rewrite Hentry.
Qed.

(** X10.  After any [getSetting(key, ...)] the cache holds an entry for
    [key] with the value just returned, and the tables and the other cache
    entries are as before.  While that entry is fresh (less than 5000 ms
    old at the check) every further read of [key] returns that same value
    and changes nothing, whatever the [system_settings] table holds by then
    and whatever fallback is passed; in particular the fallback returned
    for a missing row sticks for that long.  Once the entry is stale, or
    when there is none, the read returns the row's value, or the fallback
    when there is no row. *)
Theorem getSetting_bounded_staleness :
  forall (key : string) (fallbackValue : option string) (t : tick)
         (repo : repository),
    let out := getSetting key fallbackValue t repo in
    (exists entry,
        settingCache out.1 !! key = Some entry
        ∧ value entry = out.2
        ∧ forall (later : repository) (fallback' : option string) (t' : tick),
            settingCache later !! key = Some entry ->
            checked t' - cachedAt entry < CACHE_TTL_MS ->
            getSetting key fallback' t' later = (later, out.2))
    ∧ system_settings out.1 = system_settings repo
    ∧ feature_flags out.1 = feature_flags repo
    ∧ flagCache out.1 = flagCache repo
    ∧ (forall k, k ≠ key -> settingCache out.1 !! k = settingCache repo !! k)
    ∧ (match settingCache repo !! key with
       | None => True
       | Some entry => CACHE_TTL_MS <= checked t - cachedAt entry
       end ->
       out.2 = match system_settings repo !! key with
               | Some row => Some (s_value row)
               | None => fallbackValue
               end
       ∧ settingCache out.1 !! key = Some (mkCacheEntry out.2 (stored t))).
Proof.
  intros key fallbackValue t repo out.
  assert (Hhit : forall (later : repository) (fallback' : option string)
                        (t' : tick) (entry : cacheEntry (option string)),
             settingCache later !! key = Some entry ->
             checked t' - cachedAt entry < CACHE_TTL_MS ->
             getSetting key fallback' t' later = (later, value entry)).
  { intros later fallback' t' entry Hentry Hfresh. unfold getSetting.
    by rewrite (readCached_fresh _ _ _ _ Hentry Hfresh). }
  subst out.
  destruct (readCached_cases (settingCache repo) key (checked t))
    as [(entry & Hentry & Hfresh & Hread) | (Hstale & Hread)].
  - rewrite (Hhit repo fallbackValue t entry Hentry Hfresh). cbn [fst snd].
    split.
    + exists entry. split_and!; [exact Hentry | reflexivity |].
      intros later fallback' t' Hlater Hfresh'. by apply Hhit.
    + split_and!; try done. intros Hold. rewrite Hentry in Hold. lia.
  - set (read := match system_settings repo !! key with
                 | Some row => Some (s_value row)
                 | None => fallbackValue
                 end).
    assert (Hget : getSetting key fallbackValue t repo
                   = ({| system_settings := system_settings repo;
                         feature_flags := feature_flags repo;
                         settingCache :=
                           <[key := mkCacheEntry read (stored t)]> (settingCache repo);
                         flagCache := flagCache repo |}, read)).
    { unfold getSetting. by rewrite Hread. }
    rewrite Hget.
    cbn [fst snd settingCache system_settings feature_flags flagCache]. split.
    + eexists. split; [apply lookup_insert_eq|]. split; [reflexivity|].
      intros later fallback' t' Hlater Hfresh'.
      by rewrite (Hhit later fallback' t' _ Hlater Hfresh').
    + split_and!; try done.
      * intros k Hk. by rewrite lookup_insert_ne.
      * intros _. split; [reflexivity | apply lookup_insert_eq].
Qed.

(** X11.  [setSetting] writes the row and the cache entry together: the
    row of [key] holds the new value, the writer and the time, rows and
    cache entries of other keys, the flags and their cache are untouched; a
    read of [key] within 5000 ms of the write returns the new value whatever
    the table holds by then, and a later read returns it as long as the
    row has not been rewritten. *)
Theorem setSetting_read_your_write :
  forall (key newValue : string) (updatedBy : option Z) (sqlNow now : Z)
         (repo : repository),
    let written := setSetting key newValue updatedBy sqlNow now repo in
    system_settings written !! key = Some (mkSettingRow newValue sqlNow updatedBy)
    ∧ settingCache written !! key = Some (mkCacheEntry (Some newValue) now)
    ∧ (forall k, k ≠ key ->
         system_settings written !! k = system_settings repo !! k
         ∧ settingCache written !! k = settingCache repo !! k)
    ∧ feature_flags written = feature_flags repo
    ∧ flagCache written = flagCache repo
    ∧ (forall (later : repository) (fallbackValue : option string) (t : tick),
          settingCache later !! key = settingCache written !! key ->
          checked t - now < CACHE_TTL_MS ->
          getSetting key fallbackValue t later = (later, Some newValue))
    ∧ (forall (fallbackValue : option string) (t : tick),
          (getSetting key fallbackValue t written).2 = Some newValue).
Proof.
  intros key newValue updatedBy sqlNow now repo written. subst written.
  unfold setSetting. cbn [system_settings settingCache feature_flags flagCache].
  split; [apply lookup_insert_eq|]. split; [apply lookup_insert_eq|].
  split; [intros k Hk; by rewrite !lookup_insert_ne|].
  split; [reflexivity|]. split; [reflexivity|]. split.
  - intros later fallbackValue t Hcache Hfresh. unfold getSetting.
    rewrite lookup_insert_eq in Hcache.
    by rewrite (readCached_fresh _ _ _ _ Hcache Hfresh).
  - intros fallbackValue t. unfold getSetting.
    cbn [system_settings settingCache].
    destruct (readCached_cases
                (<[key := mkCacheEntry (Some newValue) now]> (settingCache repo))
                key (checked t))
      as [(entry & Hentry & _ & ->) | (_ & ->)].
    + rewrite lookup_insert_eq in Hentry. by inversion Hentry.
    + cbn [snd]. by rewrite lookup_insert_eq.
Qed.

Lemma booleanTokens_fallback (fallbackValue : bool) :
  Js.arrayIncludes ["1"; "true"; "on"; "yes"; "enabled"; "open"]
    (Js.toLowerCase (if fallbackValue then "true" else "false"))
  = fallbackValue.
Proof. by destruct fallbackValue. Qed.

(** X12.  [getBooleanSetting] is true exactly when the text read, in lower
    case, is one of [1], [true], [on], [yes], [enabled], [open] (so letter
    case does not matter and [null] is false); and for a key with no row
    and no fresh cache entry it returns the fallback it was given. *)
Theorem getBooleanSetting_tokens_and_fallback :
  forall (key : string) (fallbackValue : bool) (t : tick) (repo : repository),
    let text :=
      stringOf (getSetting key (Some (if fallbackValue then "true" else "false"))
                  t repo).2 in
    ((getBooleanSetting key fallbackValue t repo).2 = true
     <-> Js.toLowerCase text ∈ ["1"; "true"; "on"; "yes"; "enabled"; "open"])
    ∧ (forall text', Js.toLowerCase text' = Js.toLowerCase text ->
         Js.arrayIncludes ["1"; "true"; "on"; "yes"; "enabled"; "open"]
           (Js.toLowerCase text')
         = (getBooleanSetting key fallbackValue t repo).2)
    ∧ (system_settings repo !! key = None ->
       match settingCache repo !! key with
       | None => True
       | Some entry => CACHE_TTL_MS <= checked t - cachedAt entry
       end ->
       (getBooleanSetting key fallbackValue t repo).2 = fallbackValue).
Proof.
  intros key fallbackValue t repo text. subst text.
  unfold getBooleanSetting.
  destruct (getSetting key _ t repo) as [repo' read] eqn:Hget.
  cbn [snd]. split; [|split].
  - unfold Js.arrayIncludes. apply existsb_eqb_elem_of.
  - intros text' ->. reflexivity.
  - intros Hrow Hstale. unfold getSetting in Hget.
    rewrite (readCached_stale _ _ _ Hstale), Hrow in Hget.
    inversion Hget. subst read. apply booleanTokens_fallback.
Qed.

(** X13.  [setFeatureFlag] stores [enabled] as 1 or 0 with the writer and
    the time; a description of [null] keeps the description the row had,
    any other replaces it; other flags and all settings are untouched.
    [getFeatureFlag] within 5000 ms of the write returns the value written
    whatever the table holds by then, and setting the same value again
    changes neither [enabled] nor the description. *)
Theorem setFeatureFlag_upsert_and_read :
  forall (key : string) (enabled : bool) (description : option string)
         (updatedBy : option Z) (sqlNow now : Z) (repo : repository),
    let written := setFeatureFlag key enabled description updatedBy sqlNow now repo in
    (exists row,
        feature_flags written !! key = Some row
        ∧ f_enabled row = (if enabled then 1 else 0)
        ∧ f_updated_at row = sqlNow
        ∧ f_updated_by row = updatedBy
        ∧ f_description row
          = match description with
            | Some text => Some text
            | None => feature_flags repo !! key ≫= f_description
            end
        ∧ forall updatedBy' sqlNow' now',
            exists row',
              feature_flags
                (setFeatureFlag key enabled description updatedBy' sqlNow' now'
                   written) !! key = Some row'
              ∧ f_enabled row' = f_enabled row
              ∧ f_description row' = f_description row)
    ∧ (forall k, k ≠ key ->
         feature_flags written !! k = feature_flags repo !! k
         ∧ flagCache written !! k = flagCache repo !! k)
    ∧ system_settings written = system_settings repo
    ∧ settingCache written = settingCache repo
    ∧ (forall (later : repository) (fallbackValue : bool) (t : tick),
          flagCache later !! key = flagCache written !! key ->
          checked t - now < CACHE_TTL_MS ->
          getFeatureFlag key fallbackValue t later = (later, enabled))
    ∧ (forall (fallbackValue : bool) (t : tick),
          (getFeatureFlag key fallbackValue t written).2 = enabled).
Proof.
  intros key enabled description updatedBy sqlNow now repo written.
  subst written. unfold setFeatureFlag.
  cbn [system_settings settingCache feature_flags flagCache].
  split; [|split; [|split; [|split; [|split]]]]; try reflexivity.
  - eexists. split; [apply lookup_insert_eq|].
    cbn [upsertedFlag f_enabled f_updated_at f_updated_by f_description].
    repeat split.
    + destruct (feature_flags repo !! key), description; reflexivity.
    + intros updatedBy' sqlNow' now'. eexists.
      split; [apply lookup_insert_eq|].
      rewrite lookup_insert_eq. cbn. split; [reflexivity|].
      destruct (feature_flags repo !! key), description; reflexivity.
  - intros k Hk. by rewrite !lookup_insert_ne.
  - intros later fallbackValue t Hcache Hfresh. unfold getFeatureFlag.
    rewrite lookup_insert_eq in Hcache.
    by rewrite (readCached_fresh _ _ _ _ Hcache Hfresh).
  - intros fallbackValue t. unfold getFeatureFlag.
    cbn [feature_flags flagCache].
    destruct (readCached_cases
                (<[key := mkCacheEntry enabled now]> (flagCache repo))
                key (checked t))
      as [(entry & Hentry & _ & ->) | (_ & ->)].
    + rewrite lookup_insert_eq in Hentry. by inversion Hentry.
    + cbn [snd]. rewrite lookup_insert_eq. cbn. by destruct enabled.
Qed.

End SettingsCache.

(** ** The community gate *)

Section CommunityGate.
Import SettingsStore CommunityMode.

Lemma getSetting_frame (key : string) (fallbackValue : option string)
    (t : tick) (repo : repository) :
  system_settings (getSetting key fallbackValue t repo).1 = system_settings repo
  ∧ feature_flags (getSetting key fallbackValue t repo).1 = feature_flags repo
  ∧ flagCache (getSetting key fallbackValue t repo).1 = flagCache repo.
Proof. unfold getSetting. by destruct (readCached _ _ _). Qed.

Lemma getFeatureFlag_frame (key : string) (fallbackValue : bool)
    (t : tick) (repo : repository) :
  system_settings (getFeatureFlag key fallbackValue t repo).1 = system_settings repo
  ∧ feature_flags (getFeatureFlag key fallbackValue t repo).1 = feature_flags repo
  ∧ settingCache (getFeatureFlag key fallbackValue t repo).1 = settingCache repo.
Proof. unfold getFeatureFlag. by destruct (readCached _ _ _). Qed.

(** X14.  [requireCommunityMode] passes the request on exactly when the
    text read for [community.mode] is, up to letter case, ON, TRUE, 1 or
    ENABLED and the flag [community.public_library] reads true; otherwise
    it answers 404.  It writes to no table.  A fresh cached [false] for the
    flag closes the gate whatever the mode is, and a flag with no row and
    no fresh cache entry counts as true. *)
Theorem requireCommunityMode_needs_mode_and_flag :
  forall (t1 t2 : tick) (req : request) (repo : repository),
    let out := requireCommunityMode t1 t2 req repo in
    let mode := getSetting "community.mode" (Some "OFF") t1 repo in
    let flag := getFeatureFlag "community.public_library" true t2 mode.1 in
    (out.2 = Next req
     <-> Js.toUpperCase (stringOf mode.2) ∈ ["ON"; "TRUE"; "1"; "ENABLED"]
         ∧ flag.2 = true)
    ∧ (out.2 ≠ Next req ->
       out.2 = Respond 404 (JObj [("error", JStr "Community mode is disabled")]))
    ∧ system_settings out.1 = system_settings repo
    ∧ feature_flags out.1 = feature_flags repo
    ∧ (forall entry,
          flagCache repo !! "community.public_library" = Some entry ->
          value entry = false ->
          checked t2 - cachedAt entry < CACHE_TTL_MS ->
          out.2 = Respond 404 (JObj [("error", JStr "Community mode is disabled")]))
    ∧ (feature_flags repo !! "community.public_library" = None ->
       match flagCache repo !! "community.public_library" with
       | None => True
       | Some entry => CACHE_TTL_MS <= checked t2 - cachedAt entry
       end ->
       flag.2 = true).
Proof.
  intros t1 t2 req repo out mode flag.
  destruct (getSetting_frame "community.mode" (Some "OFF") t1 repo)
    as (Hs1 & Hf1 & Hc1).
  fold mode in Hs1, Hf1, Hc1.
  destruct (getFeatureFlag_frame "community.public_library" true t2 mode.1)
    as (Hs2 & Hf2 & _).
  fold flag in Hs2, Hf2.
  assert (Hout : out = (flag.1,
                        if negb (isEnabledValue mode.2 && flag.2)
                        then Respond 404 (JObj [("error", JStr "Community mode is disabled")])
                        else Next req)).
  { subst out flag. unfold requireCommunityMode, isCommunityModeEnabled.
    fold mode. destruct mode as [repo1 text]. cbn [fst snd].
    destruct (getFeatureFlag "community.public_library" true t2 repo1)
      as [repo2 publicLibraryFlag].
    cbn [fst snd]. by destruct (negb _). }
  assert (Henabled : isEnabledValue mode.2 = true
                     <-> Js.toUpperCase (stringOf mode.2)
                         ∈ ["ON"; "TRUE"; "1"; "ENABLED"]).
  { unfold isEnabledValue, Js.arrayIncludes. apply existsb_eqb_elem_of. }
  rewrite Hout. cbn [fst snd].
  split_and!.
  - rewrite <- Henabled.
    destruct (isEnabledValue mode.2), flag.2; simpl; split;
      try done; try (intros [? ?]; done).
  - destruct (negb _); [done | intros Hne; by destruct Hne].
  - congruence.
  - congruence.
  - intros entry Hentry Hfalse Hfresh.
    assert (Hflag : flag.2 = false).
    { subst flag. unfold getFeatureFlag. rewrite Hc1.
      by rewrite (readCached_fresh _ _ _ _ Hentry Hfresh). }
    by rewrite Hflag, andb_false_r.
  - intros Hrow Hstale. subst flag. unfold getFeatureFlag.
    rewrite Hc1, (readCached_stale _ _ _ Hstale), Hf1, Hrow. reflexivity.
Qed.

End CommunityGate.

(** ** Rate limiter: buckets over time *)

Section RateLimitRuns.
Import SystemConfig RateLimiter.
Context `{E : Env}.

Lemma rateLimiter_opens (scope : string) (now : Z) (req : request)
    (buckets : gmap string bucket) :
  match buckets !! bucketKey scope req with
  | None => True
  | Some b => now - windowStart b
              >= windowMs (security_rateLimit getFoundationSettings)
  end ->
  rateLimiter scope now req buckets
  = (<[bucketKey scope req
       := mkBucket 1 now (windowMs (security_rateLimit getFoundationSettings))]>
       buckets,
     mkReply [("X-RateLimit-Limit",
               getScopeLimit scope (security_rateLimit getFoundationSettings));
              ("X-RateLimit-Remaining",
               getScopeLimit scope (security_rateLimit getFoundationSettings) - 1)]
       (Next tt)).
Proof.
  intros Hfresh. unfold rateLimiter.
  destruct (buckets !! bucketKey scope req) as [b|]; [|reflexivity].
  destruct (Z.geb_spec (now - windowStart b)
              (windowMs (security_rateLimit getFoundationSettings)));
    [reflexivity | lia].
Qed.

Lemma rateLimiter_counts (scope : string) (now : Z) (req : request)
    (buckets : gmap string bucket) (b : bucket) :
  buckets !! bucketKey scope req = Some b ->
  now - windowStart b < windowMs (security_rateLimit getFoundationSettings) ->
  (rateLimiter scope now req buckets).1
  = <[bucketKey scope req
      := mkBucket (count b + 1) (windowStart b) (bucketWindowMs b)]> buckets
  ∧ verdict (rateLimiter scope now req buckets).2
    = if count b + 1
         >? getScopeLimit scope (security_rateLimit getFoundationSettings)
      then Respond 429 (JObj [("error", JStr "Too many requests");
                              ("scope", JStr scope)])
      else Next tt.
Proof.
  intros Hb Hinside. unfold rateLimiter. rewrite Hb.
  destruct (Z.geb_spec (now - windowStart b)
              (windowMs (security_rateLimit getFoundationSettings)));
    [lia|].
  cbn [count]. destruct (_ >? _); split; reflexivity.
Qed.

(** X15.  A request touches the bucket of its own key only: every other
    key of the map, whatever client or scope it belongs to, is left as it
    was, and the request's own key always has a bucket afterwards.  The
    client part of the key is never empty: it is the first forwarded-for
    entry, else the connection address, else ["unknown"]. *)
Theorem rateLimiter_touches_own_bucket_only :
  forall (scope : string) (now : Z) (req : request)
         (buckets : gmap string bucket),
    (forall k, k ≠ bucketKey scope req ->
       (rateLimiter scope now req buckets).1 !! k = buckets !! k)
    ∧ is_Some ((rateLimiter scope now req buckets).1 !! bucketKey scope req)
    ∧ bucketKey scope req = scope +:+ ":" +:+ getClientIp req
    ∧ getClientIp req ≠ "".
Proof.
  intros scope now req buckets.
  assert (Hshape : exists b, (rateLimiter scope now req buckets).1
                             = <[bucketKey scope req := b]> buckets).
  { unfold rateLimiter. destruct (buckets !! bucketKey scope req) as [old|];
      [destruct (_ >=? _); [|destruct (_ >? _)]|]; eauto. }
  destruct Hshape as [b ->]. split_and!.
  - intros k Hk. by rewrite lookup_insert_ne.
  - rewrite lookup_insert_eq. eauto.
  - reflexivity.
  - unfold getClientIp.
    destruct (Js.truthy (match req_x_forwarded_for req with
                         | Some h => Some (Js.trim (Js.splitAt0 "," h))
                         | None => None
                         end)) eqn:Hfwd.
    + destruct (req_x_forwarded_for req) as [h|]; [|discriminate].
      simpl in *. intros Hempty. rewrite Hempty in Hfwd. discriminate.
    + destruct (Js.truthy (req_ip req)) eqn:Hip; [|discriminate].
      destruct (req_ip req) as [ip|]; [|discriminate].
      simpl in *. intros Hempty. rewrite Hempty in Hip. discriminate.
Qed.

(** Requests that all fall inside the window of an existing bucket. *)
Lemma serve_within_window (scope : string) (req : request) (times : list Z)
    (buckets : gmap string bucket) (b : bucket) :
  let windowMs_ := windowMs (security_rateLimit getFoundationSettings) in
  let limit := getScopeLimit scope (security_rateLimit getFoundationSettings) in
  buckets !! bucketKey scope req = Some b ->
  Forall (fun now => now - windowStart b < windowMs_) times ->
  (serve scope req times buckets).1 !! bucketKey scope req
  = Some (mkBucket (count b + Z.of_nat (length times)) (windowStart b)
            (bucketWindowMs b))
  ∧ length (serve scope req times buckets).2 = length times
  ∧ forall (i : nat) (reply : reply),
      (serve scope req times buckets).2 !! i = Some reply ->
      (count b + Z.of_nat i + 1 <= limit -> verdict reply = Next tt)
      ∧ (count b + Z.of_nat i + 1 > limit ->
         verdict reply
         = Respond 429 (JObj [("error", JStr "Too many requests");
                              ("scope", JStr scope)])).
Proof.
  intros windowMs_ limit. revert buckets b.
  induction times as [|now rest IH]; intros buckets b Hb Hwithin.
  - simpl. split; [|split; [reflexivity | intros i reply Hi; discriminate]].
    rewrite Hb. destruct b. simpl. f_equal. f_equal. lia.
  - apply Forall_cons in Hwithin as [Hnow Hrest].
    destruct (rateLimiter_counts scope now req buckets b Hb Hnow)
      as [Hmap Hverdict].
    cbn [serve].
    destruct (rateLimiter scope now req buckets) as [buckets1 first].
    cbn [fst snd] in Hmap, Hverdict.
    assert (Hb1 : buckets1 !! bucketKey scope req
                  = Some (mkBucket (count b + 1) (windowStart b) (bucketWindowMs b))).
    { rewrite Hmap. apply lookup_insert_eq. }
    specialize (IH buckets1 _ Hb1 Hrest). cbn [count windowStart bucketWindowMs] in IH.
    destruct (serve scope req rest buckets1) as [buckets2 replies].
    cbn [fst snd] in *. destruct IH as (IHmap & IHlen & IHreplies).
    split; [|split].
    + rewrite IHmap. cbn [length]. f_equal. f_equal. lia.
    + simpl. by rewrite IHlen.
    + intros [|i] reply Hi.
      * simpl in Hi. inversion Hi; subst reply. rewrite Hverdict.
        fold limit.
        destruct (Z.gtb_spec (count b + 1) limit); split; intros Hcmp;
          first [reflexivity | lia].
      * simpl in Hi. destruct (IHreplies i reply Hi) as [Hok Hno].
        split; intros Hcmp; [apply Hok | apply Hno]; lia.
Qed.

(** X16.  Counting inside one window.  [limit] is the setting of the
    scope ([security.rate_limit.auth_max] for [auth],
    [security.rate_limit.public_max] for [public],
    [security.rate_limit.general_max] for every other scope) and the window
    is [security.rate_limit.window_ms].  When a request at [t0] opens a
    window (no bucket, or the old window has elapsed) and the next requests
    of the same client all arrive before the window ends:
    - the request that opens the window passes whatever the limit is, also
      when the limit is 0 or negative, with [limit - 1] as remaining quota;
    - the bucket ends with count [1 + n] and the start [t0];
    - the request that is the [k]-th of the window, [k >= 2], passes
      exactly when [k <= limit] and is answered 429 otherwise.
    So [max(1, limit)] requests pass per window at most. *)
Theorem rateLimiter_counts_within_window :
  forall (scope : string) (req : request) (t0 : Z) (times : list Z)
         (buckets : gmap string bucket),
    let windowMs_ := getNumberSetting "security.rate_limit.window_ms" 60000 in
    let limit :=
      if String.eqb scope "auth"
      then getNumberSetting "security.rate_limit.auth_max" 20
      else if String.eqb scope "public"
      then getNumberSetting "security.rate_limit.public_max" 120
      else getNumberSetting "security.rate_limit.general_max" 300 in
    let key := scope +:+ ":" +:+ getClientIp req in
    match buckets !! key with
    | None => True
    | Some b => t0 - windowStart b >= windowMs_
    end ->
    Forall (fun now => now - t0 < windowMs_) times ->
    let opened := rateLimiter scope t0 req buckets in
    let run := serve scope req times opened.1 in
    verdict opened.2 = Next tt
    ∧ headers opened.2
      = [("X-RateLimit-Limit", limit); ("X-RateLimit-Remaining", limit - 1)]
    ∧ run.1 !! key = Some (mkBucket (1 + Z.of_nat (length times)) t0 windowMs_)
    ∧ length run.2 = length times
    ∧ forall (i : nat) (reply : reply),
        run.2 !! i = Some reply ->
        (verdict reply = Next tt <-> Z.of_nat i + 2 <= limit)
        ∧ (verdict reply
           = Respond 429 (JObj [("error", JStr "Too many requests");
                                ("scope", JStr scope)])
           <-> Z.of_nat i + 2 > limit).
Proof.
  intros scope req t0 times buckets windowMs_ limit key Hfresh Hwithin opened run.
  assert (Hopened : opened
                    = (<[key := mkBucket 1 t0 windowMs_]> buckets,
                       mkReply [("X-RateLimit-Limit", limit);
                                ("X-RateLimit-Remaining", limit - 1)] (Next tt))).
  { exact (rateLimiter_opens scope t0 req buckets Hfresh). }
  subst run. rewrite Hopened. cbn [fst snd verdict headers].
  split; [reflexivity|]. split; [reflexivity|].
  destruct (serve_within_window scope req times
              (<[key := mkBucket 1 t0 windowMs_]> buckets)
              (mkBucket 1 t0 windowMs_))
    as (Hmap & Hlen & Hreplies).
  - apply lookup_insert_eq.
  - exact Hwithin.
  - cbn [count windowStart bucketWindowMs] in *.
    split; [exact Hmap|]. split; [exact Hlen|].
    intros i reply Hi. destruct (Hreplies i reply Hi) as [Hok Hno].
    change (getScopeLimit scope (security_rateLimit getFoundationSettings))
      with limit in Hok, Hno.
    destruct (Z.le_gt_cases (Z.of_nat i + 2) limit) as [Hle|Hgt].
    + rewrite (Hok ltac:(lia)).
      split; (split; [intros Heq | intros Hcmp]);
        first [exact Hle | reflexivity | discriminate Heq | lia].
    + rewrite (Hno ltac:(lia)).
      split; (split; [intros Heq | intros Hcmp]);
        first [reflexivity | discriminate Heq | lia].
Qed.

(** X17.  The cleanup timer is invisible to the limiter.  A sweep at
    [sweepTime] removes exactly the buckets idle for more than twice their
    window and keeps every other bucket as it is.  For a request at or
    after the sweep whose window setting is at most twice the window stored
    in its bucket (as when the setting has not changed), the reply and the
    bucket left at the request's key are the same with and without the
    sweep. *)
Theorem cleanup_is_invisible :
  forall (scope : string) (sweepTime now : Z) (req : request)
         (buckets : gmap string bucket),
    let windowMs_ := windowMs (security_rateLimit getFoundationSettings) in
    let key := bucketKey scope req in
    (forall k b,
        cleanup sweepTime buckets !! k = Some b
        <-> buckets !! k = Some b
            ∧ sweepTime - windowStart b <= bucketWindowMs b * 2)
    ∧ (sweepTime <= now ->
       (forall b, buckets !! key = Some b -> windowMs_ <= bucketWindowMs b * 2) ->
       (rateLimiter scope now req (cleanup sweepTime buckets)).2
       = (rateLimiter scope now req buckets).2
       ∧ (rateLimiter scope now req (cleanup sweepTime buckets)).1 !! key
         = (rateLimiter scope now req buckets).1 !! key).
Proof.
  intros scope sweepTime now req buckets windowMs_ key.
  assert (Hkept : forall k b,
             cleanup sweepTime buckets !! k = Some b
             <-> buckets !! k = Some b
                 ∧ sweepTime - windowStart b <= bucketWindowMs b * 2).
  { intros k b. unfold cleanup. rewrite map_lookup_filter_Some. simpl.
    rewrite negb_true_iff, Z.gtb_ltb, Z.ltb_ge. tauto. }
  split; [exact Hkept|].
  intros Horder Hwindow.
  destruct (buckets !! key) as [b|] eqn:Hb.
  - destruct (Z.le_gt_cases (sweepTime - windowStart b) (bucketWindowMs b * 2))
      as [Hlive|Hidle].
    + assert (Hsame : cleanup sweepTime buckets !! key = Some b) by (by apply Hkept).
      unfold rateLimiter. fold key. rewrite Hsame, Hb.
      destruct (_ >=? _); [|destruct (_ >? _)]; cbn [fst snd];
        by rewrite !lookup_insert_eq.
    + assert (Hgone : cleanup sweepTime buckets !! key = None).
      { destruct (cleanup sweepTime buckets !! key) as [b'|] eqn:Hb'; [|done].
        apply Hkept in Hb' as [Hb' Hlive]. assert (b' = b) by congruence.
        subst b'. lia. }
      specialize (Hwindow b eq_refl).
      unfold rateLimiter. fold key windowMs_. rewrite Hgone, Hb.
      destruct (Z.geb_spec (now - windowStart b) windowMs_) as [_|Hlt]; [|lia].
      cbn [fst snd]. by rewrite !lookup_insert_eq.
  - assert (Hgone : cleanup sweepTime buckets !! key = None).
    { destruct (cleanup sweepTime buckets !! key) as [b'|] eqn:Hb'; [|done].
      apply Hkept in Hb' as [Hb' _]. congruence. }
    unfold rateLimiter. fold key. rewrite Hgone, Hb.
    cbn [fst snd]. by rewrite !lookup_insert_eq.
Qed.

End RateLimitRuns.

(** X16 at a sample: window 1000 ms, limit 3 on [auth]; four requests in
    one window leave the count at 4, and the fourth is the one refused. *)
Lemma rateLimiter_counts_sample :
  RateLimiter.count
    <$> (@serve (Sample.env "OFF" "OPEN" 5 false) "auth"
           (Sample.credentials "alice" "wonderland") [5100; 5200; 5300]
           (@RateLimiter.rateLimiter (Sample.env "OFF" "OPEN" 5 false) "auth" 5000
              (Sample.credentials "alice" "wonderland") ∅).1).1
        !! "auth:10.0.0.7"
  = Some 4
  ∧ RateLimiter.verdict
      <$> (@serve (Sample.env "OFF" "OPEN" 5 false) "auth"
             (Sample.credentials "alice" "wonderland") [5100; 5200; 5300]
             (@RateLimiter.rateLimiter (Sample.env "OFF" "OPEN" 5 false) "auth" 5000
                (Sample.credentials "alice" "wonderland") ∅).1).2
          !! 1%nat
    = Some (Next tt)
  ∧ RateLimiter.verdict
      <$> (@serve (Sample.env "OFF" "OPEN" 5 false) "auth"
             (Sample.credentials "alice" "wonderland") [5100; 5200; 5300]
             (@RateLimiter.rateLimiter (Sample.env "OFF" "OPEN" 5 false) "auth" 5000
                (Sample.credentials "alice" "wonderland") ∅).1).2
          !! 2%nat
    = Some (Respond 429 (JObj [("error", JStr "Too many requests");
                               ("scope", JStr "auth")])).
Proof.
  cbv zeta.
  destruct (@rateLimiter_counts_within_window
              (Sample.env "OFF" "OPEN" 5 false) "auth"
              (Sample.credentials "alice" "wonderland") 5000 [5100; 5200; 5300] ∅
              ltac:(vm_compute; exact I)
              ltac:(repeat constructor; vm_compute; reflexivity))
    as (_ & _ & Hmap & _ & Hreplies).
  cbv zeta in Hmap, Hreplies.
  split; [|split].
  - change "auth:10.0.0.7"
      with ("auth" +:+ ":" +:+ RateLimiter.getClientIp (Sample.credentials "alice" "wonderland")).
    rewrite Hmap. reflexivity.
  - destruct ((serve "auth" (Sample.credentials "alice" "wonderland")
                 [5100; 5200; 5300] _).2 !! 1%nat) as [reply|] eqn:Hreply;
      [|vm_compute in Hreply; discriminate].
    simpl. f_equal. apply (Hreplies 1%nat reply Hreply). vm_compute. discriminate.
  - destruct ((serve "auth" (Sample.credentials "alice" "wonderland")
                 [5100; 5200; 5300] _).2 !! 2%nat) as [reply|] eqn:Hreply;
      [|vm_compute in Hreply; discriminate].
    simpl. f_equal. apply (Hreplies 2%nat reply Hreply). vm_compute. reflexivity.
Defined.

(** ** User repository: the guarded updates and the primary key *)

Section RepositoryFrame.
Import UserRepository.

Lemma updateWhere_lookup (p : user -> bool) (f : user -> user)
    (rows : list user) (i : nat) (r : user) :
  rows !! i = Some r ->
  updateWhere p f rows !! i = Some (if p r then f r else r).
Proof.
  revert i. induction rows as [|x rows IH]; intros [|i] Hi; try discriminate.
  - simpl in *. by inversion Hi.
  - simpl in *. by apply IH.
Qed.

Lemma updateWhere_length (p : user -> bool) (f : user -> user)
    (rows : list user) :
  length (updateWhere p f rows) = length rows.
Proof. unfold updateWhere. apply length_map. Qed.

Lemma updateWhere_keeps {A : Type} (column : user -> A) (p : user -> bool)
    (f : user -> user) (rows : list user) :
  (forall r, column (f r) = column r) ->
  map column (updateWhere p f rows) = map column rows.
Proof.
  intros Hkeeps. unfold updateWhere. rewrite map_map. apply map_ext.
  intros r. destruct (p r); [apply Hkeeps | reflexivity].
Qed.

Lemma changes_zero (p : user -> bool) (rows : list user) :
  changes p rows = 0 <-> forall r, r ∈ rows -> p r = false.
Proof.
  split.
  - intros Hzero r Hin. apply not_true_is_false. intros Hp.
    pose proof (changes_pos p rows r Hin Hp). lia.
  - intros Hnone. unfold changes. induction rows as [|x rows IH]; [reflexivity|].
    rewrite filter_cons_False.
    + apply IH. intros r Hr. apply Hnone. by right.
    + rewrite (Hnone x) by left. discriminate.
Qed.

Lemma findById_None (i : Z) (db : database) :
  findById i db = None <-> forall r, r ∈ users db -> uid r ≠ i.
Proof.
  unfold findById. induction (users db) as [|x rows IH]; simpl.
  - split; [intros _ r Hr; by apply elem_of_nil in Hr | done].
  - destruct (Z.eqb_spec (uid x) i) as [Heq|Hne].
    + split; [discriminate|]. intros Hall. exfalso. apply (Hall x); [left | done].
    + rewrite IH. split.
      * intros Hall r Hr. apply elem_of_cons in Hr as [-> | Hr]; auto.
      * intros Hall r Hr. apply Hall. by right.
Qed.

Lemma no_target_iff (userId : Z) (db : database) :
  (forall r, r ∈ users db -> targets userId r = false)
  <-> userId = 0 ∨ findById userId db = None.
Proof.
  split.
  - intros Hnone. destruct (Z.eq_dec userId 0) as [Hzero|Hnz]; [by left|].
    right. apply findById_None. intros r Hr Hid.
    specialize (Hnone r Hr).
    rewrite (targets_true userId r Hnz Hid) in Hnone. discriminate.
  - intros [-> | Hmissing] r Hr; [apply targets_zero|].
    apply (targets_other userId (uid r)); [reflexivity|].
    by apply (proj1 (findById_None userId db) Hmissing).
Qed.

Lemma updateWhere_unmatched (p : user -> bool) (f : user -> user)
    (rows : list user) :
  (forall r, r ∈ rows -> p r = false) -> updateWhere p f rows = rows.
Proof.
  intros Hnone. induction rows as [|x rows IH]; [reflexivity|].
  simpl. rewrite (Hnone x) by left. f_equal. apply IH.
  intros r Hr. apply Hnone. by right.
Qed.

(** The common part of the five updates with [WHERE id = ? AND id != 0]. *)
Lemma runUpdate_targets_frame (userId : Z) (f : user -> user) (db : database) :
  (forall r, uid (f r) = uid r) ->
  (length (users (runUpdate (targets userId) f db).1) = length (users db)
   ∧ (forall i r, users db !! i = Some r -> uid r ≠ userId ∨ uid r = 0 ->
        users (runUpdate (targets userId) f db).1 !! i = Some r)
   ∧ audit_logs (runUpdate (targets userId) f db).1 = audit_logs db)
  ∧ ((runUpdate (targets userId) f db).2 = 0
     <-> userId = 0 ∨ findById userId db = None)
  ∧ (userId = 0 ∨ findById userId db = None ->
     (runUpdate (targets userId) f db).1 = db)
  ∧ (¬ (userId = 0 ∨ findById userId db = None) ->
     is_Some (findById userId (runUpdate (targets userId) f db).1))
  ∧ 0 <= (runUpdate (targets userId) f db).2.
Proof.
  intros Hid. cbn [runUpdate fst snd setUsers users audit_logs].
  split; [split; [apply updateWhere_length | split; [|reflexivity]]|].
  - intros i r Hi Hother. rewrite (updateWhere_lookup _ _ _ _ _ Hi).
    assert (Hno : targets userId r = false).
    { unfold targets. destruct Hother as [Hne | Hzero].
      - by rewrite (proj2 (Z.eqb_neq _ _) Hne).
      - rewrite Hzero. simpl. apply andb_false_r. }
    by rewrite Hno.
  - split; [|split; [|split; [|unfold changes; lia]]].
    + rewrite changes_zero. apply no_target_iff.
    + intros Hmissing. rewrite updateWhere_unmatched by (by apply no_target_iff).
      by destruct db.
    + intros Hpresent.
      change (is_Some (findById userId (runUpdate (targets userId) f db).1)).
      rewrite (findById_runUpdate _ _ _ _ Hid).
      destruct (findById userId db) as [u|] eqn:Hfind; [by eexists|].
      exfalso. apply Hpresent. by right.
Qed.

Lemma setUnlocked_uid (r : user) : uid (setUnlocked r) = uid r.
Proof. reflexivity. Qed.
Lemma setRole_uid (newRole : string) (r : user) : uid (setRole newRole r) = uid r.
Proof. reflexivity. Qed.
Lemma setStatus_uid (newStatus : string) (r : user) :
  uid (setStatus newStatus r) = uid r.
Proof. reflexivity. Qed.
Lemma bumpSession_uid (flag : option Z) (r : user) :
  uid (bumpSession flag r) = uid r.
Proof. reflexivity. Qed.
Lemma setFailedLogin_uid (n : Z) (t : option Z) (r : user) :
  uid (setFailedLogin n t r) = uid r.
Proof. reflexivity. Qed.

Ltac lookup_update frame :=
  destruct frame as (Hframe & Hzero & Hsame & Hfound & Hnonneg);
  destruct (runUpdate _ _ _) as [db' n]; cbn [fst snd] in *;
  destruct (Z.eqb_spec n 0) as [Hn|Hn]; cbn [fst snd];
  (split; [exact Hframe|]); (split; [|exact Hsame]);
  [ split; [intros _; by apply Hzero | done]
  | split; [intros Hnone | intros Hmissing; exfalso; by apply Hn, Hzero];
    destruct Hfound as [u Hu]; [tauto | congruence] ].

Ltac count_update frame :=
  destruct frame as (Hframe & Hzero & Hsame & Hfound & Hnonneg);
  destruct (runUpdate _ _ _) as [db' n]; cbn [fst snd] in *;
  (split; [exact Hframe|]); (split; [|exact Hsame]);
  rewrite <- Hzero, Z.gtb_ltb, Z.ltb_ge; lia.

(** X18.  The five updates guarded by [id != 0] ([unlockUser],
    [updateRole], [updateStatus], [incrementSessionVersion],
    [setForcePasswordReset]) write at most the row with the given id: the
    table keeps its length, every row with another id and the row with id 0
    stay as they are, and the audit log is not written.  They report failure
    ([null], [false]) exactly when the id is 0 or no row has it, and then
    the database is unchanged. *)
Theorem guarded_updates_touch_only_their_row :
  forall (userId : Z) (newRole newStatus : string) (flag : bool)
         (db : database),
    let untouched (db' : database) :=
      length (users db') = length (users db)
      ∧ (forall i r, users db !! i = Some r -> uid r ≠ userId ∨ uid r = 0 ->
           users db' !! i = Some r)
      ∧ audit_logs db' = audit_logs db in
    let missing := userId = 0 ∨ findById userId db = None in
    (untouched (unlockUser userId db).1
     ∧ ((unlockUser userId db).2 = None <-> missing)
     ∧ (missing -> (unlockUser userId db).1 = db))
    ∧ (untouched (updateRole userId newRole db).1
       ∧ ((updateRole userId newRole db).2 = None <-> missing)
       ∧ (missing -> (updateRole userId newRole db).1 = db))
    ∧ (untouched (updateStatus userId newStatus db).1
       ∧ ((updateStatus userId newStatus db).2 = None <-> missing)
       ∧ (missing -> (updateStatus userId newStatus db).1 = db))
    ∧ (untouched (incrementSessionVersion userId db).1
       ∧ ((incrementSessionVersion userId db).2 = false <-> missing)
       ∧ (missing -> (incrementSessionVersion userId db).1 = db))
    ∧ (untouched (setForcePasswordReset userId flag db).1
       ∧ ((setForcePasswordReset userId flag db).2 = false <-> missing)
       ∧ (missing -> (setForcePasswordReset userId flag db).1 = db)).
Proof.
  intros userId newRole newStatus flag db untouched missing.
  subst untouched missing. cbv beta.
  split; [|split; [|split; [|split]]].
  - pose proof (runUpdate_targets_frame userId setUnlocked db setUnlocked_uid)
      as Hrun.
    unfold unlockUser. lookup_update Hrun.
  - pose proof (runUpdate_targets_frame userId (setRole newRole) db
                  (setRole_uid newRole)) as Hrun.
    unfold updateRole. lookup_update Hrun.
  - pose proof (runUpdate_targets_frame userId (setStatus newStatus) db
                  (setStatus_uid newStatus)) as Hrun.
    unfold updateStatus. lookup_update Hrun.
  - pose proof (runUpdate_targets_frame userId (bumpSession None) db
                  (bumpSession_uid None)) as Hrun.
    unfold incrementSessionVersion. count_update Hrun.
  - pose proof (runUpdate_targets_frame userId
                  (bumpSession (Some (if flag then 1 else 0))) db
                  (bumpSession_uid _)) as Hrun.
    unfold setForcePasswordReset. count_update Hrun.
Qed.

End RepositoryFrame.

(** ** Admin actions and the session version *)

Section SessionVersionWrites.
Import UserRepository.



End SessionVersionWrites.



Section RepositoryKeys.
Import UserRepository.
Context `{E : Env}.

Lemma wellKeyed_runUpdate (p : user -> bool) (f : user -> user) (db : database) :
  (forall r, uid (f r) = uid r) ->
  wellKeyed db -> wellKeyed (runUpdate p f db).1.
Proof.
  intros Hid Hkeys. unfold wellKeyed. cbn [runUpdate fst setUsers users].
  by rewrite (updateWhere_keeps uid p f (users db) Hid).
Qed.

Lemma elem_of_map_uid (rows : list user) (i : Z) :
  i ∈ map uid rows <-> exists r, r ∈ rows ∧ uid r = i.
Proof.
  rewrite list_elem_of_In, in_map_iff. split.
  - intros (r & Hr & Hin). exists r. by rewrite list_elem_of_In.
  - intros (r & Hin & Hr). exists r. by rewrite <- list_elem_of_In.
Qed.

Lemma wellKeyed_insert (row : user) (db db' : database) :
  users db' = users db ++ [row] ->
  (forall r, r ∈ users db -> uid r ≠ uid row) ->
  wellKeyed db -> wellKeyed db'.
Proof.
  intros Husers Hfresh Hkeys. unfold wellKeyed. rewrite Husers, map_app.
  apply NoDup_app. split; [exact Hkeys|]. split; [|apply NoDup_singleton].
  intros i Hi Hrow. apply elem_of_map_uid in Hi as (r & Hr & Hid).
  simpl in Hrow. apply list_elem_of_singleton in Hrow.
  apply (Hfresh r Hr). congruence.
Qed.

Lemma findById_member (db : database) (u : user) :
  wellKeyed db -> u ∈ users db -> findById (uid u) db = Some u.
Proof.
  unfold wellKeyed, findById. induction (users db) as [|x rows IH]; intros Hkeys Hin.
  - by apply elem_of_nil in Hin.
  - simpl in Hkeys. apply NoDup_cons in Hkeys as [Hfresh Hkeys]. simpl.
    apply elem_of_cons in Hin as [<- | Hin]; [by rewrite Z.eqb_refl|].
    destruct (Z.eqb_spec (uid x) (uid u)) as [Heq|_]; [|by apply IH].
    exfalso. apply Hfresh. apply elem_of_map_uid. by exists u.
Qed.

(** X19.  The primary key is an invariant of the repository: when no two
    rows share an id, no operation of the repository makes two rows share
    one.  An insert by [create] takes an id above every id in the table
    and above the AUTOINCREMENT mark; [createAnonymousUser] inserts id 0
    only when no row has it; the updates do not write the id.  Under the
    invariant [findById] returns each row of the table for its own id. *)
Theorem repository_keeps_ids_unique :
  forall (db : database),
    wellKeyed db ->
    (forall name pw r s, wellKeyed (create name pw r s db).1)
    ∧ (forall name, wellKeyed (createAnonymousUser name db).1)
    ∧ (forall userId now, wellKeyed (updateLastLogin userId now db))
    ∧ (forall u maxAttempts minutes now,
         wellKeyed (recordFailedLogin u maxAttempts minutes now db).1)
    ∧ (forall userId, wellKeyed (resetFailedLoginAttempts userId db))
    ∧ (forall userId, wellKeyed (unlockUser userId db).1)
    ∧ (forall userId newRole, wellKeyed (updateRole userId newRole db).1)
    ∧ (forall userId newStatus, wellKeyed (updateStatus userId newStatus db).1)
    ∧ (forall userId, wellKeyed (incrementSessionVersion userId db).1)
    ∧ (forall userId flag, wellKeyed (setForcePasswordReset userId flag db).1)
    ∧ (forall u, u ∈ users db -> findById (uid u) db = Some u).
Proof.
  intros db Hkeys. split_and!.
  - intros name pw r s. unfold create. cbv zeta.
    destruct (normalizedTaken _ _); [exact Hkeys|].
    destruct (usernameTaken _ _); [exact Hkeys|]. cbn [fst].
    eapply wellKeyed_insert; [reflexivity | | exact Hkeys].
    intros x Hx. apply uid_le_max in Hx. cbn [uid insertedRow].
    unfold nextRowid. lia.
  - intros name. unfold createAnonymousUser.
    destruct (existsb (fun r => uid r =? 0) (users db)) eqn:Hzero; [exact Hkeys|].
    destruct (normalizedTaken _ _); [exact Hkeys|].
    destruct (usernameTaken _ _); [exact Hkeys|].
    cbn [fst].
    eapply wellKeyed_insert; [reflexivity | | exact Hkeys].
    intros x Hx Hid. cbn [uid anonymousRow] in Hid.
    assert (Hhas : existsb (fun r => uid r =? 0) (users db) = true).
    { apply existsb_exists. exists x. split; [by apply list_elem_of_In | lia]. }
    congruence.
  - intros userId now. unfold updateLastLogin.
    by apply wellKeyed_runUpdate.
  - intros [u|] maxAttempts minutes now; [|exact Hkeys].
    unfold recordFailedLogin. cbv zeta.
    destruct (_ >=? _); [destruct (_ >? _); [exact Hkeys|]|]; cbn [fst];
      (apply wellKeyed_runUpdate; [apply setFailedLogin_uid | exact Hkeys]).
  - intros userId. unfold resetFailedLoginAttempts.
    apply wellKeyed_runUpdate; [apply setFailedLogin_uid | exact Hkeys].
  - intros userId. unfold unlockUser.
    pose proof (wellKeyed_runUpdate (targets userId) setUnlocked db
                  setUnlocked_uid Hkeys).
    destruct (runUpdate _ _ _) as [db' n]. by destruct (n =? 0).
  - intros userId newRole. unfold updateRole.
    pose proof (wellKeyed_runUpdate (targets userId) (setRole newRole) db
                  (setRole_uid newRole) Hkeys).
    destruct (runUpdate _ _ _) as [db' n]. by destruct (n =? 0).
  - intros userId newStatus. unfold updateStatus.
    pose proof (wellKeyed_runUpdate (targets userId) (setStatus newStatus) db
                  (setStatus_uid newStatus) Hkeys).
    destruct (runUpdate _ _ _) as [db' n]. by destruct (n =? 0).
  - intros userId. unfold incrementSessionVersion.
    pose proof (wellKeyed_runUpdate (targets userId) (bumpSession None) db
                  (bumpSession_uid None) Hkeys).
    by destruct (runUpdate _ _ _) as [db' n].
  - intros userId flag. unfold setForcePasswordReset.
    pose proof (wellKeyed_runUpdate (targets userId)
                  (bumpSession (Some (if flag then 1 else 0))) db
                  (bumpSession_uid _) Hkeys).
    by destruct (runUpdate _ _ _) as [db' n].
  - intros u Hu. by apply findById_member.
Qed.


Lemma find_app_first (p : user -> bool) (rows more : list user) (x : user) :
  find p rows = Some x -> find p (rows ++ more) = Some x.
Proof.
  induction rows as [|y rows IH]; [discriminate|]. simpl.
  destruct (p y); [done | exact IH].
Qed.

Lemma find_app_none (p : user -> bool) (rows more : list user) :
  find p rows = None -> find p (rows ++ more) = find p more.
Proof.
  induction rows as [|y rows IH]; [done|]. simpl.
  destruct (p y); [discriminate | exact IH].
Qed.


End RepositoryKeys.

(** X19 at a sample: a third account beside the two of the sample table. *)
Lemma repository_keeps_ids_unique_sample :
  wellKeyed (@UserRepository.create (Sample.env "OFF" "OPEN" 5 false)
               "bob" "builder" None None (Sample.dbOf [Sample.root; Sample.alice])).1
  ∧ UserRepository.findById 7 (Sample.dbOf [Sample.root; Sample.alice])
    = Some Sample.alice.
Proof.
  assert (Hkeys : wellKeyed (Sample.dbOf [Sample.root; Sample.alice])).
  { unfold wellKeyed. apply (bool_decide_unpack _). vm_compute. exact I. }
  destruct (@repository_keeps_ids_unique (Sample.env "OFF" "OPEN" 5 false)
              (Sample.dbOf [Sample.root; Sample.alice]) Hkeys)
    as (Hcreate & _ & _ & _ & _ & _ & _ & _ & _ & _ & Hfind).
  split; [apply Hcreate|].
  apply (Hfind Sample.alice). simpl. right. left.
Defined.


(** ** User repository: the columns derived from status and role *)

Section DerivedColumns.
Import UserRepository.
Context `{E : Env}.

Lemma guarded_update_reads_back (userId : Z) (f : user -> user)
    (db : database) (u : user) :
  (forall r, uid (f r) = uid r) -> userId ≠ 0 ->
  findById userId db = Some u ->
  (let (db', n) := runUpdate (targets userId) f db in
   if n =? 0 then (db', None) else (db', findById userId db'))
  = ((runUpdate (targets userId) f db).1, Some (f u))
  ∧ findById userId (runUpdate (targets userId) f db).1 = Some (f u).
Proof.
  intros Hid Hnz Hfind.
  destruct (findById_runUpdate_target userId f db u Hid Hnz Hfind)
    as [Hback Hpos].
  split; [|exact Hback].
  destruct (runUpdate (targets userId) f db) as [db' n]. cbn [fst snd] in *.
  destruct (Z.eqb_spec n 0) as [Hn|_]; [lia|]. by rewrite Hback.
Qed.

(** X21.  [updateStatus] keeps [is_active] in step with the status;
    [unlockUser] does not.  After [updateStatus] the row read back has the
    new status and [is_active = 0] exactly for SUSPENDED, so the two halves
    of the suspension test agree.  [unlockUser] on a suspended account
    writes status ACTIVE and leaves [is_active = 0]: the row still counts
    as suspended, and [authenticateToken] still answers 403 to a valid
    token of that user. *)
Theorem updateStatus_sets_is_active_unlockUser_leaves_it :
  forall (userId : Z) (db : database) (u : user),
    userId ≠ 0 ->
    findById userId db = Some u ->
    (forall s : string,
        (updateStatus userId s db).2 = Some (setStatus s u)
        ∧ findById userId (updateStatus userId s db).1 = Some (setStatus s u)
        ∧ status (setStatus s u) = s
        ∧ (is_active (setStatus s u) = 0 <-> s = "SUSPENDED")
        ∧ (is_active (setStatus s u) = 1 <-> s ≠ "SUSPENDED")
        ∧ (Auth.isSuspended (setStatus s u) <-> s = "SUSPENDED"))
    ∧ exists row,
        (unlockUser userId (updateStatus userId "SUSPENDED" db).1).2 = Some row
        ∧ findById userId
            (unlockUser userId (updateStatus userId "SUSPENDED" db).1).1
          = Some row
        ∧ status row = "ACTIVE"
        ∧ is_active row = 0
        ∧ Auth.isSuspended row
        ∧ forall (req : request) (token : string) (decoded : payload),
            req_user req = None ∨ req_apiKey req = false ->
            DISABLE_ACCOUNTS = false ->
            Auth.getTokenFromRequest req = Some token ->
            jwt_verify token = Some decoded ->
            p_id decoded = userId ->
            (Auth.authenticateToken req
               (unlockUser userId (updateStatus userId "SUSPENDED" db).1).1).2
            = Respond 403 (JObj [("error", JStr "Account suspended")]).
Proof.
  intros userId db u Hnz Hfind. split.
  - intros s.
    destruct (guarded_update_reads_back userId (setStatus s) db u
                (setStatus_uid s) Hnz Hfind) as [Hout Hback].
    unfold updateStatus. rewrite Hout. cbn [fst snd].
    split; [reflexivity|]. split; [exact Hback|]. split; [reflexivity|].
    unfold Auth.isSuspended. cbn [is_active status setStatus].
    destruct (String.eqb_spec s "SUSPENDED") as [Hs|Hs];
      split_and!; split; intros; try done; try lia; try tauto.
    destruct H as [?|?]; [done | lia].
  - destruct (guarded_update_reads_back userId (setStatus "SUSPENDED") db u
                (setStatus_uid "SUSPENDED") Hnz Hfind) as [Hout Hback].
    unfold updateStatus at 1 2 3. rewrite !Hout. cbn [fst snd].
    set (db1 := (runUpdate (targets userId) (setStatus "SUSPENDED") db).1) in *.
    destruct (guarded_update_reads_back userId setUnlocked db1 _
                setUnlocked_uid Hnz Hback) as [Hout2 Hback2].
    unfold unlockUser. rewrite !Hout2. cbn [fst snd].
    exists (setUnlocked (setStatus "SUSPENDED" u)).
    split; [reflexivity|]. split; [exact Hback2|].
    split; [reflexivity|]. split; [reflexivity|].
    assert (Hsuspended : Auth.isSuspended (setUnlocked (setStatus "SUSPENDED" u)))
      by (by right).
    split; [exact Hsuspended|].
    intros req token decoded Hfresh Haccounts Htoken Hverify Hid.
    assert (Hrow : findById (p_id decoded)
                     (runUpdate (targets userId) setUnlocked db1).1
                   = Some (setUnlocked (setStatus "SUSPENDED" u)))
      by (by rewrite Hid).
    destruct (authenticateToken_token_path req _ token decoded _
                Hfresh Haccounts Htoken Hverify Hrow) as (Hrefused & _).
    by rewrite (Hrefused Hsuspended).
Qed.

(** X22.  [updateRole] stores the role as given and sets the [is_admin]
    column to 1 exactly for the two spellings SUPER_ADMIN and ADMIN.  For a
    role of the role list the column agrees with [isAdmin]; for another
    spelling of an administrator role it does not.  The column is not what
    opens the admin panel: a MODERATOR row has [is_admin = 0] and passes
    [requireAdmin]. *)
Theorem updateRole_sets_is_admin_column :
  forall (userId : Z) (newRole : string) (db : database) (u : user),
    userId ≠ 0 ->
    findById userId db = Some u ->
    (updateRole userId newRole db).2 = Some (setRole newRole u)
    ∧ findById userId (updateRole userId newRole db).1 = Some (setRole newRole u)
    ∧ role (setRole newRole u) = newRole
    ∧ (is_admin (setRole newRole u) = 1
       <-> newRole = "SUPER_ADMIN" ∨ newRole = "ADMIN")
    ∧ (is_admin (setRole newRole u) = 0
       <-> ¬ (newRole = "SUPER_ADMIN" ∨ newRole = "ADMIN"))
    ∧ (newRole ∈ Permissions.Roles ->
       (is_admin (setRole newRole u) = 1
        <-> AdminAuth.isAdmin (Some newRole) = true))
    ∧ (newRole = "admin" ->
       is_admin (setRole newRole u) = 0
       ∧ AdminAuth.isAdmin (Some newRole) = true)
    ∧ (newRole = "MODERATOR" ->
       is_admin (setRole newRole u) = 0
       ∧ forall req,
           AdminAuth.requireAdmin
             (withUser req (Auth.rowAsUser (setRole newRole u)))
           = Next (withUser req (Auth.rowAsUser (setRole newRole u)))).
Proof.
  intros userId newRole db u Hnz Hfind.
  destruct (guarded_update_reads_back userId (setRole newRole) db u
              (setRole_uid newRole) Hnz Hfind) as [Hout Hback].
  unfold updateRole. rewrite Hout. cbn [fst snd].
  split; [reflexivity|]. split; [exact Hback|]. split; [reflexivity|].
  assert (Hcolumn : is_admin (setRole newRole u)
                    = if String.eqb newRole "SUPER_ADMIN" || String.eqb newRole "ADMIN"
                      then 1 else 0).
  { cbn [is_admin setRole]. unfold Js.arrayIncludes. cbn [existsb].
    by rewrite orb_false_r. }
  assert (Hspelling : (String.eqb newRole "SUPER_ADMIN" || String.eqb newRole "ADMIN")
                      = true
                      <-> newRole = "SUPER_ADMIN" ∨ newRole = "ADMIN").
  { by rewrite orb_true_iff, !String.eqb_eq. }
  split_and!.
  - rewrite Hcolumn, <- Hspelling. destruct (_ || _); split; intros; done.
  - rewrite Hcolumn, <- Hspelling. destruct (_ || _); split; intros; done.
  - intros Hrole. rewrite Hcolumn. unfold Permissions.Roles in Hrole.
    repeat (apply elem_of_cons in Hrole as [-> | Hrole];
            [vm_compute; split; intros; done|]).
    by apply elem_of_nil in Hrole.
  - intros ->. split; reflexivity.
  - intros ->. split; [reflexivity|]. intros req.
    unfold AdminAuth.requireAdmin. apply requirePermission_passes.
    eexists. split; [reflexivity|]. vm_compute. reflexivity.
Qed.

End DerivedColumns.

(** X21 at a sample: [alice] suspended, then unlocked. *)
Lemma updateStatus_unlockUser_sample :
  UserRepository.is_active
    <$> (UserRepository.unlockUser 7
           (UserRepository.updateStatus 7 "SUSPENDED"
              (Sample.dbOf [Sample.root; Sample.alice])).1).2
  = Some 0.
Proof.
  destruct (@updateStatus_sets_is_active_unlockUser_leaves_it
              (Sample.env "OFF" "OPEN" 5 false) 7
              (Sample.dbOf [Sample.root; Sample.alice]) Sample.alice
              ltac:(lia) eq_refl)
    as (_ & row & Hrow & _ & _ & Hactive & _).
  rewrite Hrow. simpl. by rewrite Hactive.
Defined.

(** X22 at a sample: [alice] made moderator. *)
Lemma updateRole_sample :
  UserRepository.is_admin
    <$> (UserRepository.updateRole 7 "MODERATOR"
           (Sample.dbOf [Sample.root; Sample.alice])).2
  = Some 0.
Proof.
  destruct (@updateRole_sets_is_admin_column 7 "MODERATOR"
              (Sample.dbOf [Sample.root; Sample.alice]) Sample.alice
              ltac:(lia) eq_refl)
    as (Hrow & _).
  rewrite Hrow. reflexivity.
Defined.

(** ** Login: what it writes, and the session it opens *)

Section LoginMore.
Import UserRepository AuthRoutes.
Context `{E : Env}.

Lemma loginWrites_refl (db : database) : loginWrites 0 0 db db.
Proof.
  split_and!; try reflexivity; exists []; by rewrite app_nil_r.
Qed.

Lemma loginWrites_mono (n m n' m' : nat) (db db' : database) :
  (n <= n')%nat -> (m <= m')%nat ->
  loginWrites n m db db' -> loginWrites n' m' db db'.
Proof.
  intros Hn Hm (Hcols & Hseq & (rows & Hrows & Hlen) & (calls & Hcalls & Hlen')).
  split_and!; [done | done | exists rows | exists calls]; split; try done; lia.
Qed.

Lemma loginWrites_audit (n m : nat) (db db1 : database) (actorId : option Z)
    (action : string) (targetId metadata : option json) (req : request) :
  loginWrites n m db db1 ->
  loginWrites (S n) m db (audit actorId action targetId metadata req db1).
Proof.
  intros (Hcols & Hseq & (rows & Hrows & Hlen) & Hcalls).
  split_and!; [exact Hcols | exact Hseq | | exact Hcalls].
  unfold audit, setAudit, AuditLog.log. cbn [audit_logs].
  destruct (String.eqb action "").
  - exists rows. split; [done | lia].
  - eexists (rows ++ [_]). rewrite Hrows, <- app_assoc. split; [reflexivity|].
    rewrite length_app. simpl. lia.
Qed.

Lemma loginWrites_verifyPassword (u : option user) (pw : option string)
    (db : database) :
  loginWrites 0 1 db (verifyPassword u pw db).1.
Proof.
  unfold verifyPassword.
  destruct u as [usr|]; [|apply (loginWrites_mono 0 0); [lia | lia | apply loginWrites_refl]].
  destruct (String.eqb (password_hash usr) "");
    [apply (loginWrites_mono 0 0); [lia | lia | apply loginWrites_refl]|].
  destruct pw as [pw|];
    [|apply (loginWrites_mono 0 0); [lia | lia | apply loginWrites_refl]].
  split_and!; try reflexivity.
  - exists []. by rewrite app_nil_r.
  - eexists [_]. split; [reflexivity | simpl; lia].
Qed.

Lemma loginWrites_update (n m : nat) (db db1 : database) (p : user -> bool)
    (f : user -> user) :
  (forall r, accountColumns (f r) = accountColumns r) ->
  loginWrites n m db db1 ->
  loginWrites n m db (runUpdate p f db1).1.
Proof.
  intros Hkeeps (Hcols & Hseq & Hrows & Hcalls).
  split_and!; [|exact Hseq | exact Hrows | exact Hcalls].
  cbn [runUpdate fst setUsers users].
  by rewrite (updateWhere_keeps accountColumns p f (users db1) Hkeeps).
Qed.

Lemma loginWrites_recordFailedLogin (n m : nat) (db db1 : database)
    (u : option user) (maxAttempts minutes : option Z) (later : Z) :
  loginWrites n m db db1 ->
  loginWrites n m db (recordFailedLogin u maxAttempts minutes later db1).1.
Proof.
  intros Hdb1. unfold recordFailedLogin. cbv zeta.
  destruct u as [usr|]; [|exact Hdb1].
  destruct (_ >=? _); [destruct (_ >? _); [exact Hdb1|]|]; cbn [fst];
    by apply loginWrites_update.
Qed.

Lemma loginWrites_updateLastLogin (n m : nat) (db db1 : database)
    (userId later : Z) :
  loginWrites n m db db1 ->
  loginWrites n m db (updateLastLogin userId later db1).
Proof. intros Hdb1. unfold updateLastLogin. by apply loginWrites_update. Qed.

(** X23.  What a login can write.  Whatever the request and the outcome,
    [POST /login] adds and removes no row, leaves the id, names, password
    hash, role, status, [is_admin], [is_active], [force_password_reset] and
    [session_version] of every row as they were, appends at most one audit
    row and makes at most one password comparison.  Its answer is one of
    200, 401, 403, 423 and 500, and only the 200 sets the session cookie. *)
Theorem login_writes_only_lockout_columns :
  forall (now later : Z) (req : request) (db : database),
    loginWrites 1 1 db (login now later req db).1
    ∧ length (users (login now later req db).1) = length (users db)
    ∧ res_status (login now later req db).2 ∈ [200; 401; 403; 423; 500]
    ∧ (res_cookie (login now later req db).2 ≠ None
       <-> res_status (login now later req db).2 = 200).
Proof.
  intros now later req db.
  assert (Hlen : forall db',
             loginWrites 1 1 db db' -> length (users db') = length (users db)).
  { intros db' (Hcols & _). apply (f_equal length) in Hcols.
    by rewrite !length_map in Hcols. }
  assert (Hquiet : loginWrites 1 1 db db)
    by (apply (loginWrites_mono 0 0); [lia | lia | apply loginWrites_refl]).
  assert (Hidle : loginWrites 0 1 db db)
    by (apply (loginWrites_mono 0 0); [lia | lia | apply loginWrites_refl]).
  assert (Hmain : loginWrites 1 1 db (login now later req db).1
                  ∧ res_status (login now later req db).2 ∈ [200; 401; 403; 423; 500]
                  ∧ (res_cookie (login now later req db).2 ≠ None
                     <-> res_status (login now later req db).2 = 200)).
  { unfold login.
    destruct DISABLE_INTERNAL_ACCOUNTS.
    { cbn. split; [exact Hquiet|]. split; [set_solver|]. split; [done | lia]. }
    destruct (req_body_username req) as [name|].
    2:{ cbn. split; [exact Hquiet|]. split; [set_solver|]. split; [done | lia]. }
    destruct (findByUsername name db) as [user|].
    2:{ cbn [fst snd]. split; [apply loginWrites_audit, Hidle|].
        cbn. split; [set_solver|]. split; [done | lia]. }
    destruct (isLocked user now).
    { cbn [fst snd]. split; [apply loginWrites_audit, Hidle|].
      cbn. split; [set_solver|]. split; [done | lia]. }
    pose proof (loginWrites_verifyPassword (Some user) (req_body_password req) db)
      as Hverify.
    destruct (verifyPassword (Some user) (req_body_password req) db)
      as [db1 [[|]|message]]; cbn [fst snd] in *.
    - destruct (String.eqb (status user) "PENDING").
      { split; [|cbn; split; [set_solver | split; [done | lia]]].
        eapply loginWrites_mono; [| |apply loginWrites_audit, Hverify]; lia. }
      destruct (String.eqb (status user) "SUSPENDED" || (is_active user =? 0)).
      { split; [|cbn; split; [set_solver | split; [done | lia]]].
        eapply loginWrites_mono; [| |apply loginWrites_audit, Hverify]; lia. }
      cbv zeta.
      destruct (findById (uid user) (updateLastLogin (uid user) later db1))
        as [refreshedUser|]; cbn [fst snd].
      + split; [|cbn; split; [set_solver | split; [done | done]]].
        eapply loginWrites_mono;
          [| |apply loginWrites_audit, loginWrites_updateLastLogin, Hverify]; lia.
      + split; [|cbn; split; [set_solver | split; [done | lia]]].
        eapply loginWrites_mono;
          [| |apply loginWrites_updateLastLogin, Hverify]; lia.
    - cbv zeta.
      pose proof (loginWrites_recordFailedLogin 0 1 db db1 (Some user)
                    (Some (SystemConfig.maxAttempts
                             (SystemConfig.security_lockout
                                SystemConfig.getFoundationSettings)))
                    (Some (SystemConfig.durationMinutes
                             (SystemConfig.security_lockout
                                SystemConfig.getFoundationSettings)))
                    later Hverify) as Hrecorded.
      destruct (recordFailedLogin (Some user) _ _ later db1) as [db2 [[]|message]];
        cbn [fst snd] in *.
      + split; [|cbn; split; [set_solver | split; [done | lia]]].
        eapply loginWrites_mono; [| |apply loginWrites_audit, Hrecorded]; lia.
      + split; [|cbn; split; [set_solver | split; [done | lia]]].
        eapply loginWrites_mono; [| |exact Hrecorded]; lia.
    - split; [|cbn; split; [set_solver | split; [done | lia]]].
      eapply loginWrites_mono; [| |exact Hverify]; lia. }
  destruct Hmain as (Hwrites & Hstatus & Hcookie).
  split; [exact Hwrites|]. split; [by apply Hlen|]. by split.
Qed.

End LoginMore.

Section LoginSession.
Import UserRepository AuthRoutes.
Context `{E : Env}.

Lemma orNumber_orNumber (v d : Z) :
  d ≠ 0 -> Js.orNumber (Some (Js.orNumber (Some v) d)) d = Js.orNumber (Some v) d.
Proof.
  intros Hd. unfold Js.orNumber.
  destruct (Z.eqb_spec v 0) as [Hv|Hv].
  - by destruct (Z.eqb_spec d 0).
  - by destruct (Z.eqb_spec v 0).
Qed.

Lemma findByUsername_member (name : string) (db : database) (u : user) :
  findByUsername name db = Some u -> u ∈ users db.
Proof. intros Hfind. by apply find_some_matches in Hfind as [_ Hin]. Qed.

Lemma getTokenFromRequest_cookie (req : request) (token : string) :
  req_bytestashauth req = None ->
  req_cookies req = Some (Some token) ->
  token ≠ "" ->
  Auth.getTokenFromRequest req = Some token.
Proof.
  intros Hheader Hcookie Htoken. unfold Auth.getTokenFromRequest.
  rewrite Hheader, Hcookie. cbn.
  by destruct (String.eqb_spec token "").
Qed.

(** X24.  A successful login opens a session that [authenticateToken]
    accepts.  For an existing account that is not locked, not pending and
    not suspended, the right password gives 200; the failed-attempt counter
    and the lock of the row are cleared and the login time is stamped, the
    other columns are as before; the token in the body is the cookie, and
    it is the signed session payload of the row.  When the verifier accepts
    what the signer signs, a following request that carries the cookie
    passes [authenticateToken] as that user, on the database the login
    left. *)
Theorem login_success_opens_session :
  forall (now later : Z) (req : request) (db : database)
         (name pw : string) (user : user),
    DISABLE_INTERNAL_ACCOUNTS = false ->
    wellKeyed db ->
    req_body_username req = Some name ->
    req_body_password req = Some pw ->
    findByUsername name db = Some user ->
    isLocked user now = false ->
    password_hash user ≠ "" ->
    bcrypt_compare pw (password_hash user) = true ->
    status user ≠ "PENDING" ->
    ¬ Auth.isSuspended user ->
    let out := login now later req db in
    let token := Auth.createSessionToken user in
    res_status out.2 = 200
    ∧ res_cookie out.2 = Some token
    ∧ (exists row,
          findById (uid user) out.1 = Some row
          ∧ res_body out.2 = JObj [("token", JStr token);
                                   ("user", buildUserResponse row)]
          ∧ failed_login_attempts row = 0
          ∧ locked_until row = None
          ∧ last_login_at row = Some later
          ∧ accountColumns row = accountColumns user)
    ∧ (forall j, j ≠ uid user -> findById j out.1 = findById j db)
    ∧ (DISABLE_ACCOUNTS = false ->
       jwt_verify token = Some (Auth.sessionPayload user) ->
       token ≠ "" ->
       forall req2,
         req_user req2 = None ->
         req_bytestashauth req2 = None ->
         req_cookies req2 = Some (Some token) ->
         exists req3,
           Auth.authenticateToken req2 out.1 = (out.1, Next req3)
           ∧ option_map ru_id (req_user req3) = Some (uid user)).
Proof.
  intros now later req db name pw user Hflag Hkeys Hname Hpw Huser Hlock Hhash
    Hcmp Hpending Hactive out token.
  pose proof (findById_member db user Hkeys (findByUsername_member _ _ _ Huser))
    as Hrow.
  set (stamp := fun r : UserRepository.user =>
         {| uid := uid r; username := username r;
            username_normalized := username_normalized r;
            password_hash := password_hash r; role := role r;
            status := status r; is_admin := is_admin r;
            is_active := is_active r;
            failed_login_attempts := 0; locked_until := None;
            force_password_reset := force_password_reset r;
            session_version := session_version r;
            last_login_at := Some later |}).
  set (db1 := {| users := users db; users_seq := users_seq db;
                 audit_logs := audit_logs db;
                 comparisons := comparisons db ++ [(uid user, pw)] |}).
  assert (Hrow1 : findById (uid user) db1 = Some user) by exact Hrow.
  assert (Hback : findById (uid user) (updateLastLogin (uid user) later db1)
                  = Some (stamp user)).
  { unfold updateLastLogin.
    by apply (findById_runUpdate_same user stamp db1). }
  assert (Hout : out
                 = (audit (Some (uid user)) "auth.login.success"
                      (Some (JNum (uid user)))
                      (Some (JObj [("role", JStr (role (stamp user)))])) req
                      (updateLastLogin (uid user) later db1),
                    {| res_status := 200;
                       res_body := JObj [("token", JStr token);
                                         ("user", buildUserResponse (stamp user))];
                       res_cookie := Some token |})).
  { subst out. unfold login. rewrite Hflag, Hname, Huser, Hlock.
    unfold verifyPassword. rewrite Hpw, Hcmp.
    destruct (String.eqb_spec (password_hash user) ""); [contradiction|].
    destruct (String.eqb_spec (status user) "PENDING"); [contradiction|].
    destruct (String.eqb (status user) "SUSPENDED" || (is_active user =? 0))
      eqn:Hsuspended; [exfalso; by apply Hactive, isSuspended_test|].
    cbv zeta. fold db1. rewrite Hback. reflexivity. }
  rewrite Hout. cbn [fst snd res_status res_cookie res_body].
  split; [reflexivity|]. split; [reflexivity|]. split; [|split].
  - exists (stamp user). split; [exact Hback|]. by split_and!.
  - intros j Hj.
    change (findById j (updateLastLogin (uid user) later db1) = findById j db1).
    unfold updateLastLogin. by apply findById_runUpdate_else.
  - intros Haccounts Hverify Htoken req2 Huser2 Hheader Hcookie.
    assert (Hpayload : findById (p_id (Auth.sessionPayload user))
                         (audit (Some (uid user)) "auth.login.success"
                            (Some (JNum (uid user)))
                            (Some (JObj [("role", JStr (role (stamp user)))])) req
                            (updateLastLogin (uid user) later db1))
                       = Some (stamp user)) by exact Hback.
    destruct (authenticateToken_token_path req2 _ token
                (Auth.sessionPayload user) (stamp user)
                (or_introl Huser2) Haccounts
                (getTokenFromRequest_cookie req2 token Hheader Hcookie Htoken)
                Hverify Hpayload) as (_ & _ & Hpass).
    apply Hpass; [exact Hactive|].
    cbn [Auth.sessionPayload p_sessionVersion session_version stamp].
    by apply orNumber_orNumber.
Qed.


End LoginSession.

(** X24 at a sample: [alice] logs in and is authenticated by the cookie. *)
Lemma login_success_sample :
  res_status
    (@AuthRoutes.login (Sample.env "OFF" "OPEN" 5 false) 1000 1001
       (Sample.credentials "alice" "wonderland")
       (Sample.dbOf [Sample.root; Sample.alice])).2
  = 200
  ∧ res_cookie
      (@AuthRoutes.login (Sample.env "OFF" "OPEN" 5 false) 1000 1001
         (Sample.credentials "alice" "wonderland")
         (Sample.dbOf [Sample.root; Sample.alice])).2
    = Some "7.1".
Proof.
  assert (Hkeys : wellKeyed (Sample.dbOf [Sample.root; Sample.alice])).
  { unfold wellKeyed. apply (bool_decide_unpack _). vm_compute. exact I. }
  assert (Hactive : ¬ Auth.isSuspended Sample.alice).
  { intros [Hs|Ha]; discriminate. }
  destruct (@login_success_opens_session (Sample.env "OFF" "OPEN" 5 false)
              1000 1001 (Sample.credentials "alice" "wonderland")
              (Sample.dbOf [Sample.root; Sample.alice]) "alice" "wonderland"
              Sample.alice eq_refl Hkeys eq_refl eq_refl eq_refl eq_refl
              ltac:(discriminate) eq_refl ltac:(discriminate) Hactive)
    as (Hstatus & Hcookie & _).
  split; [exact Hstatus | exact Hcookie].
Defined.


(** ** Authentication: the token of a request, and the anonymous mode *)

Section TokenOfRequest.
Import UserRepository.

Lemma splitFirst_app (sep : ascii) (a b : string) :
  allChars (notChar sep) a = true ->
  Js.splitFirst sep (a +:+ String sep b) = (a, Some b).
Proof.
  induction a as [|c a IH]; intros Hclean.
  - simpl. by rewrite Ascii.eqb_refl.
  - simpl in Hclean. apply andb_true_iff in Hclean as [Hc Ha].
    change (String c a +:+ String sep b) with (String c (a +:+ String sep b)).
    simpl. unfold notChar in Hc. apply negb_true_iff in Hc. rewrite Hc.
    by rewrite (IH Ha).
Qed.

Lemma splitFirst_no_sep (sep : ascii) (s : string) :
  allChars (notChar sep) s = true -> Js.splitFirst sep s = (s, None).
Proof.
  induction s as [|c s IH]; intros Hclean; [reflexivity|].
  simpl in Hclean. apply andb_true_iff in Hclean as [Hc Hs].
  simpl. unfold notChar in Hc. apply negb_true_iff in Hc. rewrite Hc.
  by rewrite (IH Hs).
Qed.

Lemma nonempty_append (a : string) (c : ascii) (b : string) :
  a +:+ String c b ≠ "".
Proof. destruct a; discriminate. Qed.

Lemma truthy_or_none (token : option string) :
  (if Js.truthy token then token else None) ≠ Some "".
Proof.
  destruct token as [t|]; [|discriminate]. unfold Js.truthy.
  destruct (String.eqb_spec t ""); cbn [negb]; congruence.
Qed.

(** X26.  Which token a request carries.  The maintenance guard and
    [authenticateToken] read the same token from every request.  The token
    is never the empty string.  The second word of the [bytestashauth]
    header wins over the cookie; a header of one word, a header whose
    second word is empty, or no header leaves the cookie. *)
Theorem getTokenFromRequest_header_before_cookie :
  forall req : request,
    Maintenance.getTokenFromRequest req = Auth.getTokenFromRequest req
    ∧ Auth.getTokenFromRequest req ≠ Some ""
    ∧ (forall scheme token,
         req_bytestashauth req = Some (scheme +:+ String " "%char token) ->
         allChars (notChar " "%char) scheme = true ->
         allChars (notChar " "%char) token = true ->
         Auth.getTokenFromRequest req
         = if String.eqb token "" then cookieToken req else Some token)
    ∧ (forall word,
         req_bytestashauth req = Some word ->
         allChars (notChar " "%char) word = true ->
         Auth.getTokenFromRequest req = cookieToken req)
    ∧ (req_bytestashauth req = None ->
       Auth.getTokenFromRequest req = cookieToken req).
Proof.
  intros req. split; [reflexivity|].
  assert (Hcookie : forall t : option string,
             Js.truthy t = false ->
             (let token :=
                match req_cookies req with
                | Some cookies => if negb (Js.truthy t) then cookies else t
                | None => t
                end in
              if Js.truthy token then token else None) = cookieToken req).
  { intros t Ht. cbv zeta. rewrite Ht. unfold cookieToken. cbn [negb].
    destruct (req_cookies req) as [[c|]|]; cbn.
    - by destruct (String.eqb c "").
    - reflexivity.
    - by rewrite Ht. }
  split; [|split; [|split]].
  - unfold Auth.getTokenFromRequest. cbv zeta. apply truthy_or_none.
  - intros scheme token Hheader Hscheme Htoken.
    unfold Auth.getTokenFromRequest. rewrite Hheader.
    assert (Hnonempty : Js.truthy (Some (scheme +:+ String " "%char token)) = true).
    { cbn. destruct (String.eqb_spec (scheme +:+ String " "%char token) "") as [He|_];
        [by apply nonempty_append in He | reflexivity]. }
    rewrite Hnonempty. cbn [from_option id].
    unfold Js.splitAt1. rewrite (splitFirst_app _ _ _ Hscheme). cbn [snd].
    unfold Js.splitAt0. rewrite (splitFirst_no_sep _ _ Htoken). cbn [fst].
    destruct (String.eqb_spec token "") as [->|Hne].
    + by apply (Hcookie (Some "")).
    + assert (Htruthy : Js.truthy (Some token) = true).
      { cbn. by destruct (String.eqb_spec token ""). }
      cbv zeta. destruct (req_cookies req) as [cookies|]; rewrite Htruthy;
        cbn [negb]; by rewrite ?Htruthy.
  - intros word Hheader Hword.
    unfold Auth.getTokenFromRequest. rewrite Hheader. cbn [from_option id].
    unfold Js.splitAt1. rewrite (splitFirst_no_sep _ _ Hword). cbn [snd].
    destruct (Js.truthy (Some word)); by apply (Hcookie None).
  - intros Hheader. unfold Auth.getTokenFromRequest. rewrite Hheader.
    by apply (Hcookie None).
Qed.

End TokenOfRequest.

Section AnonymousMode.
Import UserRepository.
Context `{E : Env}.

Lemma authenticateToken_anonymous (req : request) (db : database) :
  DISABLE_ACCOUNTS = true ->
  req_user req = None ∨ req_apiKey req = false ->
  Auth.authenticateToken req db
  = match Auth.getOrCreateAnonymousUser db with
    | (db', Ok anonymousUser) =>
        (db', Next (withUser req (Auth.rowAsUser anonymousUser)))
    | (db', Throw _) =>
        (db', Respond 500 (JObj [("error", JStr "Internal server error")]))
    end.
Proof.
  intros Hmode Hfresh. unfold Auth.authenticateToken. rewrite Hmode.
  destruct Hfresh as [-> | Hkey]; [reflexivity|].
  rewrite Hkey. by destruct (req_user req).
Qed.

Lemma existsb_uid_findById (i : Z) (db : database) :
  existsb (fun r => uid r =? i) (users db) = false -> findById i db = None.
Proof.
  intros Hnone. apply findById_None. intros r Hr Hid.
  assert (Hhas : existsb (fun r => uid r =? i) (users db) = true).
  { apply existsb_exists. exists r. split; [by apply list_elem_of_In | lia]. }
  congruence.
Qed.

(** X27.  With [DISABLE_ACCOUNTS=true] every request that is not already
    authenticated by an API key is given the user with id 0, whatever token
    it carries, or a 500 that leaves the database as it was.  The row with
    id 0 is created on the first such request and only then; it exists
    afterwards, no other id resolves differently, and every later request
    is given the same id and name without a further write. *)
Theorem authenticateToken_anonymous_mode :
  forall (req : request) (db : database),
    DISABLE_ACCOUNTS = true ->
    req_user req = None ∨ req_apiKey req = false ->
    let out := Auth.authenticateToken req db in
    (out = (db, Respond 500 (JObj [("error", JStr "Internal server error")]))
     ∧ findById 0 db = None)
    ∨ (exists (u : auth_user) (row : user),
          out.2 = Next (withUser req u)
          ∧ ru_id u = 0
          ∧ findById 0 out.1 = Some row
          ∧ ru_username u = username row
          ∧ ru_role u = Some (role row)
          ∧ (is_Some (findById 0 db) -> out.1 = db)
          ∧ (findById 0 db = None ->
             users out.1 = users db ++ [anonymousRow generateAnonymousUsername])
          ∧ (forall j, j ≠ 0 -> findById j out.1 = findById j db)
          ∧ forall req',
              req_user req' = None ∨ req_apiKey req' = false ->
              Auth.authenticateToken req' out.1
              = (out.1, Next (withUser req' (Auth.rowAsUser row)))).
Proof.
  intros req db Hmode Hfresh out. subst out.
  rewrite (authenticateToken_anonymous req db Hmode Hfresh).
  unfold Auth.getOrCreateAnonymousUser.
  destruct (findById 0 db) as [existing|] eqn:Hzero.
  - right. exists (Auth.rowAsUser existing), existing. cbn [fst snd].
    split; [reflexivity|]. split; [by apply (findById_uid 0 db)|].
    split; [exact Hzero|]. split; [reflexivity|]. split; [reflexivity|].
    split; [done|]. split; [discriminate|]. split; [done|].
    intros req' Hfresh'. rewrite (authenticateToken_anonymous req' db Hmode Hfresh').
    unfold Auth.getOrCreateAnonymousUser. by rewrite Hzero.
  - unfold createAnonymousUser.
    destruct (existsb (fun r => uid r =? 0) (users db)) eqn:Hhas.
    { exfalso. apply existsb_exists in Hhas as (r & Hr & Hid).
      apply (proj1 (findById_None 0 db) Hzero r); [by apply list_elem_of_In | lia]. }
    destruct (normalizedTaken (Js.toLowerCase generateAnonymousUsername) db);
      [by left|].
    destruct (usernameTaken generateAnonymousUsername db); [by left|].
    right. set (row := anonymousRow generateAnonymousUsername).
    set (db' := setUsers (users db ++ [row]) db).
    assert (Hrow : findById 0 db' = Some row).
    { unfold findById. cbn [db' setUsers users].
      rewrite (find_app_none _ _ _ Hzero). reflexivity. }
    exists (Auth.rowAsUser row), row. cbn [fst snd].
    split; [reflexivity|]. split; [reflexivity|]. split; [exact Hrow|].
    split; [reflexivity|]. split; [reflexivity|].
    split; [by intros [? ?]|]. split; [done|]. split.
    + intros j Hj. unfold findById. cbn [db' setUsers users].
      destruct (find (fun r => uid r =? j) (users db)) as [x|] eqn:Hfind.
      * by apply find_app_first.
      * rewrite (find_app_none _ _ _ Hfind). unfold row.
        cbn [find uid anonymousRow].
        destruct (Z.eqb_spec 0 j); [congruence | reflexivity].
    + intros req' Hfresh'.
      rewrite (authenticateToken_anonymous req' db' Hmode Hfresh').
      unfold Auth.getOrCreateAnonymousUser. by rewrite Hrow.
Qed.

End AnonymousMode.

(** X27 at a sample: the first request creates the anonymous row. *)
Lemma authenticateToken_anonymous_sample :
  length
    (UserRepository.users
       (@Auth.authenticateToken anonymousEnv
          (Sample.requestTo "/api/snippets" (Some "Bearer 7.1"))
          (Sample.dbOf [Sample.root; Sample.alice])).1)
  = 3%nat.
Proof.
  destruct (@authenticateToken_anonymous_mode anonymousEnv
              (Sample.requestTo "/api/snippets" (Some "Bearer 7.1"))
              (Sample.dbOf [Sample.root; Sample.alice]) eq_refl (or_introl eq_refl))
    as [[Hfailed _] | (u & row & _ & _ & _ & _ & _ & _ & Hcreated & _)].
  - vm_compute in Hfailed. discriminate.
  - rewrite (Hcreated eq_refl). reflexivity.
Defined.

(** ** Admin routes: the checks before a user is changed *)

Section AdminChecks.
Import UserRepository AdminRoutes.
Context `{R : AdminRepository.Operations}.

Lemma guarded_cases (failed : string) (req : request) (db : database)
    (handler : auth_user -> database * response) :
  (req_user req = None
   ∧ guarded failed req db handler
     = (db, send 401 (JObj [("message", JStr "Authentication required")])))
  ∨ (exists actor,
        req_user req = Some actor
        ∧ Permissions.hasPermission (ru_role actor)
            (Some Permissions.ADMIN_USERS_WRITE) = false
        ∧ guarded failed req db handler
          = (db, send 403 (JObj [("message", JStr "Insufficient permissions")])))
  ∨ (exists actor,
        req_user req = Some actor
        ∧ Permissions.hasPermission (ru_role actor)
            (Some Permissions.ADMIN_USERS_WRITE) = true
        ∧ guarded failed req db handler = handler actor).
Proof.
  unfold guarded, AclMiddleware.requirePermission.
  destruct (req_user req) as [actor|] eqn:Hactor; [|by left].
  right. cbv zeta. rewrite hasPermission_normalized.
  destruct (Permissions.hasPermission (ru_role actor)
              (Some Permissions.ADMIN_USERS_WRITE)) eqn:Hperm; cbn [negb].
  - right. exists actor. by rewrite Hactor.
  - left. by exists actor.
Qed.

Lemma assertNotSelfMutation_cases (actor : auth_user) (userId : Z) :
  (userId = ru_id actor
   ∧ assertNotSelfMutation actor userId
     = Some "Cannot modify your own account in this action")
  ∨ (userId ≠ ru_id actor ∧ assertNotSelfMutation actor userId = None).
Proof.
  unfold assertNotSelfMutation.
  destruct (Z.eqb_spec userId (ru_id actor)); [by left | by right].
Qed.

Lemma orString_empty (v : option string) : Js.orString v "" = default "" v.
Proof.
  destruct v as [s|]; [|reflexivity]. unfold Js.orString.
  by destruct (String.eqb_spec s "") as [->|].
Qed.

Lemma arrayIncludes_elem_of (l : list string) (x : string) :
  Js.arrayIncludes l x = true <-> x ∈ l.
Proof. unfold Js.arrayIncludes. apply existsb_eqb_elem_of. Qed.

(** X28.  The routes that change a user, over every implementation of the
    admin repository.  Without a user on the request all four answer 401,
    and with a user whose role lacks [admin.users.write] all four answer
    403.  With the permission, the status, role and reset-sessions routes
    answer 400 when the target is the acting user, before the value is
    looked at, and the status and role routes answer 400 when the
    upper-cased value is not an editable one.  In each of these cases the
    database, audit log included, is as it was, whatever the repository
    would have done.  Otherwise the repository operation is applied to the
    database with the upper-cased value (for force-password-reset, with
    the flag read from the body, the only checks being the first two):
    when it returns, one audit row of the actor is appended and the answer
    is 200 with the value returned; when it throws, the answer is 500 and
    no audit row is written. *)
Theorem admin_user_routes_check_before_writing :
  forall (userId : Z) (bodyStatus bodyRole : option string)
         (bodyFlag : option flagValue) (req : request) (db : database),
    Js.isAscii (default "" bodyStatus) = true ->
    Js.isAscii (default "" bodyRole) = true ->
    (forall actor, req_user req = Some actor ->
       Js.isAscii (default "" (ru_role actor)) = true) ->
    let newStatus := Js.toUpperCase (default "" bodyStatus) in
    let newRole := Js.toUpperCase (default "" bodyRole) in
    let flag := normalizeBool bodyFlag true in
    let refusedAll (answer : response) :=
      patchStatus userId bodyStatus req db = (db, answer)
      ∧ patchRole userId bodyRole req db = (db, answer)
      ∧ patchResetSessions userId req db = (db, answer)
      ∧ patchForcePasswordReset userId bodyFlag req db = (db, answer) in
    let applied (failed action : string) (actor : auth_user)
                (metadata : option json)
                (returned : database * result json)
                (out : database * response) :=
      match returned with
      | (db1, Ok user) =>
          out = (setAudit
                   (AuditLog.log (Some (ru_id actor)) action (Some "user")
                      (Some (JNum userId)) metadata (Some req) (audit_logs db1))
                   db1,
                 send 200 user)
      | (db1, Throw _) =>
          out = (db1, send 500 (JObj [("message", JStr failed)]))
      end in
    let self :=
      send 400 (JObj [("message",
                       JStr "Cannot modify your own account in this action")]) in
    (req_user req = None ->
       refusedAll (send 401 (JObj [("message", JStr "Authentication required")])))
    ∧ (forall actor,
         req_user req = Some actor ->
         (Permissions.hasPermission (ru_role actor)
            (Some "admin.users.write") = false ->
          refusedAll (send 403 (JObj [("message", JStr "Insufficient permissions")])))
         ∧ (Permissions.hasPermission (ru_role actor)
              (Some "admin.users.write") = true ->
            applied "Failed to update force password reset state"
              "admin.user.force_password_reset" actor
              (Some (JObj [("forcePasswordReset", JBool flag)]))
              (AdminRepository.setForcePasswordReset userId flag db)
              (patchForcePasswordReset userId bodyFlag req db)
            ∧ (userId = ru_id actor ->
               patchStatus userId bodyStatus req db = (db, self)
               ∧ patchRole userId bodyRole req db = (db, self)
               ∧ patchResetSessions userId req db = (db, self))
            ∧ (userId ≠ ru_id actor ->
               (newStatus ∉ ["PENDING"; "ACTIVE"; "SUSPENDED"] ->
                patchStatus userId bodyStatus req db
                = (db, send 400 (JObj [("message", JStr "Invalid status value")])))
               ∧ (newStatus ∈ ["PENDING"; "ACTIVE"; "SUSPENDED"] ->
                  applied "Failed to update user status"
                    (if String.eqb newStatus "ACTIVE" then "admin.user.approve"
                     else "admin.user.status_change")
                    actor (Some (JObj [("status", JStr newStatus)]))
                    (AdminRepository.setUserStatus userId newStatus db)
                    (patchStatus userId bodyStatus req db))
               ∧ (newRole ∉ ["SUPER_ADMIN"; "ADMIN"; "MODERATOR"; "USER"; "READ_ONLY"] ->
                  patchRole userId bodyRole req db
                  = (db, send 400 (JObj [("message", JStr "Invalid role value")])))
               ∧ (newRole ∈ ["SUPER_ADMIN"; "ADMIN"; "MODERATOR"; "USER"; "READ_ONLY"] ->
                  applied "Failed to update user role" "admin.user.role_change"
                    actor (Some (JObj [("role", JStr newRole)]))
                    (AdminRepository.setUserRole userId newRole db)
                    (patchRole userId bodyRole req db))
               ∧ applied "Failed to reset user sessions"
                   "admin.user.reset_sessions" actor None
                   (AdminRepository.resetUserSessions userId db)
                   (patchResetSessions userId req db)))).
Proof.
  intros userId bodyStatus bodyRole bodyFlag req db _ _ _ newStatus newRole flag
    refusedAll applied self.
  subst refusedAll applied self. cbv beta.
  unfold patchStatus, patchRole, patchResetSessions, patchForcePasswordReset.
  cbv zeta. rewrite !orString_empty. fold newStatus newRole flag.
  split.
  - intros Hnone. unfold guarded, AclMiddleware.requirePermission.
    rewrite Hnone. by split_and!.
  - intros actor Hactor. split.
    + intros Hperm.
      assert (Hrefused : forall failed handler,
                 guarded failed req db handler
                 = (db, send 403 (JObj [("message", JStr "Insufficient permissions")]))).
      { intros failed handler.
        destruct (guarded_cases failed req db handler)
          as [[Hnone _] | [(a & Ha & _ & Hout) | (a & Ha & Hp & _)]];
          unfold Permissions.ADMIN_USERS_WRITE in *;
          [congruence | exact Hout | congruence]. }
      rewrite !Hrefused. by split_and!.
    + intros Hperm.
      assert (Hpassed : forall failed handler,
                 guarded failed req db handler = handler actor).
      { intros failed handler.
        destruct (guarded_cases failed req db handler)
          as [[Hnone _] | [(a & Ha & Hp & _) | (a & Ha & _ & Hout)]];
          unfold Permissions.ADMIN_USERS_WRITE in *;
          [congruence | congruence|].
        rewrite Hout. congruence. }
      rewrite !Hpassed. unfold answer.
      split; [by destruct (AdminRepository.setForcePasswordReset userId flag db)
                as [db1 [user|message]]|].
      destruct (assertNotSelfMutation_cases actor userId)
        as [[Hself ->] | [Hother ->]].
      * split; [intros _; by split_and!|]. intros Hne. contradiction.
      * split; [intros Heq; contradiction|]. intros _.
        unfold editableStatuses, editableRoles.
        split_and!.
        -- intros Hinvalid.
           destruct (Js.arrayIncludes ["PENDING"; "ACTIVE"; "SUSPENDED"] newStatus)
             eqn:Hin; [|reflexivity].
           apply arrayIncludes_elem_of in Hin. contradiction.
        -- intros Hvalid. apply arrayIncludes_elem_of in Hvalid.
           rewrite Hvalid. cbn [negb].
           by destruct (AdminRepository.setUserStatus userId newStatus db)
             as [db1 [user|message]].
        -- intros Hinvalid.
           destruct (Js.arrayIncludes _ newRole) eqn:Hin; [|reflexivity].
           apply arrayIncludes_elem_of in Hin. contradiction.
        -- intros Hvalid.
           assert (Hin : Js.arrayIncludes Permissions.Roles newRole = true)
             by (apply arrayIncludes_elem_of; exact Hvalid).
           rewrite Hin. cbn [negb].
           by destruct (AdminRepository.setUserRole userId newRole db)
             as [db1 [user|message]].
        -- by destruct (AdminRepository.resetUserSessions userId db)
             as [db1 [user|message]].
Qed.

End AdminChecks.

(** X28 at a sample: the super admin suspends [alice] through a repository
    that runs the status statement; a request for the acting user's own id
    is refused. *)
Lemma admin_user_routes_sample :
  res_status
    (@AdminRoutes.patchStatus sampleAdminRepository 7 (Some "suspended")
       (Sample.actingAs Sample.root Sample.request0)
       (Sample.dbOf [Sample.root; Sample.alice])).2
  = 200
  ∧ @AdminRoutes.patchStatus sampleAdminRepository 1 (Some "suspended")
      (Sample.actingAs Sample.root Sample.request0)
      (Sample.dbOf [Sample.root; Sample.alice])
    = (Sample.dbOf [Sample.root; Sample.alice],
       send 400 (JObj [("message",
                        JStr "Cannot modify your own account in this action")])).
Proof.
  destruct (@admin_user_routes_check_before_writing sampleAdminRepository
              7 (Some "suspended") None None
              (Sample.actingAs Sample.root Sample.request0)
              (Sample.dbOf [Sample.root; Sample.alice]) eq_refl eq_refl
              ltac:(intros actor Hactor; inversion Hactor; reflexivity))
    as (_ & Hacting).
  destruct (Hacting (Auth.rowAsUser Sample.root) eq_refl) as (_ & Hallowed).
  destruct (Hallowed eq_refl) as (_ & _ & Hother).
  destruct (Hother ltac:(simpl; lia)) as (_ & Hstatus & _).
  specialize (Hstatus ltac:(right; right; left)).
  destruct (@admin_user_routes_check_before_writing sampleAdminRepository
              1 (Some "suspended") None None
              (Sample.actingAs Sample.root Sample.request0)
              (Sample.dbOf [Sample.root; Sample.alice]) eq_refl eq_refl
              ltac:(intros actor Hactor; inversion Hactor; reflexivity))
    as (_ & Hacting').
  destruct (Hacting' (Auth.rowAsUser Sample.root) eq_refl) as (_ & Hallowed').
  destruct (Hallowed' eq_refl) as (_ & Hself & _).
  destruct (Hself eq_refl) as (Hrefused & _).
  split; [|exact Hrefused].
  cbv zeta in Hstatus.
  destruct (@AdminRepository.setUserStatus sampleAdminRepository 7 _ _)
    as [db1 [user|message]] eqn:Hcall; [by rewrite Hstatus|].
  vm_compute in Hcall. discriminate.
Defined.

(** ** Audit log: the client address of a row *)

Section AuditContext.

(** X29.  An audit row carries the client address the rate limiter keys
    on.  [log] writes nothing for an empty action and otherwise appends
    exactly one row, with the actor, action and target it was given; the
    address of the row is the first forwarded-for entry, else the
    connection address, as for the rate limiter, and where the row has
    NULL the rate limiter says [unknown].  Neither the address nor the user
    agent of a row is the empty string. *)
Theorem audit_row_has_the_rate_limiter_address :
  forall (actorId : option Z) (action : string)
         (targetType : option string) (targetId metadata : option json)
         (req : request) (rows : list AuditLog.entry),
    (action = "" ->
     AuditLog.log actorId action targetType targetId metadata (Some req) rows
     = rows)
    ∧ (action ≠ "" ->
       exists row,
         AuditLog.log actorId action targetType targetId metadata (Some req) rows
         = rows ++ [row]
         ∧ AuditLog.actor_id row = actorId
         ∧ AuditLog.action row = action
         ∧ AuditLog.target_id row = targetId
         ∧ default "unknown" (AuditLog.ip_address row) = RateLimiter.getClientIp req
         ∧ AuditLog.ip_address row ≠ Some ""
         ∧ AuditLog.user_agent row ≠ Some "")
    ∧ (AuditLog.getRequestContext None = (None, None)).
Proof.
  intros actorId action targetType targetId metadata req rows.
  split; [|split; [|reflexivity]].
  - intros ->. reflexivity.
  - intros Haction. unfold AuditLog.log.
    destruct (String.eqb_spec action "") as [|_]; [contradiction|].
    eexists. split; [reflexivity|]. cbn [AuditLog.actor_id AuditLog.action
      AuditLog.target_id AuditLog.ip_address AuditLog.user_agent].
    split; [reflexivity|]. split; [reflexivity|]. split; [reflexivity|].
    unfold AuditLog.getRequestContext, RateLimiter.getClientIp. cbv zeta.
    cbn [fst snd].
    split; [|split].
    + destruct (match req_x_forwarded_for req with
                | Some h => Some (Js.trim (Js.splitAt0 "," h))
                | None => None
                end) as [forwarded|]; cbn [Js.truthy];
        [destruct (negb (String.eqb forwarded "")); [reflexivity|]|];
        (destruct (req_ip req) as [ip|]; cbn [Js.truthy];
         [destruct (negb (String.eqb ip "")) |]; reflexivity).
    + destruct (Js.truthy (match req_x_forwarded_for req with
                           | Some h => Some (Js.trim (Js.splitAt0 "," h))
                           | None => None
                           end)) eqn:Hforwarded.
      * intros Hempty. rewrite Hempty in Hforwarded. discriminate.
      * destruct (Js.truthy (req_ip req)) eqn:Hip; [|discriminate].
        intros Hempty. rewrite Hempty in Hip. discriminate.
    + destruct (Js.truthy (req_user_agent req)) eqn:Hagent; [|discriminate].
      intros Hempty. rewrite Hempty in Hagent. discriminate.
Qed.

End AuditContext.
